(** * Superset dashboard state container

    A shallow embedding of three pieces of the front end:

    - [superset/assets/src/modules/Registry.js]: the keyed registry with
      memoised promises;
    - [superset/assets/javascripts/dashboard/reducers.js]: [getInitialState],
      the [dashboard] reducer and the composite store;
    - the library calls those files make ([Object.assign], [d3.merge],
      [Array.prototype.find] ...), as far as the code uses them.

    JavaScript values are untyped and objects have identity, so the embedding
    is a small state-and-exception monad over an explicit heap: a reference
    is an index into the heap, [===] on objects compares indices, and a
    handler that copies an object allocates a new cell.

    Conventions of the fragment:
    - numbers are the integer-valued doubles ([VNum n]) and [NaN]; a
      conversion that would leave the safe-integer range ends the run as
      [Unmodelled];
    - strings are ASCII;
    - an object used as a map is its own properties: names inherited from
      [Object.prototype] are not looked up;
    - functions are not first-class values of the fragment, so a property
      that holds a method ([forEach], [indexOf], ...) is modelled at its
      call sites. *)

From Stdlib Require Import ZArith String Ascii List Bool Lia.
From stdpp Require Import base option list strings numbers pretty gmap.
Import ListNotations.

(** ** JavaScript values, objects and the heap *)

Module JS.

Abbreviation loc := nat (only parsing).

Inductive val : Type :=
| VUndef
| VNull
| VBool (b : bool)
| VNum (n : Z)
| VNaN
| VStr (s : string)
| VRef (l : loc).

(** Own properties in creation order. *)
Abbreviation props := (list (string * val)) (only parsing).

Inductive settled : Type :=
| Fulfilled (v : val)
| Rejected (reason : val).

Inductive obj : Type :=
| OObj (ps : props)
| OArr (es : list val)
| OPromise (st : settled).

Abbreviation heap := (list obj) (only parsing).

Inductive exn : Type := TypeError | RangeError | SyntaxError.

Inductive outcome (A : Type) : Type :=
| Ret (a : A)
| Throw (e : exn)
| Unmodelled.
Arguments Ret {A} a.
Arguments Throw {A} e.
Arguments Unmodelled {A}.

Definition M (A : Type) : Type := heap -> outcome A * heap.

Definition ret {A} (a : A) : M A := fun h => (Ret a, h).

Definition bind {A B} (m : M A) (f : A -> M B) : M B :=
  fun h =>
    match m h with
    | (Ret a, h') => f a h'
    | (Throw e, h') => (Throw e, h')
    | (Unmodelled, h') => (Unmodelled, h')
    end.

Definition throw {A} (e : exn) : M A := fun h => (Throw e, h).

Definition unmodelled {A} : M A := fun h => (Unmodelled, h).

(** [try { m } catch (e) { handler e }]. *)
Definition try_catch {A} (m : M A) (handler : exn -> M A) : M A :=
  fun h =>
    match m h with
    | (Throw e, h') => handler e h'
    | r => r
    end.

Declare Scope js_scope.
Delimit Scope js_scope with js.
Notation "'let*' x ':=' m 'in' k" := (bind m (fun x => k))
  (at level 10, x pattern, m at level 100, k at level 200) : js_scope.
Open Scope js_scope.

Definition of_option {A} (o : option A) : M A :=
  match o with Some a => ret a | None => unmodelled end.

Fixpoint mapM {A B} (f : A -> M B) (l : list A) : M (list B) :=
  match l with
  | [] => ret []
  | x :: l' => let* y := f x in let* ys := mapM f l' in ret (y :: ys)
  end.

Fixpoint iterM {A} (f : A -> M unit) (l : list A) : M unit :=
  match l with
  | [] => ret tt
  | x :: l' => let* _ := f x in iterM f l'
  end.

(** *** Heap cells *)

Definition alloc (o : obj) : M val :=
  fun h => (Ret (VRef (length h)), h ++ [o]).

(** A reference outside the heap belongs to no JavaScript state. *)
Definition deref (l : loc) : M obj :=
  fun h => match h !! l with Some o => (Ret o, h) | None => (Unmodelled, h) end.

Definition store (l : loc) (o : obj) : M unit :=
  fun h => (Ret tt, <[l := o]> h).


(** [Y] has every cell of [X], as it is in [X]. *)
Definition extends (X Y : heap) : Prop :=
  forall (l : loc) (o : obj), X !! l = Some o -> Y !! l = Some o.

(** [Y] keeps every cell of [X] but the one at [ll]. *)
Definition keeps (ll : loc) (X Y : heap) : Prop :=
  forall (l : loc) (o : obj), l <> ll -> X !! l = Some o -> Y !! l = Some o.

(** *** Conversions *)

Definition truthy (v : val) : bool :=
  match v with
  | VUndef | VNull | VNaN => false
  | VBool b => b
  | VNum n => negb (n =? 0)%Z
  | VStr s => negb (String.eqb s "")
  | VRef _ => true
  end.

(** [a === b]. *)
Definition strict_eq (a b : val) : bool :=
  match a, b with
  | VUndef, VUndef | VNull, VNull => true
  | VBool x, VBool y => Bool.eqb x y
  | VNum x, VNum y => (x =? y)%Z
  | VStr x, VStr y => String.eqb x y
  | VRef x, VRef y => Nat.eqb x y
  | _, _ => false
  end.

Definition safe_integer (n : Z) : bool := (Z.abs n <=? 9007199254740991)%Z.

(** [String(v)], which is also the property key [v] stands for in [o[v]].
    Converting an object would call its [toString]. *)
Definition to_key (v : val) : option string :=
  match v with
  | VUndef => Some "undefined"
  | VNull => Some "null"
  | VBool true => Some "true"
  | VBool false => Some "false"
  | VNum n => if safe_integer n then Some (pretty n) else None
  | VNaN => Some "NaN"
  | VStr s => Some s
  | VRef _ => None
  end.

Definition String_ (v : val) : M val :=
  let* s := of_option (to_key v) in ret (VStr s).

(** *** Property lists *)

Fixpoint pget (k : string) (ps : props) : option val :=
  match ps with
  | [] => None
  | (k', v) :: ps' => if String.eqb k k' then Some v else pget k ps'
  end.

Fixpoint pset (k : string) (v : val) (ps : props) : props :=
  match ps with
  | [] => [(k, v)]
  | (k', v') :: ps' =>
      if String.eqb k k' then (k, v) :: ps' else (k', v') :: pset k v ps'
  end.

Fixpoint pdel (k : string) (ps : props) : props :=
  match ps with
  | [] => []
  | (k', v') :: ps' =>
      if String.eqb k k' then pdel k ps' else (k', v') :: pdel k ps'
  end.

Definition pget_or_undef (k : string) (ps : props) : val :=
  default VUndef (pget k ps).

Definition pset_all (es : props) (ps : props) : props :=
  fold_left (fun acc kv => pset kv.1 kv.2 acc) es ps.

(** Value of a string of decimal digits. *)
Fixpoint digits_value (acc : N) (s : string) : option N :=
  match s with
  | EmptyString => Some acc
  | String c s' =>
      let d := N_of_ascii c in
      if ((48 <=? d) && (d <=? 57))%N
      then digits_value (acc * 10 + (d - 48))%N s'
      else None
  end.

(** An array index is a canonical numeric string below 2^32 - 1. *)
Definition array_index (k : string) : option N :=
  match k with
  | EmptyString => None
  | _ =>
      match digits_value 0 k with
      | Some n =>
          if (String.eqb (pretty n) k && (n <? 4294967295)%N)%bool
          then Some n else None
      | None => None
      end
  end.

Fixpoint insert_by_index (e : N * (string * val)) (l : list (N * (string * val)))
  : list (N * (string * val)) :=
  match l with
  | [] => [e]
  | e' :: l' => if (e.1 <=? e'.1)%N then e :: l else e' :: insert_by_index e l'
  end.

Definition sort_by_index (l : list (N * (string * val))) : list (N * (string * val)) :=
  foldr insert_by_index [] l.

Definition index_entries (ps : props) : list (N * (string * val)) :=
  omap (fun kv => match array_index kv.1 with Some n => Some (n, kv) | None => None end) ps.

Definition name_entries (ps : props) : props :=
  filter (fun kv => array_index kv.1 = None) ps.

(** The order in which [for ... in] and [Object.assign] visit an ordinary
    object: array indices ascending, then the other names as created. *)
Definition own_entries (ps : props) : props :=
  (sort_by_index (index_entries ps)).*2 ++ name_entries ps.

Definition chars_of (s : string) : list val :=
  map (fun c => VStr (String c EmptyString)) (list_ascii_of_string s).

Definition indexed (es : list val) : props :=
  imap (fun i v => (pretty i, v)) es.

(** Own enumerable properties of any value, in visiting order. *)
Definition own_enumerable (v : val) : M props :=
  match v with
  | VRef l =>
      let* o := deref l in
      match o with
      | OObj ps => ret (own_entries ps)
      | OArr es => ret (indexed es)
      | OPromise _ => ret []
      end
  | VStr s => ret (indexed (chars_of s))
  | _ => ret []
  end.

(** *** Property access *)

Definition elem_or_undef (es : list val) (k : string) : val :=
  match array_index k with
  | Some n => default VUndef (es !! N.to_nat n)
  | None => VUndef
  end.

(** [v.k] and [v[k]]. *)
Definition get_prop (v : val) (k : string) : M val :=
  match v with
  | VUndef | VNull => throw TypeError
  | VRef l =>
      let* o := deref l in
      match o with
      | OObj ps => ret (pget_or_undef k ps)
      | OArr es =>
          if String.eqb k "length" then ret (VNum (Z.of_nat (length es)))
          else ret (elem_or_undef es k)
      | OPromise _ => ret VUndef
      end
  | VStr s =>
      if String.eqb k "length" then ret (VNum (Z.of_nat (String.length s)))
      else ret (elem_or_undef (chars_of s) k)
  | VBool _ | VNum _ | VNaN => ret VUndef
  end.

(** [v[kv]] with a computed key. *)
Definition get_index (v kv : val) : M val :=
  match v with
  | VUndef | VNull => throw TypeError
  | _ => let* k := of_option (to_key kv) in get_prop v k
  end.

(** [kv in v]. *)
Definition has_prop (kv v : val) : M bool :=
  match v with
  | VRef l =>
      let* k := of_option (to_key kv) in
      let* o := deref l in
      match o with
      | OObj ps => ret (bool_decide (is_Some (pget k ps)))
      | OArr es =>
          if String.eqb k "length" then ret true
          else ret (match array_index k with
                    | Some n => bool_decide (N.to_nat n < length es)
                    | None => false
                    end)
      | OPromise _ => ret false
      end
  | _ => throw TypeError
  end.

(** [v[k] = x] in strict-mode code (the files are ES modules). *)
Definition set_prop (v : val) (k : string) (x : val) : M unit :=
  match v with
  | VRef l =>
      let* o := deref l in
      match o with
      | OObj ps => store l (OObj (pset k x ps))
      | OArr es =>
          match array_index k with
          | Some n =>
              if bool_decide (N.to_nat n < length es)
              then store l (OArr (<[N.to_nat n := x]> es))
              else unmodelled
          | None => unmodelled
          end
      | OPromise _ => unmodelled
      end
  | _ => throw TypeError
  end.

Definition set_index (v kv x : val) : M unit :=
  match v with
  | VUndef | VNull => throw TypeError
  | _ => let* k := of_option (to_key kv) in set_prop v k x
  end.

(** [delete v.k] in strict-mode code: the characters and the length of a
    string cannot be deleted. *)
Definition delete_prop (v : val) (k : string) : M unit :=
  match v with
  | VUndef | VNull => throw TypeError
  | VRef l =>
      let* o := deref l in
      match o with
      | OObj ps => store l (OObj (pdel k ps))
      | OArr _ => unmodelled
      | OPromise _ => ret tt
      end
  | VStr s =>
      if String.eqb k "length" then throw TypeError
      else match array_index k with
           | Some n => if bool_decide (N.to_nat n < String.length s)
                       then throw TypeError else ret tt
           | None => ret tt
           end
  | _ => ret tt
  end.

Definition delete_index (v kv : val) : M unit :=
  match v with
  | VUndef | VNull => throw TypeError
  | _ => let* k := of_option (to_key kv) in delete_prop v k
  end.

(** [v.k1.k2...]. *)
Fixpoint get_path (v : val) (ks : list string) : M val :=
  match ks with
  | [] => ret v
  | k :: ks' => let* x := get_prop v k in get_path x ks'
  end.

(** An object literal [{ k1: v1, ... }]. *)
Definition new_object (ps : props) : M val := alloc (OObj (pset_all ps [])).

(** An array literal [[v1, ...]]. *)
Definition new_array (es : list val) : M val := alloc (OArr es).

(** [Object.assign(target, ...sources)] for an ordinary target. *)
Definition assign_from (target : val) (source : val) : M unit :=
  let* es := own_enumerable source in
  match target with
  | VRef l =>
      let* o := deref l in
      match o with
      | OObj ps => store l (OObj (pset_all es ps))
      | _ => unmodelled
      end
  | _ => unmodelled
  end.

Definition Object_assign (target : val) (sources : list val) : M val :=
  let* _ := iterM (assign_from target) sources in ret target.

(** *** Arrays *)

(** The receiver of an array method: anything but an array has no such
    method, and calling [undefined] is a [TypeError]. *)
Definition array_elems (v : val) : M (list val) :=
  match v with
  | VRef l =>
      let* o := deref l in
      match o with
      | OArr es => ret es
      | _ => throw TypeError
      end
  | _ => throw TypeError
  end.

(** [v instanceof Array]. *)
Definition instanceof_Array (v : val) : M bool :=
  match v with
  | VRef l =>
      let* o := deref l in
      match o with OArr _ => ret true | _ => ret false end
  | _ => ret false
  end.

(** [arr.push(x)]. *)
Definition Array_push (v x : val) : M unit :=
  match v with
  | VRef l =>
      let* o := deref l in
      match o with
      | OArr es => store l (OArr (es ++ [x]))
      | _ => throw TypeError
      end
  | _ => throw TypeError
  end.

(** [arr.forEach(f)]: the length is read once, each element when its turn
    comes; an index the array no longer has is skipped. *)
Fixpoint forEach_from (f : val -> nat -> M unit) (l : loc) (todo i : nat) : M unit :=
  match todo with
  | O => ret tt
  | S todo' =>
      let* o := deref l in
      let* _ := match o with
                | OArr es =>
                    match es !! i with
                    | Some x => f x i
                    | None => ret tt
                    end
                | _ => unmodelled
                end in
      forEach_from f l todo' (S i)
  end.

Definition Array_forEach (v : val) (f : val -> nat -> M unit) : M unit :=
  let* es := array_elems v in
  match v with
  | VRef l => forEach_from f l (length es) 0
  | _ => throw TypeError
  end.

(** [arr.find(p)], [arr.filter(p)] and [arr.map(f)] for callbacks that only
    read: the elements are those the call starts with. *)
Fixpoint find_first (p : val -> M bool) (es : list val) : M val :=
  match es with
  | [] => ret VUndef
  | x :: es' => let* b := p x in if b then ret x else find_first p es'
  end.

Definition Array_find (v : val) (p : val -> M bool) : M val :=
  let* es := array_elems v in find_first p es.

Fixpoint filter_keep (p : val -> M bool) (es : list val) : M (list val) :=
  match es with
  | [] => ret []
  | x :: es' =>
      let* b := p x in
      let* r := filter_keep p es' in
      ret (if b then x :: r else r)
  end.

Definition Array_filter (v : val) (p : val -> M bool) : M val :=
  let* es := array_elems v in
  let* r := filter_keep p es in
  new_array r.

Definition Array_map (v : val) (f : val -> M val) : M val :=
  let* es := array_elems v in
  let* r := mapM f es in
  new_array r.

Fixpoint index_of_from (x : val) (es : list val) (i : Z) : Z :=
  match es with
  | [] => (-1)%Z
  | y :: es' => if strict_eq y x then i else index_of_from x es' (i + 1)%Z
  end.

(** [v.indexOf(x)]: an array searches with [===], a string searches for
    [String(x)] as a substring, and nothing else has the method. *)
Definition indexOf (v x : val) : M Z :=
  match v with
  | VRef l =>
      let* o := deref l in
      match o with
      | OArr es => ret (index_of_from x es 0)
      | _ => throw TypeError
      end
  | VStr s =>
      let* needle := of_option (to_key x) in
      ret (match String.index 0 needle s with
           | Some n => Z.of_nat n
           | None => (-1)%Z
           end)
  | _ => throw TypeError
  end.

(** *** d3.merge (d3 v3)

    [merge] adds up the [length] of each entry, creates [new Array(total)]
    and copies the entries: a nullish entry is a [TypeError] when its
    [length] is read, any other value without a numeric [length] makes the
    total [NaN] and [new Array] a [RangeError]. *)
Definition length_of (v : val) : M (option nat) :=
  match v with
  | VUndef | VNull => throw TypeError
  | VStr s => ret (Some (String.length s))
  | VRef l =>
      let* o := deref l in
      match o with
      | OArr es => ret (Some (length es))
      | OObj ps =>
          match pget "length" ps with
          | None => ret None
          | Some _ => unmodelled
          end
      | OPromise _ => ret None
      end
  | _ => ret None
  end.

Definition elements_of (v : val) : M (list val) :=
  match v with
  | VStr s => ret (chars_of s)
  | VRef l =>
      let* o := deref l in
      match o with
      | OArr es => ret es
      | _ => unmodelled
      end
  | _ => unmodelled
  end.

Definition d3_merge (arrays : val) : M val :=
  let* arrays := elements_of arrays in
  let* lens := mapM length_of arrays in
  if forallb (fun o => bool_decide (is_Some o)) lens
  then let* parts := mapM elements_of arrays in new_array (concat parts)
  else throw RangeError.

(** *** Promises *)

(** [Promise.resolve(v)]: a promise is returned as it is. *)
Definition Promise_resolve (v : val) : M val :=
  fun h =>
    match v with
    | VRef l =>
        match h !! l with
        | Some (OPromise _) => (Ret v, h)
        | _ => alloc (OPromise (Fulfilled v)) h
        end
    | _ => alloc (OPromise (Fulfilled v)) h
    end.

Definition Promise_reject (reason : val) : M val :=
  alloc (OPromise (Rejected reason)).

(** *** Numbers from strings *)

Definition is_space (c : ascii) : bool :=
  let n := N_of_ascii c in
  ((n =? 32) || ((9 <=? n) && (n <=? 13)))%N.

Fixpoint skip_spaces (s : string) : string :=
  match s with
  | String c s' => if is_space c then skip_spaces s' else s
  | EmptyString => s
  end.

(** The longest prefix of decimal digits: how many, and their value. *)
Fixpoint leading_digits (count : nat) (acc : N) (s : string) : nat * N :=
  match s with
  | String c s' =>
      let d := N_of_ascii c in
      if ((48 <=? d) && (d <=? 57))%N
      then leading_digits (S count) (acc * 10 + (d - 48))%N s'
      else (count, acc)
  | EmptyString => (count, acc)
  end.

Definition number_from_digits (negative : bool) (s : string) : option val :=
  match leading_digits 0 0 s with
  | (O, _) => Some VNaN
  | (_, n) =>
      let z := if negative then (- Z.of_N n)%Z else Z.of_N n in
      if safe_integer z then Some (VNum z) else None
  end.

(** [parseInt(s, 10)] of a string. *)
Definition parseInt10 (s : string) : option val :=
  match skip_spaces s with
  | String "-" s' => number_from_digits true s'
  | String "+" s' => number_from_digits false s'
  | String c s' =>
      if (128 <=? N_of_ascii c)%N then None
      else number_from_digits false (String c s')
  | EmptyString => Some VNaN
  end.

End JS.

(** ** Registry.js *)

Module Registry.
Import JS.

(** [this.items] and [this.promises] are private to the instance and only
    ever indexed by key, so each is a finite map. *)
Record t : Type := mk {
  name : val;
  items : gmap string val;
  promises : gmap string val
}.

(** [constructor(name = '')]. *)
Definition new (name : val) : t :=
  mk (match name with VUndef => VStr "" | _ => name end) ∅ ∅.

Definition item_at (key : string) (r : t) : val :=
  default VUndef (items r !! key).


(** Returns [this], updated. *)
Definition register (key : string) (value : val) (r : t) : t :=
  mk (name r) (<[key := value]> (items r)) (delete key (promises r)).

Definition get (key : string) (r : t) : val :=
  let item := item_at key r in
  if truthy item then item else VNull.

Definition double_quote : string := String (ascii_of_nat 34) EmptyString.

Definition not_registered (key : string) : string :=
  "Item with key " ++ double_quote ++ key ++ double_quote ++ " is not registered.".

Definition getAsPromise (key : string) (r : t) : M (val * t) :=
  let promise := default VUndef (promises r !! key) in
  if truthy promise then ret (promise, r)
  else
    let item := get key r in
    if truthy item then
      let* newPromise := Promise_resolve item in
      ret (newPromise, mk (name r) (items r) (<[key := newPromise]> (promises r)))
    else
      let* rejected := Promise_reject (VStr (not_registered key)) in
      ret (rejected, r).

(** A client's calls on one registry. *)
Inductive call : Type :=
| Has (key : string)
| Register (key : string) (value : val)
| Get (key : string)
| GetAsPromise (key : string).

Definition perform (c : call) (r : t) : M t :=
  match c with
  | Has _ | Get _ => ret r
  | Register key value => ret (register key value r)
  | GetAsPromise key => let* pr := getAsPromise key r in ret pr.2
  end.

Fixpoint perform_all (cs : list call) (r : t) : M t :=
  match cs with
  | [] => ret r
  | c :: cs' => let* r' := perform c r in perform_all cs' r'
  end.

Definition registers (key : string) (c : call) : bool :=
  match c with
  | Register key' _ => String.eqb key key'
  | _ => false
  end.

(** The state of the future behind a value, if it is one. *)
Definition future_state (h : heap) (v : val) : option settled :=
  match v with
  | VRef l => match h !! l with Some (OPromise st) => Some st | _ => None end
  | _ => None
  end.





End Registry.

(** ** JSON.parse on the escape-free integer fragment

    [JSON.parse] is the host's; the dashboard code takes it as a parameter.
    This reference parser instantiates it where a run needs a concrete one.
    It decides the texts built from [null], [true], [false], integers,
    strings without escapes, arrays and objects, and gives up
    ([PUnmodelled]) on an escape, a fraction, an exponent or a byte outside
    ASCII. *)

Module JSON.
Import JS.

#[warnings="-register-all"]
Inductive json : Type :=
| JNull
| JBool (b : bool)
| JNum (n : Z)
| JStr (s : string)
| JArr (l : list json)
| JObj (l : list (string * json)).

Inductive presult (A : Type) : Type :=
| POk (a : A) (rest : string)
| PSyntax
| PUnmodelled.
Arguments POk {A} a rest.
Arguments PSyntax {A}.
Arguments PUnmodelled {A}.

Definition is_ws (c : ascii) : bool :=
  let n := N_of_ascii c in ((n =? 32) || (n =? 9) || (n =? 10) || (n =? 13))%N.

Fixpoint skip_ws (s : string) : string :=
  match s with
  | String c s' => if is_ws c then skip_ws s' else s
  | EmptyString => s
  end.

Fixpoint strip_prefix (p s : string) : option string :=
  match p, s with
  | EmptyString, _ => Some s
  | String a p', String b s' => if Ascii.eqb a b then strip_prefix p' s' else None
  | _, EmptyString => None
  end.

(** The characters of a string literal after its opening quote. *)
Fixpoint string_body (s : string) : presult string :=
  match s with
  | EmptyString => PSyntax
  | String c s' =>
      let n := N_of_ascii c in
      if (n =? 34)%N then POk EmptyString s'
      else if (n =? 92)%N then PUnmodelled
      else if (n <? 32)%N then PSyntax
      else if (128 <=? n)%N then PUnmodelled
      else match string_body s' with
           | POk body rest => POk (String c body) rest
           | PSyntax => PSyntax
           | PUnmodelled => PUnmodelled
           end
  end.

Definition is_digit (c : ascii) : bool :=
  let n := N_of_ascii c in ((48 <=? n) && (n <=? 57))%N.

Definition continues_number (s : string) : bool :=
  match s with
  | String c _ =>
      let n := N_of_ascii c in ((n =? 46) || (n =? 101) || (n =? 69))%N
  | EmptyString => false
  end.

Fixpoint drop_digits (s : string) : string :=
  match s with
  | String c s' => if is_digit c then drop_digits s' else s
  | EmptyString => s
  end.

(** [-]? ( 0 | [1-9][0-9]* ), with nothing of a fraction or exponent after. *)
Definition number (negative : bool) (s : string) : presult json :=
  match s with
  | String c s' =>
      if is_digit c then
        let rest := if Ascii.eqb c "0" then s' else drop_digits s' in
        if continues_number rest then PUnmodelled
        else
          let digits := if Ascii.eqb c "0" then 1%nat
                        else (String.length s - String.length rest)%nat in
          match digits_value 0 (substring 0 digits s) with
          | Some n =>
              let z := if negative then (- Z.of_N n)%Z else Z.of_N n in
              if safe_integer z then POk (JNum z) rest else PUnmodelled
          | None => PSyntax
          end
      else PSyntax
  | EmptyString => PSyntax
  end.

Fixpoint value (fuel : nat) (s : string) : presult json :=
  match fuel with
  | O => PUnmodelled
  | S fuel' =>
      let elements :=
        fix elements (n : nat) (acc : list json) (s : string) : presult json :=
          match n with
          | O => PUnmodelled
          | S n' =>
              match value fuel' s with
              | POk x rest =>
                  match skip_ws rest with
                  | String "," rest' => elements n' (x :: acc) rest'
                  | String "]" rest' => POk (JArr (rev (x :: acc))) rest'
                  | String c _ => if (128 <=? N_of_ascii c)%N then PUnmodelled else PSyntax
                  | EmptyString => PSyntax
                  end
              | PSyntax => PSyntax
              | PUnmodelled => PUnmodelled
              end
          end in
      let members :=
        fix members (n : nat) (acc : list (string * json)) (s : string) : presult json :=
          match n with
          | O => PUnmodelled
          | S n' =>
              match skip_ws s with
              | String c s1 =>
                  if (N_of_ascii c =? 34)%N then
                    match string_body s1 with
                    | POk key s2 =>
                        match skip_ws s2 with
                        | String ":" s3 =>
                            match value fuel' s3 with
                            | POk x rest =>
                                match skip_ws rest with
                                | String "," rest' => members n' ((key, x) :: acc) rest'
                                | String "}" rest' => POk (JObj (rev ((key, x) :: acc))) rest'
                                | String c' _ =>
                                    if (128 <=? N_of_ascii c')%N then PUnmodelled else PSyntax
                                | EmptyString => PSyntax
                                end
                            | PSyntax => PSyntax
                            | PUnmodelled => PUnmodelled
                            end
                        | String c' _ =>
                            if (128 <=? N_of_ascii c')%N then PUnmodelled else PSyntax
                        | EmptyString => PSyntax
                        end
                    | PSyntax => PSyntax
                    | PUnmodelled => PUnmodelled
                    end
                  else if (128 <=? N_of_ascii c)%N then PUnmodelled else PSyntax
              | EmptyString => PSyntax
              end
          end in
      match skip_ws s with
      | EmptyString => PSyntax
      | String c s' =>
          let n := N_of_ascii c in
          if (n =? 34)%N then
            match string_body s' with
            | POk body rest => POk (JStr body) rest
            | PSyntax => PSyntax
            | PUnmodelled => PUnmodelled
            end
          else if (n =? 45)%N then number true s'
          else if is_digit c then number false (String c s')
          else if (n =? 91)%N then
            match skip_ws s' with
            | String "]" rest => POk (JArr []) rest
            | _ => elements (String.length s') [] s'
            end
          else if (n =? 123)%N then
            match skip_ws s' with
            | String "}" rest => POk (JObj []) rest
            | _ => members (String.length s') [] s'
            end
          else if (128 <=? n)%N then PUnmodelled
          else
            match strip_prefix "null" (String c s') with
            | Some rest => POk JNull rest
            | None =>
                match strip_prefix "true" (String c s') with
                | Some rest => POk (JBool true) rest
                | None =>
                    match strip_prefix "false" (String c s') with
                    | Some rest => POk (JBool false) rest
                    | None => PSyntax
                    end
                end
            end
      end
  end.

Definition text (s : string) : presult json :=
  match value (S (String.length s)) s with
  | POk j rest =>
      match skip_ws rest with
      | EmptyString => POk j EmptyString
      | String c _ => if (128 <=? N_of_ascii c)%N then PUnmodelled else PSyntax
      end
  | r => r
  end.

(** The value a parsed text denotes, built in the heap: a repeated member
    name keeps its first place and its last value. *)
Fixpoint build (j : json) : M val :=
  match j with
  | JNull => ret VNull
  | JBool b => ret (VBool b)
  | JNum n => ret (VNum n)
  | JStr s => ret (VStr s)
  | JArr l =>
      let* es := (fix go (l : list json) : M (list val) :=
                    match l with
                    | [] => ret []
                    | x :: l' => let* v := build x in let* vs := go l' in ret (v :: vs)
                    end) l in
      new_array es
  | JObj l =>
      let* ps := (fix go (l : list (string * json)) : M props :=
                    match l with
                    | [] => ret []
                    | (k, x) :: l' =>
                        let* v := build x in let* vs := go l' in ret ((k, v) :: vs)
                    end) l in
      new_object ps
  end.

Definition parse (s : string) : M val :=
  match text s with
  | POk j _ => build j
  | PSyntax => throw SyntaxError
  | PUnmodelled => unmodelled
  end.

End JSON.

(** ** dashboard/reducers.js *)

Module Dashboard.
Import JS.

(** The action types of [./actions], each as the property name it becomes
    in the handler table. *)
Class ActionTypes : Type := {
  UPDATE_DASHBOARD_TITLE : string;
  UPDATE_DASHBOARD_LAYOUT : string;
  REMOVE_SLICE : string;
  TOGGLE_FAVE_STAR : string;
  TOGGLE_EXPAND_SLICE : string;
  ADD_FILTER : string;
  CLEAR_FILTER : string;
  REMOVE_FILTER : string;
  UPDATE_SLICE_NAME : string
}.

(** What the file imports from modules that are not at hand, and from the
    host. *)
Class Imports : Type := {
  (* ../modules/utils *)
  getParam : string -> M val;
  (* ../reduxUtils *)
  alterInArr : val -> string -> val -> val -> string -> M val;
  removeFromArr : val -> string -> val -> string -> M val;
  (* ../explore/stores/store *)
  applyDefaultFormData : val -> M val;
  (* ../chart/chartReducer *)
  chart : val;
  charts : val -> val -> M val;
  (* JSON.parse, on the string its argument converts to *)
  JSON_parse : string -> M val
}.

Definition reducer : Type := val -> val -> M val.

(** [to_number v] for the operands of [-]; a string or an object would
    first be converted. *)
Definition to_number (v : val) : option val :=
  match v with
  | VUndef | VNaN => Some VNaN
  | VNull => Some (VNum 0)
  | VBool b => Some (VNum (if b then 1 else 0))
  | VNum n => Some (VNum n)
  | VStr _ | VRef _ => None
  end.

(** [a - b]. *)
Definition minus (a b : val) : option val :=
  match to_number a, to_number b with
  | Some (VNum x), Some (VNum y) =>
      if safe_integer (x - y) then Some (VNum (x - y)) else None
  | Some _, Some _ => Some VNaN
  | _, _ => None
  end.

(** ['prefix' + v]. *)
Definition string_plus (prefix : string) (v : val) : M val :=
  let* s := of_option (to_key v) in ret (VStr (prefix ++ s)).

(** The position of the slice at [index] when none is stored for it. *)
Definition default_pos (index : nat) : props :=
  [ ("col", VNum ((Z.of_nat index * 4 + 1) mod 12));
    ("row", VNum (Z.of_nat index / 3 * 4));
    ("size_x", VNum 4);
    ("size_y", VNum 4) ].

(** [arr.map(f)] for a callback that may do anything: each element is read
    when its turn comes. *)
Fixpoint map_from (f : val -> M val) (l : loc) (todo i : nat) (acc : list val)
  : M (list val) :=
  match todo with
  | O => ret acc
  | S todo' =>
      let* o := deref l in
      match o with
      | OArr es =>
          match es !! i with
          | Some x => let* y := f x in map_from f l todo' (S i) (acc ++ [y])
          | None => unmodelled
          end
      | _ => unmodelled
      end
  end.

Definition Array_map_any (v : val) (f : val -> M val) : M val :=
  let* es := array_elems v in
  match v with
  | VRef l => let* r := map_from f l (length es) 0 [] in new_array r
  | _ => throw TypeError
  end.

Section reducers.
Context `{ActionTypes} `{Imports}.

(** *** getInitialState *)

(** Line 19, the argument of [JSON.parse]:
    [getParam('preselect_filters') || dashboard.metadata.default_filters]. *)
Definition preselect_text (dashboard : val) : M val :=
  let* param := getParam "preselect_filters" in
  if truthy param then ret param
  else get_path dashboard ["metadata"; "default_filters"].

(** Lines 16-26: the filters the dashboard starts with. *)
Definition getInitialState_filters (dashboard filters : val) : M unit :=
  try_catch
    (let* text := preselect_text dashboard in
     let* s := of_option (to_key text) in
     let* filterData := JSON_parse s in
     let* keys := own_enumerable filterData in
     iterM (fun kv : string * val =>
              let key := kv.1 in
              let* sliceId := of_option (parseInt10 key) in
              let* x := get_prop filterData key in
              set_index filters sliceId x)
           keys)
    (fun _ => ret tt).

(** Lines 35-55: the callback of [dashboard.slices.forEach]. *)
Definition layout_slice (dashboard slice : val) (index : nat) : M unit :=
  let* sliceId := get_prop slice "slice_id" in
  let* posDict := get_prop dashboard "posDict" in
  let* stored := get_index posDict sliceId in
  let* pos := (if truthy stored then ret stored
               else new_object (default_pos index)) in
  let* layout := get_prop dashboard "layout" in
  let* i := String_ sliceId in
  let* col := get_prop pos "col" in
  let* x := of_option (minus col (VNum 1)) in
  let* y := get_prop pos "row" in
  let* w := get_prop pos "size_x" in
  let* hgt := get_prop pos "size_y" in
  let* item := new_object [ ("i", i); ("x", x); ("y", y); ("w", w);
                            ("minW", VNum 2); ("h", hgt) ] in
  Array_push layout item.

Definition layout_slices (dashboard : val) : M unit :=
  let* slices := get_prop dashboard "slices" in
  Array_forEach slices (layout_slice dashboard).

(** Lines 28-55. *)
Definition getInitialState_layout (dashboard : val) : M unit :=
  let* posDict := new_object [] in
  let* _ := set_prop dashboard "posDict" posDict in
  let* layout := new_array [] in
  let* _ := set_prop dashboard "layout" layout in
  let* position_json := get_prop dashboard "position_json" in
  let* _ :=
    (if truthy position_json then
       let* position_json := get_prop dashboard "position_json" in
       Array_forEach position_json (fun position _ =>
         let* posDict := get_prop dashboard "posDict" in
         let* slice_id := get_prop position "slice_id" in
         set_index posDict slice_id position)
     else ret tt) in
  layout_slices dashboard.

(** Lines 57-73: one chart record per slice, and [formData] on each slice. *)
Definition getInitialState_charts (dashboard : val) : M val :=
  let* initCharts := new_object [] in
  let* slices := get_prop dashboard "slices" in
  let* _ :=
    Array_forEach slices (fun slice _ =>
      let* slice_id := get_prop slice "slice_id" in
      let* chartKey := string_plus "slice_" slice_id in
      let* target := new_object [] in
      let* slice_id := get_prop slice "slice_id" in
      let* form_data := get_prop slice "form_data" in
      let* raw := get_prop slice "form_data" in
      let* formData := applyDefaultFormData raw in
      let* fields := new_object [ ("chartKey", chartKey); ("slice_id", slice_id);
                                  ("form_data", form_data); ("formData", formData) ] in
      let* record := Object_assign target [chart; fields] in
      set_index initCharts chartKey record) in
  let* slices := get_prop dashboard "slices" in
  let* withFormData :=
    Array_map_any slices (fun slice =>
      let* target := new_object [] in
      let* raw := get_prop slice "form_data" in
      let* formData := applyDefaultFormData raw in
      let* fields := new_object [ ("formData", formData) ] in
      Object_assign target [slice; fields]) in
  let* _ := set_prop dashboard "slices" withFormData in
  ret initCharts.

Definition getInitialState (bootstrapData : val) : M val :=
  let* user_id := get_prop bootstrapData "user_id" in
  let* datasources := get_prop bootstrapData "datasources" in
  let* common := get_prop bootstrapData "common" in
  let* _ := delete_prop common "locale" in
  let* _ := delete_prop common "language_pack" in
  let* target := new_object [] in
  let* dashboard_data := get_prop bootstrapData "dashboard_data" in
  let* dashboard := Object_assign target [dashboard_data] in
  let* filters := new_object [] in
  let* _ := getInitialState_filters dashboard filters in
  let* _ := getInitialState_layout dashboard in
  let* initCharts := getInitialState_charts dashboard in
  let* target := new_object [] in
  let* fields := new_object [ ("filters", filters); ("dashboard", dashboard);
                              ("userId", user_id); ("datasources", datasources);
                              ("common", common) ] in
  let* dashboardState := Object_assign target [fields] in
  new_object [ ("charts", initCharts); ("dashboard", dashboardState) ].

(** *** The dashboard reducer

    A handler is a method of [actionHandlers] closed over [state] and
    [action]. *)

(** [Object.assign({}, base, { k: v })], the literal evaluated by [field]. *)
Definition copy_with (base : M val) (k : string) (field : M val) : M val :=
  let* target := new_object [] in
  let* b := base in
  let* v := field in
  let* fields := new_object [ (k, v) ] in
  Object_assign target [b; fields].

Definition on_UPDATE_DASHBOARD_TITLE : reducer := fun state action =>
  let* newDashboard :=
    copy_with (get_prop state "dashboard") "dashboard_title" (get_prop action "title") in
  copy_with (ret state) "dashboard" (ret newDashboard).

Definition on_UPDATE_DASHBOARD_LAYOUT : reducer := fun state action =>
  let* newDashboard :=
    copy_with (get_prop state "dashboard") "layout" (get_prop action "layout") in
  copy_with (ret state) "dashboard" (ret newDashboard).

Definition on_REMOVE_SLICE : reducer := fun state action =>
  let* dashboard := get_prop state "dashboard" in
  let* layout := get_prop dashboard "layout" in
  let* newLayout :=
    Array_filter layout (fun reactPos =>
      let* i := get_prop reactPos "i" in
      let* slice := get_prop action "slice" in
      let* slice_id := get_prop slice "slice_id" in
      let* s := String_ slice_id in
      ret (negb (strict_eq i s))) in
  let* dashboard := get_prop state "dashboard" in
  let* slice := get_prop action "slice" in
  let* newDashboard := removeFromArr dashboard "slices" slice "slice_id" in
  let* newDashboard := copy_with (ret newDashboard) "layout" (ret newLayout) in
  copy_with (ret state) "dashboard" (ret newDashboard).

Definition on_TOGGLE_FAVE_STAR : reducer := fun state action =>
  copy_with (ret state) "isStarred" (get_prop action "isStarred").

Definition on_TOGGLE_EXPAND_SLICE : reducer := fun state action =>
  let* target := new_object [] in
  let* dashboard := get_prop state "dashboard" in
  let* metadata := get_prop dashboard "metadata" in
  let* expanded_slices := get_prop metadata "expanded_slices" in
  let* updatedExpandedSlices := Object_assign target [expanded_slices] in
  let* slice := get_prop action "slice" in
  let* sliceId := get_prop slice "slice_id" in
  let* isExpanded := get_prop action "isExpanded" in
  let* _ := (if truthy isExpanded
             then set_index updatedExpandedSlices sliceId (VBool true)
             else delete_index updatedExpandedSlices sliceId) in
  let* metadata :=
    copy_with (let* dashboard := get_prop state "dashboard" in
               get_prop dashboard "metadata")
              "expanded_slices" (ret updatedExpandedSlices) in
  copy_with (ret state) "dashboard"
            (copy_with (get_prop state "dashboard") "metadata" (ret metadata)).

Definition filterKeys : list val :=
  [ VStr "__from"; VStr "__to"; VStr "__time_col";
    VStr "__time_grain"; VStr "__time_origin"; VStr "__granularity" ].

Definition on_ADD_FILTER : reducer := fun state action =>
  let* dashboard := get_prop state "dashboard" in
  let* slices := get_prop dashboard "slices" in
  let* selectedSlice :=
    Array_find slices (fun slice =>
      let* slice_id := get_prop slice "slice_id" in
      let* sliceId := get_prop action "sliceId" in
      ret (strict_eq slice_id sliceId)) in
  if negb (truthy selectedSlice) then ret state
  else
    let* target := new_object [] in
    let* stateFilters := get_prop state "filters" in
    let* filters := Object_assign target [stateFilters] in
    let* sliceId := get_prop action "sliceId" in
    let* col := get_prop action "col" in
    let* vals := get_prop action "vals" in
    let* merge := get_prop action "merge" in
    let* refresh := get_prop action "refresh" in
    let* keys := new_array filterKeys in
    let* fixed := indexOf keys col in
    let* applies :=
      (if (0 <=? fixed)%Z then ret true
       else let* formData := get_prop selectedSlice "formData" in
            let* groupby := get_prop formData "groupby" in
            let* grouped := indexOf groupby col in
            ret (negb (grouped =? -1)%Z)) in
    let* filters :=
      (if applies then
         let* stateFilters := get_prop state "filters" in
         let* known := has_prop sliceId stateFilters in
         let* filters :=
           (if negb known then
              let* target := new_object [] in
              let* empty := new_object [] in
              let* k := of_option (to_key sliceId) in
              let* fields := new_object [ (k, empty) ] in
              Object_assign target [filters; fields]
            else ret filters) in
         let* _ := new_object [] in
         let* current := get_index filters sliceId in
         let* absent :=
           (if truthy current then
              let* current := get_index filters sliceId in
              let* present := has_prop col current in
              ret (negb present)
            else ret false) in
         let* newFilter :=
           (if absent || negb (truthy merge) then
              let* target := new_object [] in
              let* current := get_index filters sliceId in
              let* k := of_option (to_key col) in
              let* fields := new_object [ (k, vals) ] in
              Object_assign target [current; fields]
            else
              let* current := get_index filters sliceId in
              let* existing := get_index current col in
              let* isArray := instanceof_Array existing in
              if isArray then
                let* current := get_index filters sliceId in
                let* existing := get_index current col in
                let* both := new_array [existing; vals] in
                d3_merge both
              else
                let* current := get_index filters sliceId in
                let* existing := get_index current col in
                let* boxed := new_array [existing] in
                let* both := new_array [boxed; vals] in
                let* merged := d3_merge both in
                let* first := get_prop merged "0" in
                ret (if truthy first then first else VStr "")) in
         let* target := new_object [] in
         let* k := of_option (to_key sliceId) in
         let* fields := new_object [ (k, newFilter) ] in
         Object_assign target [filters; fields]
       else ret filters) in
    let* target := new_object [] in
    let* fields := new_object [ ("filters", filters); ("refresh", refresh) ] in
    Object_assign target [state; fields].

Definition on_CLEAR_FILTER : reducer := fun state action =>
  let* target := new_object [] in
  let* stateFilters := get_prop state "filters" in
  let* newFilters := Object_assign target [stateFilters] in
  let* sliceId := get_prop action "sliceId" in
  let* _ := delete_index newFilters sliceId in
  let* target := new_object [] in
  let* fields := new_object [ ("filter", newFilters); ("refresh", VBool true) ] in
  Object_assign target [state; fields].

Definition on_REMOVE_FILTER : reducer := fun state action =>
  let* target := new_object [] in
  let* stateFilters := get_prop state "filters" in
  let* newFilters := Object_assign target [stateFilters] in
  let* sliceId := get_prop action "sliceId" in
  let* col := get_prop action "col" in
  let* vals := get_prop action "vals" in
  let* stateFilters := get_prop state "filters" in
  let* known := has_prop sliceId stateFilters in
  let* _ :=
    (if known then
       let* stateFilters := get_prop state "filters" in
       let* current := get_index stateFilters sliceId in
       let* present := has_prop col current in
       if present then
         let* a := new_array [] in
         let* current := get_index newFilters sliceId in
         let* existing := get_index current col in
         let* _ := Array_forEach existing (fun v _ =>
                     let* at_ := indexOf vals v in
                     if (at_ <? 0)%Z then Array_push a v else ret tt) in
         let* current := get_index newFilters sliceId in
         set_index current col a
       else ret tt
     else ret tt) in
  let* target := new_object [] in
  let* fields := new_object [ ("filter", newFilters); ("refresh", VBool true) ] in
  Object_assign target [state; fields].

Definition on_UPDATE_SLICE_NAME : reducer := fun state action =>
  let* dashboard := get_prop state "dashboard" in
  let* slice := get_prop action "slice" in
  let* sliceName := get_prop action "sliceName" in
  let* fields := new_object [ ("slice_name", sliceName) ] in
  let* newDashboard := alterInArr dashboard "slices" slice fields "slice_id" in
  copy_with (ret state) "dashboard" (ret newDashboard).

(** The handler table, in the order of the object literal. *)
Definition actionHandlers : list (string * reducer) :=
  [ (UPDATE_DASHBOARD_TITLE, on_UPDATE_DASHBOARD_TITLE);
    (UPDATE_DASHBOARD_LAYOUT, on_UPDATE_DASHBOARD_LAYOUT);
    (REMOVE_SLICE, on_REMOVE_SLICE);
    (TOGGLE_FAVE_STAR, on_TOGGLE_FAVE_STAR);
    (TOGGLE_EXPAND_SLICE, on_TOGGLE_EXPAND_SLICE);
    (ADD_FILTER, on_ADD_FILTER);
    (CLEAR_FILTER, on_CLEAR_FILTER);
    (REMOVE_FILTER, on_REMOVE_FILTER);
    (UPDATE_SLICE_NAME, on_UPDATE_SLICE_NAME) ].

Definition action_types : list string := actionHandlers.*1.

(** A computed name written twice in a literal keeps its last method. *)
Fixpoint handler_of (k : string) (table : list (string * reducer)) : option reducer :=
  match table with
  | [] => None
  | (k', f) :: table' =>
      match handler_of k table' with
      | Some g => Some g
      | None => if String.eqb k k' then Some f else None
      end
  end.

(** [function (state = {}, action)].  The handler table is built anew on
    every call and dropped when it returns; nothing can reach it afterwards,
    and the heap does not record it. *)
Definition dashboard : reducer := fun state action =>
  let* state := (match state with VUndef => new_object [] | _ => ret state end) in
  let* type := get_prop action "type" in
  let* k := of_option (to_key type) in
  match handler_of k actionHandlers with
  | Some handler => handler state action
  | None => ret state
  end.

End reducers.

(** The values of a column that [REMOVE_FILTER] keeps: those that are not
    among [vals]. *)
Definition kept (vals : list val) (existing : list val) : list val :=
  List.filter (fun v => (index_of_from v vals 0 <? 0)%Z) existing.


(** A member name that [parseInt] and the conversion back to a property
    name leave as it is, such as the decimal identifier of a slice. *)
Definition plain_id (k : string) : bool :=
  match parseInt10 k with
  | Some v =>
      match to_key v with
      | Some k' => String.eqb k' k
      | None => false
      end
  | None => false
  end.

(** The layout item of a slice, read off the heap [getInitialState] starts
    the layout loop with: [posDict] holds the stored positions, and a slice
    without one gets the default position of its index.  [None] when the
    callback would not come to an item (a slice that is no object, an
    identifier or a stored position outside the fragment). *)
Definition layout_item (key : string) (x y w hgt : val) : props :=
  [ ("i", VStr key); ("x", x); ("y", y); ("w", w); ("minW", VNum 2); ("h", hgt) ].

Definition expected_item (h : heap) (posDict : props) (slice : val) (index : nat)
  : option props :=
  match slice with
  | VRef si =>
      match h !! si with
      | Some (OObj sps) =>
          match to_key (pget_or_undef "slice_id" sps) with
          | Some key =>
              let stored := pget_or_undef key posDict in
              if truthy stored then
                match stored with
                | VRef p =>
                    match h !! p with
                    | Some (OObj qs) =>
                        match minus (pget_or_undef "col" qs) (VNum 1) with
                        | Some x =>
                            Some (layout_item key x (pget_or_undef "row" qs)
                                    (pget_or_undef "size_x" qs)
                                    (pget_or_undef "size_y" qs))
                        | None => None
                        end
                    | _ => None
                    end
                | _ => None
                end
              else
                Some (layout_item key
                        (VNum ((Z.of_nat index * 4 + 1) mod 12 - 1))
                        (VNum (Z.of_nat index / 3 * 4)) (VNum 4) (VNum 4))
          | None => None
          end
      | _ => None
      end
  | _ => None
  end.

(** *** The composite store *)

(** Modelled from the spec: [combineReducers] is the redux package's, which
    is not among the sources.  Section 4.4: the composite applied to
    [(rootState, action)] gives each named slice
    [subReducers[name](rootState[name], action)], and returns its input when
    every slice's reducer returned its input unchanged by reference. *)
Fixpoint reduce_slices (rs : list (string * reducer)) (state action nextState : val)
  (hasChanged : bool) : M bool :=
  match rs with
  | [] => ret hasChanged
  | (key, r) :: rs' =>
      let* previousStateForKey := get_prop state key in
      let* nextStateForKey := r previousStateForKey action in
      let* _ := set_prop nextState key nextStateForKey in
      reduce_slices rs' state action nextState
        (hasChanged || negb (strict_eq nextStateForKey previousStateForKey))
  end.

Definition combineReducers (rs : list (string * reducer)) : reducer :=
  fun state action =>
    let* nextState := new_object [] in
    let* hasChanged := reduce_slices rs state action nextState false in
    ret (if hasChanged then nextState else state).

(** A reducer that answers [action] with the slice it was given, in any
    heap that has the cells of [h]; it may allocate, and changes no cell. *)
Definition returns_input (r : reducer) (slice action : val) (h : heap) : Prop :=
  forall X : heap,
    extends h X ->
    exists (v : val) (X' : heap),
      r slice action X = (Ret v, X') /\ strict_eq v slice = true /\ extends X X'.

(** [export default combineReducers({ charts, dashboard })]. *)
Definition rootReducer `{ActionTypes} `{Imports} : reducer :=
  combineReducers [ ("charts", charts); ("dashboard", dashboard) ].

(** *** Shapes of the heap a handler leaves *)

(** The cell at [l] is an object that has the properties of [fields] and,
    under every other name, what [ps] has. *)
Definition copied_over (h : heap) (l : loc) (ps fields : props) : Prop :=
  exists rps : props,
    h !! l = Some (OObj rps) /\
    forall k : string,
      pget k rps = match pget k fields with Some v => Some v | None => pget k ps end.

(** The cell at [l] is an object that has what [ps] has, but for [k], which
    it has not. *)
Definition copied_without (h : heap) (l : loc) (ps : props) (k : string) : Prop :=
  exists rps : props,
    h !! l = Some (OObj rps) /\
    forall k' : string, pget k' rps = if String.eqb k' k then None else pget k' ps.

(** A slice that [ADD_FILTER] passes over when it looks for [id]. *)
Definition other_slice (h : heap) (id : val) (slice : val) : Prop :=
  exists (l : loc) (ps : props),
    slice = VRef l /\ h !! l = Some (OObj ps) /\
    strict_eq (pget_or_undef "slice_id" ps) id = false.

(** [slices] where [ADD_FILTER] selects the slice at [l]: the first whose
    [slice_id] is [id]. *)
Definition selects (h : heap) (id : val) (slices : list val) (l : loc) (ps : props)
  : Prop :=
  exists before after : list val,
    slices = before ++ VRef l :: after /\
    Forall (other_slice h id) before /\
    h !! l = Some (OObj ps) /\
    strict_eq (pget_or_undef "slice_id" ps) id = true.


(** Its contrary, where [groupby] is an array that lacks the column. *)
Definition not_filterable (h : heap) (ps : props) (col : val) : Prop :=
  (index_of_from col filterKeys 0 < 0)%Z /\
  exists (fd g : loc) (fdps : props) (gs : list val),
    pget "formData" ps = Some (VRef fd) /\ h !! fd = Some (OObj fdps) /\
    pget "groupby" fdps = Some (VRef g) /\ h !! g = Some (OArr gs) /\
    index_of_from col gs 0 = (-1)%Z.

(** *** REMOVE_SLICE *)

(** The [i] of a layout item. *)
Definition item_key (h : heap) (item : val) : option val :=
  match item with
  | VRef l =>
      match h !! l with
      | Some (OObj ps) => Some (pget_or_undef "i" ps)
      | _ => None
      end
  | _ => None
  end.

(** The layout items that [REMOVE_SLICE] keeps: those whose [i] is not the
    slice's id as a string. *)
Definition layout_without (h : heap) (key : string) (items : list val) : list val :=
  List.filter
    (fun item => match item_key h item with
                 | Some i => negb (strict_eq i (VStr key))
                 | None => false
                 end)
    items.

(** *** The payload of getInitialState *)

(** The name [getInitialState] files the filters of [key] under:
    [parseInt(key, 10)], as a property name. *)
Definition slice_key (key : string) : option string :=
  match parseInt10 key with
  | Some n => to_key n
  | None => None
  end.

(** The entries of the parsed filters, each under the name it is filed. *)
Definition by_slice_key (es : props) : props :=
  omap (fun kv : string * val =>
          match slice_key kv.1 with
          | Some k => Some (k, kv.2)
          | None => None
          end) es.

(** What [getInitialState] needs of a slice and of a stored position to lay
    the slices out: objects other than the dashboard itself, with an
    identifier that is a property name and, for a position, a [col] to
    subtract from. *)
Definition slice_ok (h : heap) (dl : loc) (slice : val) : Prop :=
  exists (si : loc) (sps : props) (key : string),
    slice = VRef si /\ si <> dl /\ h !! si = Some (OObj sps) /\
    to_key (pget_or_undef "slice_id" sps) = Some key.

Definition position_ok (h : heap) (dl : loc) (position : val) : Prop :=
  exists (p : loc) (qs : props) (key : string) (x : val),
    position = VRef p /\ p <> dl /\ h !! p = Some (OObj qs) /\
    to_key (pget_or_undef "slice_id" qs) = Some key /\
    minus (pget_or_undef "col" qs) (VNum 1) = Some x.

(** The entries the loop over [position_json] writes to [posDict], in the
    order it writes them. *)
Definition position_entries (h : heap) (positions : list val) : props :=
  omap (fun position : val =>
          match position with
          | VRef p =>
              match h !! p with
              | Some (OObj qs) =>
                  match to_key (pget_or_undef "slice_id" qs) with
                  | Some key => Some (key, position)
                  | None => None
                  end
              | _ => None
              end
          | _ => None
          end) positions.

(** Every object of the heap has its property names once. *)
Definition distinct_names (h : heap) : Prop :=
  forall (l : loc) (ps : props), h !! l = Some (OObj ps) -> NoDup ps.*1.

(** The fields [getInitialState] writes over [chart] for the record of a
    slice. *)
Definition chart_fields (key : string) (sps : props) (formData : val) : props :=
  [ ("chartKey", VStr ("slice_" ++ key));
    ("slice_id", pget_or_undef "slice_id" sps);
    ("form_data", pget_or_undef "form_data" sps);
    ("formData", formData) ].

(** [applyDefaultFormData] is not at hand: what is used of it is that it
    returns, and leaves what is there as it is. *)
Definition only_allocates (f : val -> M val) : Prop :=
  forall (v : val) (X : heap), exists (r : val) (ext : heap), f v X = (Ret r, X ++ ext).

End Dashboard.

(** ** A concrete environment

    The action types as [./actions] spells them, and stand-ins for the other
    imports, for running the code on concrete states. *)

Module Env.
Import JS.

#[export] Instance action_types : Dashboard.ActionTypes := {|
  Dashboard.UPDATE_DASHBOARD_TITLE := "UPDATE_DASHBOARD_TITLE";
  Dashboard.UPDATE_DASHBOARD_LAYOUT := "UPDATE_DASHBOARD_LAYOUT";
  Dashboard.REMOVE_SLICE := "REMOVE_SLICE";
  Dashboard.TOGGLE_FAVE_STAR := "TOGGLE_FAVE_STAR";
  Dashboard.TOGGLE_EXPAND_SLICE := "TOGGLE_EXPAND_SLICE";
  Dashboard.ADD_FILTER := "ADD_FILTER";
  Dashboard.CLEAR_FILTER := "CLEAR_FILTER";
  Dashboard.REMOVE_FILTER := "REMOVE_FILTER";
  Dashboard.UPDATE_SLICE_NAME := "UPDATE_SLICE_NAME"
|}.

(** The page's query string carries [preselect_filters=param]; the helpers
    of other modules are not called on the paths run here and return their
    argument. *)
Definition imports (param : val) : Dashboard.Imports := {|
  Dashboard.getParam := fun name =>
    if String.eqb name "preselect_filters" then ret param else ret (VStr "");
  Dashboard.alterInArr := fun state _ _ _ _ => ret state;
  Dashboard.removeFromArr := fun state _ _ _ => ret state;
  Dashboard.applyDefaultFormData := fun form_data => ret form_data;
  Dashboard.chart := VUndef;
  Dashboard.charts := fun state _ => ret state;
  Dashboard.JSON_parse := JSON.parse
|}.

#[export] Instance no_param : Dashboard.Imports := imports (VStr "").

(** A dashboard with one slice, grouped by column [a] and filtered on
    [a = x], and three actions on it. *)
Definition one_slice : heap :=
  [ OArr [VStr "a"];
    OObj [("groupby", VRef 0)];
    OObj [("slice_id", VNum 1); ("formData", VRef 1)];
    OArr [VRef 2];
    OObj [("slices", VRef 3)];
    OArr [VStr "x"];
    OObj [("a", VRef 5)];
    OObj [("1", VRef 6)];
    OObj [("dashboard", VRef 4); ("filters", VRef 7)];
    OArr [VStr "y"];
    OObj [("type", VStr "ADD_FILTER"); ("sliceId", VNum 1); ("col", VStr "a");
          ("vals", VRef 9); ("merge", VBool true); ("refresh", VBool true)];
    OObj [("type", VStr "REMOVE_FILTER"); ("sliceId", VNum 1); ("col", VStr "a");
          ("vals", VRef 5)];
    OObj [("type", VStr "@@redux/INIT")];
    OObj [("charts", VRef 1); ("dashboard", VRef 8)] ].

Definition the_state : val := VRef 8.
Definition add_y : val := VRef 10.
Definition remove_x : val := VRef 11.
Definition init : val := VRef 12.
Definition the_root : val := VRef 13.

(** A bootstrap payload: five slices, a stored position for the second, and
    default filters for slice 11 in the dashboard metadata. *)
Definition quoted (s : string) : string :=
  (Registry.double_quote ++ s ++ Registry.double_quote)%string.

Definition default_filters_text : string :=
  ("{" ++ quoted "11" ++ ":{" ++ quoted "a" ++ ":[" ++ quoted "x" ++ "]}}")%string.

Definition bootstrap : heap :=
  [ OObj [("locale", VStr "en"); ("conf", VNull)];
    OObj [];
    OObj [("default_filters", VStr default_filters_text)];
    OObj [("slice_id", VNum 11)];
    OObj [("slice_id", VNum 12)];
    OObj [("slice_id", VNum 13)];
    OObj [("slice_id", VNum 14)];
    OObj [("slice_id", VNum 15)];
    OArr [VRef 3; VRef 4; VRef 5; VRef 6; VRef 7];
    OObj [("slice_id", VNum 12); ("col", VNum 9); ("row", VNum 0);
          ("size_x", VNum 3); ("size_y", VNum 2)];
    OArr [VRef 9];
    OObj [("metadata", VRef 2); ("slices", VRef 8); ("position_json", VRef 10)];
    OObj [("user_id", VNum 1); ("datasources", VRef 1); ("common", VRef 0);
          ("dashboard_data", VRef 11)] ].

Definition bootstrapData : val := VRef 12.

(** The same payload where [getInitialState] starts on the filters (the copy
    of [dashboard_data] and the empty [filters]), and where it starts on the
    layout of the slices. *)
Definition at_filters : heap :=
  bootstrap ++ [ OObj [("metadata", VRef 2); ("slices", VRef 8); ("position_json", VRef 10)];
                 OObj [] ].


(** A dashboard with a title, a layout of one item and slice 2 expanded,
    filtered as [one_slice] is, and the actions that copy it. *)
Definition board : heap :=
  [ OArr [VStr "a"];
    OObj [("groupby", VRef 0)];
    OObj [("slice_id", VNum 1); ("formData", VRef 1)];
    OArr [VRef 2];
    OObj [("2", VBool true)];
    OObj [("expanded_slices", VRef 4)];
    OObj [("i", VStr "1"); ("x", VNum 0); ("y", VNum 0); ("w", VNum 4);
          ("minW", VNum 2); ("h", VNum 4)];
    OArr [VRef 6];
    OObj [("dashboard_title", VStr "Births"); ("slices", VRef 3);
          ("metadata", VRef 5); ("layout", VRef 7)];
    OArr [VStr "x"];
    OObj [("a", VRef 9)];
    OObj [("1", VRef 10)];
    OObj [("dashboard", VRef 8); ("filters", VRef 11)];
    OObj [("type", VStr "TOGGLE_FAVE_STAR"); ("isStarred", VBool true)];
    OObj [("type", VStr "UPDATE_DASHBOARD_TITLE"); ("title", VStr "Deaths")];
    OObj [("type", VStr "TOGGLE_EXPAND_SLICE"); ("slice", VRef 2);
          ("isExpanded", VBool true)];
    OObj [("type", VStr "ADD_FILTER"); ("sliceId", VNum 7); ("col", VStr "a");
          ("vals", VRef 9); ("merge", VBool false); ("refresh", VBool true)];
    OObj [("type", VStr "ADD_FILTER"); ("sliceId", VNum 1); ("col", VStr "b");
          ("vals", VRef 9); ("merge", VBool false); ("refresh", VBool false)];
    OArr [VStr "y"];
    OObj [("type", VStr "ADD_FILTER"); ("sliceId", VNum 1); ("col", VStr "a");
          ("vals", VRef 18); ("merge", VBool false); ("refresh", VBool true)];
    OObj [("type", VStr "REMOVE_FILTER"); ("sliceId", VNum 1); ("col", VStr "a");
          ("vals", VRef 9)];
    OObj [("type", VStr "REMOVE_SLICE"); ("slice", VRef 2)] ].

Definition board_state : loc := 12.
Definition star : loc := 13.
Definition retitle : loc := 14.
Definition expand : loc := 15.
Definition add_to_unknown : loc := 16.
Definition add_ungrouped : loc := 17.
Definition remove_a : loc := 20.
Definition remove_slice_1 : loc := 21.

(** Default filters whose keys are no plain slice ids: [7] and [07] read as
    the same integer, and [x] as none. *)
Definition odd_keys_text : string :=
  ("{" ++ quoted "7" ++ ":1," ++ quoted "07" ++ ":2," ++ quoted "x" ++ ":3}")%string.

Definition odd_keys : heap :=
  [ OObj [("default_filters", VStr odd_keys_text)];
    OObj [("metadata", VRef 0)];
    OObj [] ].

(** The payload where [getInitialState] starts on the charts, with an object
    of defaults for [chart]. *)
Definition at_charts : heap :=
  at_filters ++ [ OObj [("chartStatus", VStr "loading")] ].

Definition charting (defaults : loc) : Dashboard.Imports := {|
  Dashboard.getParam := fun _ => ret (VStr "");
  Dashboard.alterInArr := fun state _ _ _ _ => ret state;
  Dashboard.removeFromArr := fun state _ _ _ => ret state;
  Dashboard.applyDefaultFormData := fun form_data => ret form_data;
  Dashboard.chart := VRef defaults;
  Dashboard.charts := fun state _ => ret state;
  Dashboard.JSON_parse := JSON.parse
|}.

(** A payload of one slice, without metadata, and the defaults of [chart]. *)
Definition plain_payload : heap :=
  [ OObj [("locale", VStr "en"); ("conf", VNull)];
    OObj [("slice_id", VNum 11)];
    OArr [VRef 1];
    OObj [("slices", VRef 2)];
    OObj [("user_id", VNum 1); ("datasources", VNull); ("common", VRef 0);
          ("dashboard_data", VRef 3)];
    OObj [("chartStatus", VStr "loading")] ].

(** What a run leaves at the end of a path from its result. *)
Definition observe (m : M val) (path : list string) (h : heap) : outcome obj :=
  match (let* v := m in get_path v path) h with
  | (Ret (VRef l), h') =>
      match h' !! l with Some o => Ret o | None => Unmodelled end
  | (Ret _, _) => Unmodelled
  | (Throw e, _) => Throw e
  | (Unmodelled, _) => Unmodelled
  end.

End Env.

(** * Properties *)

(** ** The monad, the heap and property lists *)

Import JS.

Lemma bind_ret_run {A B} (m : M A) (f : A -> M B) (h h1 : heap) (a : A) :
  m h = (Ret a, h1) -> bind m f h = f a h1.
Proof. intros E. unfold bind. now rewrite E. Qed.

Lemma bind_assoc_run {A B C} (m : M A) (f : A -> M B) (g : B -> M C) (h : heap) :
  bind (bind m f) g h = bind m (fun x => bind (f x) g) h.
Proof. unfold bind. destruct (m h) as [[a| |] h1]; reflexivity. Qed.

Lemma bind_throw_run {A B} (m : M A) (f : A -> M B) (h h1 : heap) (e : exn) :
  m h = (Throw e, h1) -> bind m f h = (Throw e, h1).
Proof. intros E. unfold bind. now rewrite E. Qed.

Lemma try_catch_ret_run {A} (m : M A) (handler : exn -> M A) (h h1 : heap) (a : A) :
  m h = (Ret a, h1) -> try_catch m handler h = (Ret a, h1).
Proof. intros E. unfold try_catch. now rewrite E. Qed.

Lemma try_catch_throw_run {A} (m : M A) (handler : exn -> M A) (h h1 : heap) (e : exn) :
  m h = (Throw e, h1) -> try_catch m handler h = handler e h1.
Proof. intros E. unfold try_catch. now rewrite E. Qed.

Lemma iterM_cons {A} (f : A -> M unit) (x : A) (l : list A) :
  iterM f (x :: l) = bind (f x) (fun _ => iterM f l).
Proof. reflexivity. Qed.

(** *** Looking up cells of a heap that has grown *)

Lemma lookup_snoc (X : heap) (o : obj) : (X ++ [o]) !! length X = Some o.
Proof. rewrite lookup_app_r by lia. now rewrite Nat.sub_diag. Qed.

Lemma lookup_snoc_old (X : heap) (o o' : obj) (l : loc) :
  X !! l = Some o' -> (X ++ [o]) !! l = Some o'.
Proof. apply lookup_app_l_Some. Qed.

Lemma lookup_insert_same (X : heap) (o o0 : obj) (l : loc) :
  X !! l = Some o0 -> <[l := o]> X !! l = Some o.
Proof. intros E. apply list_lookup_insert_eq. now apply lookup_lt_Some in E. Qed.

Lemma lookup_insert_other (X : heap) (o o' : obj) (l l' : loc) :
  l <> l' -> X !! l = Some o' -> <[l' := o]> X !! l = Some o'.
Proof. intros Hne E. now rewrite list_lookup_insert_ne by congruence. Qed.

Ltac heap_lengths :=
  repeat match goal with
         | H : _ !! _ = Some _ |- _ => apply lookup_lt_Some in H
         end;
  repeat first [ rewrite length_app in * | rewrite length_insert in * ];
  simpl in *; lia.

Ltac hneq := first [ assumption | apply not_eq_sym; assumption | heap_lengths ].

Ltac hlookup :=
  first [ eassumption
        | apply lookup_snoc
        | apply lookup_snoc_old; hlookup
        | eapply lookup_insert_same; hlookup
        | apply lookup_insert_other; [hneq | hlookup] ].

(** *** Running the primitives *)

Lemma get_prop_obj_run (H : heap) (l : loc) (ps : props) (k : string) :
  H !! l = Some (OObj ps) -> get_prop (VRef l) k H = (Ret (pget_or_undef k ps), H).
Proof. intros E. unfold get_prop, bind, deref. now rewrite E. Qed.

Lemma get_index_obj_run (H : heap) (l : loc) (ps : props) (kv : val) (k : string) :
  H !! l = Some (OObj ps) -> to_key kv = Some k ->
  get_index (VRef l) kv H = (Ret (pget_or_undef k ps), H).
Proof.
  intros E Hk. unfold get_index, bind. rewrite Hk. simpl.
  now apply get_prop_obj_run.
Qed.

Lemma has_prop_obj_run (H : heap) (l : loc) (ps : props) (kv : val) (k : string) :
  H !! l = Some (OObj ps) -> to_key kv = Some k ->
  has_prop kv (VRef l) H = (Ret (bool_decide (is_Some (pget k ps))), H).
Proof. intros E Hk. unfold has_prop, bind, deref. rewrite Hk. simpl. now rewrite E. Qed.

Lemma set_prop_obj_run (H : heap) (l : loc) (ps : props) (k : string) (x : val) :
  H !! l = Some (OObj ps) ->
  set_prop (VRef l) k x H = (Ret tt, <[l := OObj (pset k x ps)]> H).
Proof. intros E. unfold set_prop, bind, deref. now rewrite E. Qed.

Lemma set_index_obj_run (H : heap) (l : loc) (ps : props) (kv : val) (k : string) (x : val) :
  H !! l = Some (OObj ps) -> to_key kv = Some k ->
  set_index (VRef l) kv x H = (Ret tt, <[l := OObj (pset k x ps)]> H).
Proof.
  intros E Hk. unfold set_index, bind. rewrite Hk. simpl.
  now apply set_prop_obj_run.
Qed.

Lemma delete_index_obj_run (H : heap) (l : loc) (ps : props) (kv : val) (k : string) :
  H !! l = Some (OObj ps) -> to_key kv = Some k ->
  delete_index (VRef l) kv H = (Ret tt, <[l := OObj (pdel k ps)]> H).
Proof.
  intros E Hk. unfold delete_index, bind. rewrite Hk. simpl.
  unfold delete_prop, bind, deref. now rewrite E.
Qed.

Lemma own_enumerable_obj_run (H : heap) (l : loc) (ps : props) :
  H !! l = Some (OObj ps) -> own_enumerable (VRef l) H = (Ret (own_entries ps), H).
Proof. intros E. unfold own_enumerable, bind, deref. now rewrite E. Qed.

Lemma assign_from_run (H : heap) (t : loc) (tps es : props) (source : val) :
  own_enumerable source H = (Ret es, H) ->
  H !! t = Some (OObj tps) ->
  assign_from (VRef t) source H = (Ret tt, <[t := OObj (pset_all es tps)]> H).
Proof.
  intros Es Et. unfold assign_from. rewrite (bind_ret_run _ _ _ _ _ Es).
  unfold bind, deref. now rewrite Et.
Qed.

Lemma Object_assign_one_run (H : heap) (t : loc) (tps es : props) (source : val) :
  own_enumerable source H = (Ret es, H) ->
  H !! t = Some (OObj tps) ->
  Object_assign (VRef t) [source] H = (Ret (VRef t), <[t := OObj (pset_all es tps)]> H).
Proof.
  intros Es Et. unfold Object_assign, iterM.
  rewrite (bind_ret_run _ _ _ _ _
             (bind_ret_run _ _ _ _ _ (assign_from_run _ _ _ _ _ Es Et))).
  reflexivity.
Qed.

(** *** Property lists *)

Lemma pget_pset_eq (k : string) (v : val) (ps : props) :
  pget k (pset k v ps) = Some v.
Proof.
  induction ps as [|[k' v'] ps IH]; simpl.
  - now rewrite String.eqb_refl.
  - destruct (String.eqb k k') eqn:E; simpl; rewrite ?String.eqb_refl, ?E; auto.
Qed.

Lemma pget_pset_ne (k k' : string) (v : val) (ps : props) :
  k <> k' -> pget k (pset k' v ps) = pget k ps.
Proof.
  intros Hne. apply String.eqb_neq in Hne.
  induction ps as [|[k0 v0] ps IH]; simpl.
  - now rewrite Hne.
  - destruct (String.eqb k' k0) eqn:E; simpl.
    + apply String.eqb_eq in E as ->. now rewrite Hne.
    + now rewrite IH.
Qed.

Lemma pget_pset (k k' : string) (v : val) (ps : props) :
  pget k (pset k' v ps) = if String.eqb k k' then Some v else pget k ps.
Proof.
  destruct (String.eqb k k') eqn:E.
  - apply String.eqb_eq in E as ->. apply pget_pset_eq.
  - apply String.eqb_neq in E. now apply pget_pset_ne.
Qed.

Lemma pget_pdel_eq (k : string) (ps : props) : pget k (pdel k ps) = None.
Proof.
  induction ps as [|[k' v'] ps IH]; simpl; auto.
  destruct (String.eqb k k') eqn:E; simpl; rewrite ?E; auto.
Qed.

Lemma pget_pdel_ne (k k' : string) (ps : props) :
  k <> k' -> pget k (pdel k' ps) = pget k ps.
Proof.
  intros Hne. induction ps as [|[k0 v0] ps IH]; simpl; auto.
  destruct (String.eqb k' k0) eqn:E; simpl.
  - apply String.eqb_eq in E as <-.
    apply String.eqb_neq in Hne. now rewrite Hne.
  - now rewrite IH.
Qed.

Lemma pget_Some_elem (k : string) (v : val) (ps : props) :
  pget k ps = Some v -> (k, v) ∈ ps.
Proof.
  induction ps as [|[k' v'] ps IH]; simpl; [discriminate|].
  destruct (String.eqb k k') eqn:E.
  - apply String.eqb_eq in E as ->. intros [= ->]. left.
  - intros Hg. right. auto.
Qed.

Lemma pget_None_notin (k : string) (ps : props) :
  pget k ps = None -> k ∉ ps.*1.
Proof.
  induction ps as [|[k' v'] ps IH]; simpl.
  - intros _. apply not_elem_of_nil.
  - destruct (String.eqb k k') eqn:E; [discriminate|].
    apply String.eqb_neq in E. intros Hg [->|Hin]%elem_of_cons; [congruence|].
    now apply IH.
Qed.

Lemma elem_pget_Some (k : string) (v : val) (ps : props) :
  NoDup ps.*1 -> (k, v) ∈ ps -> pget k ps = Some v.
Proof.
  induction ps as [|[k' v'] ps IH]; simpl.
  - intros _ Hin. now apply elem_of_nil in Hin.
  - intros [Hk' Hnd]%NoDup_cons [[= -> ->]|Hin]%elem_of_cons.
    + now rewrite String.eqb_refl.
    + destruct (String.eqb k k') eqn:E; [|auto].
      apply String.eqb_eq in E as ->. exfalso. apply Hk'.
      apply list_elem_of_fmap. now exists (k', v).
Qed.

Lemma pget_perm (k : string) (ps qs : props) :
  NoDup ps.*1 -> ps ≡ₚ qs -> pget k ps = pget k qs.
Proof.
  intros Hnd Hp.
  assert (NoDup qs.*1) as Hnd' by (now rewrite <- Hp).
  destruct (pget k ps) as [v|] eqn:E.
  - symmetry. apply elem_pget_Some; [exact Hnd'|].
    rewrite <- Hp. now apply pget_Some_elem.
  - destruct (pget k qs) as [v|] eqn:E'; [|reflexivity].
    exfalso. apply pget_Some_elem in E'. rewrite <- Hp in E'.
    apply (pget_None_notin _ _ E). apply list_elem_of_fmap. now exists (k, v).
Qed.

Lemma pset_all_snoc (es : props) (k : string) (v : val) (ps : props) :
  pset_all (es ++ [(k, v)]) ps = pset k v (pset_all es ps).
Proof. unfold pset_all. now rewrite fold_left_app. Qed.

(** Copying [es] over [ps]: the last entry of a name wins. *)
Lemma pget_pset_all (k : string) (es ps : props) :
  pget k (pset_all es ps) =
    match pget k (rev es) with Some v => Some v | None => pget k ps end.
Proof.
  induction es as [|[k' v'] es IH] using rev_ind; [reflexivity|].
  rewrite pset_all_snoc, rev_app_distr. simpl. rewrite pget_pset.
  destruct (String.eqb k k'); auto.
Qed.

Lemma insert_by_index_perm (e : N * (string * val)) (l : list (N * (string * val))) :
  insert_by_index e l ≡ₚ e :: l.
Proof.
  induction l as [|e' l IH]; simpl; [reflexivity|].
  destruct (e.1 <=? e'.1)%N; [reflexivity|].
  rewrite IH. apply Permutation_swap.
Qed.

Lemma sort_by_index_perm (l : list (N * (string * val))) : sort_by_index l ≡ₚ l.
Proof.
  induction l as [|e l IH]; simpl; [reflexivity|].
  now rewrite insert_by_index_perm, IH.
Qed.

Lemma own_entries_perm (ps : props) : own_entries ps ≡ₚ ps.
Proof.
  unfold own_entries. rewrite sort_by_index_perm.
  induction ps as [|[k v] ps IH]; [reflexivity|].
  unfold index_entries, name_entries in *. simpl.
  destruct (array_index k) as [n|] eqn:E.
  - rewrite filter_cons_False by (simpl; congruence).
    simpl. now rewrite IH.
  - rewrite filter_cons_True by (simpl; congruence).
    rewrite <- Permutation_middle. now rewrite IH.
Qed.

(** Copying the own properties of a well-formed object into another. *)
Lemma pget_copy (k : string) (ps target : props) :
  NoDup ps.*1 ->
  pget k (pset_all (own_entries ps) target) =
    match pget k ps with Some v => Some v | None => pget k target end.
Proof.
  intros Hnd. rewrite pget_pset_all.
  assert (pget k (rev (own_entries ps)) = pget k ps) as ->; [|reflexivity].
  symmetry. apply pget_perm; [exact Hnd|].
  now rewrite <- Permutation_rev, own_entries_perm.
Qed.

(** A copy of a well-formed object, with [fields] written over it. *)
Lemma pget_copy_with (k : string) (fields ps : props) :
  NoDup ps.*1 ->
  pget k (pset_all fields (pset_all (own_entries ps) [])) =
    match pget k (rev fields) with Some v => Some v | None => pget k ps end.
Proof.
  intros Hnd. rewrite pget_pset_all, (pget_copy _ _ _ Hnd). simpl.
  now destruct (pget k ps).
Qed.

Lemma pget_or_undef_copy (k : string) (ps : props) :
  NoDup ps.*1 ->
  pget_or_undef k (pset_all (own_entries ps) []) = pget_or_undef k ps.
Proof.
  intros Hnd. unfold pget_or_undef. rewrite (pget_copy _ _ _ Hnd). simpl.
  now destruct (pget k ps).
Qed.

Lemma pget_or_undef_Some (k : string) (ps : props) (v : val) :
  pget k ps = Some v -> pget_or_undef k ps = v.
Proof. unfold pget_or_undef. now intros ->. Qed.

Lemma Object_assign_two_run (H : heap) (t : loc) (tps ea eb : props) (a b : val) :
  H !! t = Some (OObj tps) ->
  own_enumerable a H = (Ret ea, H) ->
  (let H1 := <[t := OObj (pset_all ea tps)]> H in
   own_enumerable b H1 = (Ret eb, H1)) ->
  Object_assign (VRef t) [a; b] H =
    (Ret (VRef t), <[t := OObj (pset_all eb (pset_all ea tps))]> H).
Proof.
  intros Et Ea Eb. unfold Object_assign, iterM, bind.
  rewrite (assign_from_run _ _ _ _ _ Ea Et).
  assert (<[t := OObj (pset_all ea tps)]> H !! t = Some (OObj (pset_all ea tps))) as Et'
    by (eapply lookup_insert_same; eassumption).
  rewrite (assign_from_run _ _ _ _ _ Eb Et').
  unfold ret. now rewrite list_insert_insert_eq.
Qed.



Lemma own_enumerable_primitive_run (H : heap) (v : val) :
  match v with VRef _ | VStr _ => False | _ => True end ->
  own_enumerable v H = (Ret [], H).
Proof. destruct v; simpl; intros []; reflexivity. Qed.

Lemma array_elems_run (H : heap) (l : loc) (es : list val) :
  H !! l = Some (OArr es) -> array_elems (VRef l) H = (Ret es, H).
Proof. intros E. unfold array_elems, bind, deref. now rewrite E. Qed.

Lemma Array_push_run (H : heap) (l : loc) (es : list val) (x : val) :
  H !! l = Some (OArr es) ->
  Array_push (VRef l) x H = (Ret tt, <[l := OArr (es ++ [x])]> H).
Proof. intros E. unfold Array_push, bind, deref. now rewrite E. Qed.

Lemma indexOf_array_run (H : heap) (l : loc) (es : list val) (x : val) :
  H !! l = Some (OArr es) ->
  indexOf (VRef l) x H = (Ret (index_of_from x es 0), H).
Proof. intros E. unfold indexOf, bind, deref. now rewrite E. Qed.

Lemma forEach_from_step (f : val -> nat -> M unit) (l : loc) (todo i : nat)
  (es : list val) (x : val) (H H1 : heap) :
  H !! l = Some (OArr es) -> es !! i = Some x ->
  f x i H = (Ret tt, H1) ->
  forEach_from f l (S todo) i H = forEach_from f l todo (S i) H1.
Proof.
  intros El Ex Ef. simpl. unfold bind at 1, deref. rewrite El.
  rewrite Ex. unfold bind. now rewrite Ef.
Qed.

Lemma Array_forEach_run (f : val -> nat -> M unit) (l : loc) (es : list val) (H : heap) :
  H !! l = Some (OArr es) ->
  Array_forEach (VRef l) f H = forEach_from f l (length es) 0 H.
Proof.
  intros El. unfold Array_forEach.
  now rewrite (bind_ret_run _ _ _ _ _ (array_elems_run _ _ _ El)).
Qed.

Lemma String_run (H : heap) (v : val) (k : string) :
  to_key v = Some k -> String_ v H = (Ret (VStr k), H).
Proof. intros E. unfold String_, bind. now rewrite E. Qed.

Ltac run_prim :=
  idtac;
  lazymatch goal with
  | |- ret _ _ = _ => reflexivity
  | |- of_option (Some _) _ = _ => reflexivity
  | |- new_object [] _ = _ => exact eq_refl
  | |- new_object _ _ = _ => reflexivity
  | |- new_array _ _ = _ => reflexivity
  | |- get_prop (VRef _) _ _ = _ => eapply get_prop_obj_run; hlookup
  | |- get_index (VRef _) _ _ = _ => eapply get_index_obj_run; [hlookup | eassumption]
  | |- has_prop _ (VRef _) _ = _ => eapply has_prop_obj_run; [hlookup | eassumption]
  | |- set_prop (VRef _) _ _ _ = _ => eapply set_prop_obj_run; hlookup
  | |- set_index (VRef _) _ _ _ = _ => eapply set_index_obj_run; [hlookup | eassumption]
  | |- delete_index (VRef _) _ _ = _ => eapply delete_index_obj_run; [hlookup | eassumption]
  | |- own_enumerable (VRef _) _ = _ => eapply own_enumerable_obj_run; hlookup
  | |- String_ _ _ = _ => eapply String_run; eassumption
  | |- Array_push (VRef _) _ _ = _ => eapply Array_push_run; hlookup
  | |- indexOf (VRef _) _ _ = _ => eapply indexOf_array_run; hlookup
  | |- Object_assign (VRef _) [_] _ = _ =>
      eapply Object_assign_one_run; [run_prim | hlookup]
  | |- Object_assign (VRef _) [_; _] _ = _ =>
      eapply Object_assign_two_run; [hlookup | run_prim | cbv zeta; run_prim]
  end.

Ltac massoc :=
  repeat match goal with
         | |- context [bind (bind ?m ?f) ?g ?h] => rewrite (bind_assoc_run m f g h)
         end.

Ltac mstep_by tac :=
  cbv beta iota zeta; massoc; erewrite bind_ret_run by tac.

Ltac mstep := mstep_by run_prim.

(** ** The registry *)




Lemma future_state_last (h : heap) (st : settled) :
  Registry.future_state (h ++ [OPromise st]) (VRef (length h)) = Some st.
Proof.
  unfold Registry.future_state. rewrite lookup_app_r by lia.
  now rewrite Nat.sub_diag.
Qed.

Section registry.
Import Registry.




Lemma getAsPromise_total (k : string) (r : t) (h : heap) :
  exists p r' ext, getAsPromise k r h = (Ret (p, r'), h ++ ext).
Proof.
  unfold getAsPromise.
  destruct (truthy (default VUndef (promises r !! k))).
  - exists (default VUndef (promises r !! k)), r, []. now rewrite app_nil_r.
  - destruct (truthy (get k r)).
    + unfold bind, Promise_resolve, alloc.
      destruct (get k r) as [| | | | | |l]; try (do 3 eexists; reflexivity).
      destruct (h !! l) as [[ | |]|]; try (do 3 eexists; reflexivity).
      do 2 eexists. exists []. now rewrite app_nil_r.
    + do 3 eexists. reflexivity.
Qed.




Lemma forallb_not_registers_cons (k : string) (c : call) (cs : list call) :
  forallb (fun c => negb (registers k c)) (c :: cs) = true ->
  registers k c = false /\ forallb (fun c => negb (registers k c)) cs = true.
Proof.
  simpl. intros [Hc Hcs]%andb_prop. split; [|exact Hcs].
  now destruct (registers k c).
Qed.











End registry.

(** ** The registry over a history of calls *)

Section registry_history.
Import Registry.



Lemma Promise_resolve_run (v : val) (h : heap) :
  (is_Some (future_state h v) /\ Promise_resolve v h = (Ret v, h)) \/
  (future_state h v = None /\
   Promise_resolve v h = (Ret (VRef (length h)), h ++ [OPromise (Fulfilled v)])).
Proof.
  unfold Promise_resolve, future_state, alloc.
  destruct v as [| | | | | |l]; try (right; split; reflexivity).
  destruct (h !! l) as [[ | |]|]; try (right; split; reflexivity).
  left. split; [eexists|]; reflexivity.
Qed.



Lemma getAsPromise_memoised (k : string) (r : t) (h : heap) (p : val) :
  promises r !! k = Some p -> truthy p = true ->
  getAsPromise k r h = (Ret (p, r), h).
Proof. intros Hp Ht. unfold getAsPromise. rewrite Hp. simpl. now rewrite Ht. Qed.

(** What a call of [getAsPromise] can have done. *)
Lemma getAsPromise_inv (k : string) (r : t) (h : heap) (p : val) (r1 : t) (h1 : heap) :
  getAsPromise k r h = (Ret (p, r1), h1) ->
  (r1 = r /\ exists ext : heap, h1 = h ++ ext /\ length ext <= 1) \/
  (r1 = mk (name r) (items r) (<[k := p]> (promises r)) /\
   truthy (get k r) = true /\ truthy p = true /\
   ((p = get k r /\ is_Some (future_state h p) /\ h1 = h) \/
    (future_state h1 p = Some (Fulfilled (get k r)) /\
     h1 = h ++ [OPromise (Fulfilled (get k r))]))).
Proof.
  unfold getAsPromise.
  destruct (truthy (default VUndef (promises r !! k))).
  { intros [= <- <- <-]. left. split; [reflexivity|]. exists [].
    rewrite app_nil_r. split; [reflexivity | simpl; lia]. }
  destruct (truthy (get k r)) eqn:Hg.
  - destruct (Promise_resolve_run (get k r) h) as [[Hf E] | [Hf E]];
      rewrite (bind_ret_run _ _ _ _ _ E); intros [= <- <- <-]; right;
      (split; [reflexivity|]); (split; [reflexivity|]).
    + split; [exact Hg|]. left. auto.
    + split; [reflexivity|]. right. split; [apply future_state_last | reflexivity].
  - unfold bind, Promise_reject, alloc, ret. intros [= <- <- <-].
    left. split; [reflexivity|]. eexists. split; [reflexivity|]. simpl. lia.
Qed.

Lemma getAsPromise_frame (k : string) (r : t) (h : heap) :
  exists (p : val) (r' : t) (ext : heap),
    getAsPromise k r h = (Ret (p, r'), h ++ ext) /\
    length ext <= 1 /\
    name r' = name r /\ items r' = items r /\
    forall k' : string, k' <> k -> promises r' !! k' = promises r !! k'.
Proof.
  destruct (getAsPromise_total k r h) as (p & r' & ext & E).
  exists p, r', ext. split; [exact E|].
  destruct (getAsPromise_inv _ _ _ _ _ _ E)
    as [[-> (ext' & Eh & Hlen)] | (-> & _ & _ & [(_ & _ & Eh) | (_ & Eh)])].
  - apply app_inv_head in Eh as ->. auto.
  - rewrite <- (app_nil_r h) in Eh at 2. apply app_inv_head in Eh as ->.
    simpl. repeat split; [lia|]. intros k' Hne. now rewrite lookup_insert_ne.
  - apply app_inv_head in Eh as ->.
    simpl. repeat split; [lia|]. intros k' Hne. now rewrite lookup_insert_ne.
Qed.


Lemma getAsPromise_memoises (k : string) (r : t) (h : heap) (p : val) (r1 : t) (h1 : heap) :
  getAsPromise k r h = (Ret (p, r1), h1) -> truthy (get k r) = true ->
  promises r1 !! k = Some p /\ truthy p = true.
Proof.
  intros E Hg. revert E. unfold getAsPromise.
  destruct (promises r !! k) as [p0|] eqn:Hp; simpl.
  - destruct (truthy p0) eqn:Hp0.
    + intros [= <- <- <-]. auto.
    + rewrite Hg.
      destruct (Promise_resolve_run (get k r) h) as [[_ E] | [_ E]];
        rewrite (bind_ret_run _ _ _ _ _ E); intros [= <- <- <-]; simpl;
        now rewrite lookup_insert_eq.
  - rewrite Hg.
    destruct (Promise_resolve_run (get k r) h) as [[_ E] | [_ E]];
      rewrite (bind_ret_run _ _ _ _ _ E); intros [= <- <- <-]; simpl;
      now rewrite lookup_insert_eq.
Qed.

Lemma perform_keeps_memo (k : string) (c : call) (r : t) (h : heap) (p : val) :
  registers k c = false -> promises r !! k = Some p -> truthy p = true ->
  exists (r' : t) (h' : heap),
    perform c r h = (Ret r', h') /\ promises r' !! k = Some p.
Proof.
  intros Hc Hp Ht. destruct c as [k'|k' v|k'|k']; simpl in *.
  - eexists _, _; split; [reflexivity | exact Hp].
  - apply String.eqb_neq in Hc.
    eexists _, _; split; [reflexivity|]. simpl.
    now rewrite lookup_delete_ne by congruence.
  - eexists _, _; split; [reflexivity | exact Hp].
  - destruct (decide (k' = k)) as [->|Hne].
    + rewrite (bind_ret_run _ _ _ _ _ (getAsPromise_memoised k r h p Hp Ht)).
      eexists _, _; split; [reflexivity | exact Hp].
    + destruct (getAsPromise_frame k' r h) as (q & r' & ext & E & _ & _ & _ & Hothers).
      rewrite (bind_ret_run _ _ _ _ _ E).
      eexists _, _; split; [reflexivity|]. simpl.
      rewrite Hothers by congruence. exact Hp.
Qed.

Lemma perform_all_keeps_memo (k : string) (p : val) (cs : list call) :
  forallb (fun c => negb (registers k c)) cs = true ->
  forall (r : t) (h : heap),
  promises r !! k = Some p -> truthy p = true ->
  exists (r' : t) (h' : heap),
    perform_all cs r h = (Ret r', h') /\ promises r' !! k = Some p.
Proof.
  induction cs as [|c cs IH]; intros Hcs r h Hp Ht.
  - eexists _, _; split; [reflexivity | exact Hp].
  - apply forallb_not_registers_cons in Hcs as [Hc Hcs].
    destruct (perform_keeps_memo k c r h p Hc Hp Ht) as (r1 & h1 & E & Hp1).
    destruct (IH Hcs r1 h1 Hp1 Ht) as (r2 & h2 & E2 & Hp2).
    exists r2, h2. split; [|exact Hp2].
    simpl. now rewrite (bind_ret_run _ _ _ _ _ E).
Qed.

(** X2: once [getAsPromise k] has returned a future for a key whose [get]
    is truthy, every later [getAsPromise k] returns that same future and
    allocates nothing, whatever calls come in between, as long as none of
    them registers [k]. *)
Theorem registry_future_memoised (k : string) (r : t) (h : heap) (p : val) (r1 : t)
  (h1 : heap) (cs : list call) :
  getAsPromise k r h = (Ret (p, r1), h1) ->
  truthy (get k r) = true ->
  forallb (fun c => negb (registers k c)) cs = true ->
  exists (r2 : t) (h2 : heap),
    perform_all cs r1 h1 = (Ret r2, h2) /\
    getAsPromise k r2 h2 = (Ret (p, r2), h2).
Proof.
  intros E Hg Hcs.
  destruct (getAsPromise_memoises _ _ _ _ _ _ E Hg) as [Hp Ht].
  destruct (perform_all_keeps_memo k p cs Hcs r1 h1 Hp Ht) as (r2 & h2 & E2 & Hp2).
  exists r2, h2. split; [exact E2|]. now apply getAsPromise_memoised.
Qed.

Lemma registry_future_memoised_witness :
  (getAsPromise "a" (register "a" (VNum 1) (new VUndef)) [] =
     (Ret (VRef 0, mk (VStr "") {[ "a" := VNum 1 ]} {[ "a" := VRef 0 ]}),
      [OPromise (Fulfilled (VNum 1))]) /\
   truthy (get "a" (register "a" (VNum 1) (new VUndef))) = true /\
   forallb (fun c => negb (registers "a" c))
     [GetAsPromise "b"; Register "b" (VNum 2); GetAsPromise "b"; GetAsPromise "a"] = true) /\
  exists (r2 : t) (h2 : heap),
    perform_all [GetAsPromise "b"; Register "b" (VNum 2); GetAsPromise "b"; GetAsPromise "a"]
      (mk (VStr "") {[ "a" := VNum 1 ]} {[ "a" := VRef 0 ]})
      [OPromise (Fulfilled (VNum 1))] = (Ret r2, h2) /\
    getAsPromise "a" r2 h2 = (Ret (VRef 0, r2), h2).
Proof.
  assert (getAsPromise "a" (register "a" (VNum 1) (new VUndef)) [] =
            (Ret (VRef 0, mk (VStr "") {[ "a" := VNum 1 ]} {[ "a" := VRef 0 ]}),
             [OPromise (Fulfilled (VNum 1))])) as E.
  { unfold getAsPromise, register, new. simpl.
    rewrite delete_empty, lookup_empty. simpl.
    unfold get, item_at. simpl. rewrite lookup_insert_eq. simpl.
    unfold bind, Promise_resolve, alloc, ret. simpl.
    now rewrite insert_empty. }
  assert (truthy (get "a" (register "a" (VNum 1) (new VUndef))) = true) as Hg.
  { unfold get, item_at, register. simpl. now rewrite lookup_insert_eq. }
  split; [split; [exact E | split; [exact Hg | reflexivity]]|].
  exact (registry_future_memoised "a" _ [] _ _ _
           [GetAsPromise "b"; Register "b" (VNum 2); GetAsPromise "b"; GetAsPromise "a"]
           E Hg eq_refl).
Defined.








(** *** No memoised future is stale *)







End registry_history.

(** ** The dashboard reducer *)

Section dashboard_reducer.
Context `{Dashboard.ActionTypes} `{Dashboard.Imports}.
Import Dashboard.

Lemma handler_of_unknown (k : string) (table : list (string * reducer)) :
  k ∉ table.*1 -> handler_of k table = None.
Proof.
  induction table as [|[k' f] table IH]; simpl; [reflexivity|].
  intros [Hne Hin]%not_elem_of_cons. rewrite (IH Hin).
  apply String.eqb_neq in Hne. now rewrite Hne.
Qed.

Lemma handler_of_known (k : string) (f : reducer) (before after : list (string * reducer)) :
  k ∉ after.*1 -> handler_of k (before ++ (k, f) :: after) = Some f.
Proof.
  intros Hin. induction before as [|[k' g] before IH]; simpl.
  - rewrite (handler_of_unknown _ _ Hin). now rewrite String.eqb_refl.
  - now rewrite IH.
Qed.

Lemma dashboard_unknown_type_run (s a ty : val) (k : string) (h : heap) :
  s <> VUndef ->
  get_prop a "type" h = (Ret ty, h) ->
  to_key ty = Some k ->
  k ∉ action_types ->
  dashboard s a h = (Ret s, h).
Proof.
  intros Hs Ha Hk Hin. unfold dashboard.
  assert ((match s with VUndef => new_object [] | _ => ret s end) h = (Ret s, h)) as Es
    by (destruct s; try reflexivity; congruence).
  rewrite (bind_ret_run _ _ _ _ _ Es), (bind_ret_run _ _ _ _ _ Ha).
  rewrite Hk. erewrite bind_ret_run by reflexivity.
  now rewrite (handler_of_unknown k actionHandlers Hin).
Qed.



Lemma kept_cons (vs : list val) (x : val) (es : list val) :
  kept vs (x :: es) =
    if (index_of_from x vs 0 <? 0)%Z then x :: kept vs es else kept vs es.
Proof. reflexivity. Qed.

Lemma remove_loop (vl a el : loc) (vs es : list val) :
  a <> el -> a <> vl ->
  forall (todo i : nat) (acc : list val) (X : heap),
  X !! el = Some (OArr es) -> X !! vl = Some (OArr vs) -> X !! a = Some (OArr acc) ->
  i + todo = length es ->
  forEach_from
    (fun v _ => let* at_ := indexOf (VRef vl) v in
                if (at_ <? 0)%Z then Array_push (VRef a) v else ret tt)
    el todo i X
  = (Ret tt, <[a := OArr (acc ++ kept vs (drop i es))]> X).
Proof.
  intros Hel Hvl. induction todo as [|todo IH]; intros i acc X El Ev Ea Hlen.
  - simpl. rewrite drop_ge by lia. simpl. rewrite app_nil_r.
    now rewrite list_insert_id.
  - destruct (lookup_lt_is_Some_2 es i) as [x Ex]; [lia|].
    rewrite (drop_S _ _ _ Ex), kept_cons.
    destruct (index_of_from x vs 0 <? 0)%Z eqn:Et.
    + erewrite forEach_from_step; [| eassumption | eassumption |].
      2:{ mstep. rewrite Et. run_prim. }
      rewrite IH with (acc := acc ++ [x]); try lia.
      * rewrite list_insert_insert_eq. now rewrite <- app_assoc.
      * hlookup.
      * hlookup.
      * hlookup.
    + erewrite forEach_from_step; [| eassumption | eassumption |].
      2:{ mstep. rewrite Et. reflexivity. }
      now apply IH; try lia.
Qed.



Lemma handler_of_NoDup (k : string) (f : reducer) (before after : list (string * reducer)) :
  NoDup (before ++ (k, f) :: after).*1 ->
  handler_of k (before ++ (k, f) :: after) = Some f.
Proof.
  intros Hnd. apply handler_of_known.
  rewrite fmap_app, fmap_cons in Hnd.
  apply NoDup_app in Hnd as (_ & _ & Hnd). now apply NoDup_cons in Hnd as [Hin _].
Qed.





End dashboard_reducer.

Section dashboard_runs.
Import Env.



(** C1, where the code departs from it: slice 1 is filtered on [a = [x]],
    and [ADD_FILTER] merges [y] into column [a].  The merged array [[x; y]]
    becomes the filters of the slice itself, which then has no column [a]. *)
Lemma add_filter_merge_overwrites_slice :
  fst ((let* s := Dashboard.dashboard Env.the_state Env.add_y in
        get_path s ["filters"; "1"; "a"]) Env.one_slice) = Ret VUndef /\
  fst ((let* s := Dashboard.dashboard Env.the_state Env.add_y in
        let* f := get_path s ["filters"; "1"] in
        array_elems f) Env.one_slice) = Ret [VStr "x"; VStr "y"].
Proof. split; vm_compute; reflexivity. Qed.


(** [REMOVE_FILTER] changes the state it was given: the values of the column
    are replaced inside [state.filters[sliceId]], which the copy shares. *)
Lemma remove_filter_writes_through :
  fst ((let* values := get_path Env.the_state ["filters"; "1"; "a"] in
        array_elems values) Env.one_slice) = Ret [VStr "x"] /\
  fst ((let* _ := Dashboard.dashboard Env.the_state Env.remove_x in
        let* values := get_path Env.the_state ["filters"; "1"; "a"] in
        array_elems values) Env.one_slice) = Ret [].
Proof. split; vm_compute; reflexivity. Qed.

End dashboard_runs.

(** ** getInitialState: the layout *)

Section layout.
Context `{Dashboard.ActionTypes} `{Dashboard.Imports}.
Import Dashboard.

Lemma keeps_refl (ll : loc) (X : heap) : keeps ll X X.
Proof. intros l o _ E. exact E. Qed.

Lemma keeps_trans (ll : loc) (X Y Z : heap) :
  keeps ll X Y -> keeps ll Y Z -> keeps ll X Z.
Proof. intros HXY HYZ l o Hne E. apply HYZ, HXY; assumption. Qed.

Lemma default_col_safe (index : nat) :
  safe_integer ((Z.of_nat index * 4 + 1) mod 12 - 1) = true.
Proof.
  unfold safe_integer. apply Z.leb_le.
  pose proof (Z.mod_pos_bound (Z.of_nat index * 4 + 1) 12 ltac:(lia)). lia.
Qed.

Lemma layout_slice_run (dl pl ll : loc) (dps pps ps : props) (items0 items : list val)
  (slice : val) (index : nat) (X0 X : heap) :
  pget "posDict" dps = Some (VRef pl) ->
  pget "layout" dps = Some (VRef ll) ->
  X0 !! dl = Some (OObj dps) -> X0 !! pl = Some (OObj pps) ->
  X0 !! ll = Some (OArr items0) ->
  keeps ll X0 X ->
  X !! ll = Some (OArr items) ->
  expected_item X0 pps slice index = Some ps ->
  exists (Y : heap) (l : loc),
    layout_slice (VRef dl) slice index X = (Ret tt, Y) /\
    keeps ll X Y /\
    Y !! ll = Some (OArr (items ++ [VRef l])) /\
    Y !! l = Some (OObj ps) /\ l <> ll.
Proof.
  intros Hpd Hla Hd Hp Hl0 Hk Hl Hexp.
  unfold expected_item in Hexp.
  destruct slice as [| | | | | |si]; try discriminate.
  destruct (X0 !! si) as [[sps| |]|] eqn:Hsi; try discriminate.
  destruct (to_key (pget_or_undef "slice_id" sps)) as [key|] eqn:Hkey; try discriminate.
  assert (X !! si = Some (OObj sps)) as Hsi'
    by (apply (Hk si); [congruence | exact Hsi]).
  assert (X !! dl = Some (OObj dps)) as Hd'
    by (apply (Hk dl); [congruence | exact Hd]).
  assert (X !! pl = Some (OObj pps)) as Hp'
    by (apply (Hk pl); [congruence | exact Hp]).
  unfold layout_slice.
  mstep. mstep. rewrite (pget_or_undef_Some _ _ _ Hpd). mstep.
  destruct (truthy (pget_or_undef key pps)) eqn:Hst.
  - destruct (pget_or_undef key pps) as [| | | | | |p] eqn:Hstored; try discriminate.
    destruct (X0 !! p) as [[qs| |]|] eqn:Hq; try discriminate.
    destruct (minus (pget_or_undef "col" qs) (VNum 1)) as [x|] eqn:Hx; try discriminate.
    injection Hexp as <-.
    assert (X !! p = Some (OObj qs)) as Hq'
      by (apply (Hk p); [congruence | exact Hq]).
    mstep. mstep. rewrite (pget_or_undef_Some _ _ _ Hla).
    mstep. mstep. rewrite Hx. mstep. mstep. mstep. mstep. mstep.
    eexists _, _. split; [run_prim|].
    split; [| split; [hlookup | split; [hlookup | heap_lengths]]].
    intros l o Hne E. hlookup.
  - injection Hexp as <-.
    mstep. mstep. rewrite (pget_or_undef_Some _ _ _ Hla).
    mstep. mstep.
    change (pget_or_undef "col" (pset_all (default_pos index) []))
      with (VNum ((Z.of_nat index * 4 + 1) mod 12)).
    unfold minus, to_number. rewrite default_col_safe.
    mstep. mstep. mstep. mstep. mstep.
    eexists _, _. split; [run_prim|].
    split; [| split; [hlookup | split; [hlookup | heap_lengths]]].
    intros l o Hne E. hlookup.
Qed.

Lemma layout_loop (dl pl ll sl : loc) (dps pps : props) (items0 slices : list val)
  (X0 : heap) :
  pget "posDict" dps = Some (VRef pl) ->
  pget "layout" dps = Some (VRef ll) ->
  X0 !! dl = Some (OObj dps) -> X0 !! pl = Some (OObj pps) ->
  X0 !! ll = Some (OArr items0) -> X0 !! sl = Some (OArr slices) -> sl <> ll ->
  (forall (i : nat) (s : val),
     slices !! i = Some s -> is_Some (expected_item X0 pps s i)) ->
  forall (todo i : nat) (X : heap) (items : list val),
  i + todo = length slices ->
  keeps ll X0 X -> X !! ll = Some (OArr items) ->
  exists (Y : heap) (its : list val),
    forEach_from (layout_slice (VRef dl)) sl todo i X = (Ret tt, Y) /\
    keeps ll X Y /\
    Y !! ll = Some (OArr (items ++ its)) /\
    length its = todo /\
    forall (j : nat) (s : val),
      slices !! (i + j) = Some s -> j < todo ->
      exists (l : loc) (ps : props),
        its !! j = Some (VRef l) /\
        expected_item X0 pps s (i + j) = Some ps /\
        Y !! l = Some (OObj ps).
Proof.
  intros Hpd Hla Hd Hp Hl0 Hs Hne Hall.
  induction todo as [|todo IH]; intros i X items Hlen Hk Hl.
  - exists X, []. simpl. rewrite app_nil_r.
    repeat split; auto using keeps_refl. intros j s _ Hj. lia.
  - destruct (lookup_lt_is_Some_2 slices i) as [s Es]; [lia|].
    destruct (Hall i s Es) as [ps Eps].
    destruct (layout_slice_run dl pl ll dps pps ps items0 items s i X0 X
                Hpd Hla Hd Hp Hl0 Hk Hl Eps) as (Y1 & l & Erun & Hk1 & Hl1 & Hit & Hlne).
    destruct (IH (S i) Y1 (items ++ [VRef l])) as (Y & its & Eloop & Hk2 & Hl2 & Hlen2 & Hits);
      [lia | eapply keeps_trans; eassumption | exact Hl1 |].
    exists Y, (VRef l :: its).
    split.
    { erewrite forEach_from_step; [exact Eloop | | exact Es | exact Erun].
      apply (Hk sl); assumption. }
    split; [eapply keeps_trans; eassumption|].
    split; [now rewrite <- app_assoc in Hl2|].
    split; [simpl; now rewrite Hlen2|].
    intros [|j] s' Es' Hj.
    + rewrite Nat.add_0_r in *. rewrite Es in Es'. injection Es' as <-.
      exists l, ps. repeat split; [exact Eps|]. now apply (Hk2 l).
    + replace (i + S j) with (S i + j) in * by lia.
      destruct (Hits j s' Es') as (l' & ps' & E1 & E2 & E3); [lia|].
      exists l', ps'. auto.
Qed.


End layout.

Section layout_runs.
Import Env Dashboard.



(** The same from the payload: the fifth of five slices gets column 5,
    row 4, and the second the position stored for it. *)
Lemma getInitialState_layout_run :
  observe (getInitialState bootstrapData) ["dashboard"; "dashboard"; "layout"; "4"]
    bootstrap
  = Ret (OObj [ ("i", VStr "15"); ("x", VNum 4); ("y", VNum 4);
                ("w", VNum 4); ("minW", VNum 2); ("h", VNum 4) ]) /\
  observe (getInitialState bootstrapData) ["dashboard"; "dashboard"; "layout"; "1"]
    bootstrap
  = Ret (OObj [ ("i", VStr "12"); ("x", VNum 8); ("y", VNum 0);
                ("w", VNum 3); ("minW", VNum 2); ("h", VNum 2) ]).
Proof. split; vm_compute; reflexivity. Qed.

End layout_runs.

(** ** getInitialState: the initial filters *)

Section initial_filters.
Context `{Dashboard.ActionTypes} `{Dashboard.Imports}.
Import Dashboard.

Lemma plain_id_spec (k : string) :
  plain_id k = true ->
  exists v : val, parseInt10 k = Some v /\ to_key v = Some k.
Proof.
  unfold plain_id. destruct (parseInt10 k) as [v|] eqn:Ep; [|discriminate].
  destruct (to_key v) as [k'|] eqn:Ek; [|discriminate].
  intros ->%String.eqb_eq. now exists v.
Qed.

Lemma filters_loop (fl ol : loc) (ops : props) (filterData filters : val) :
  filterData = VRef ol -> filters = VRef fl -> fl <> ol ->
  forall (es acc : props) (X : heap),
  X !! ol = Some (OObj ops) -> X !! fl = Some (OObj acc) ->
  Forall (fun kv : string * val => plain_id kv.1 = true) es ->
  iterM (fun kv : string * val =>
           let key := kv.1 in
           let* sliceId := of_option (parseInt10 key) in
           let* x := get_prop filterData key in
           set_index filters sliceId x) es X
  = (Ret tt,
     <[fl := OObj (pset_all (map (fun kv => (kv.1, pget_or_undef kv.1 ops)) es) acc)]> X).
Proof.
  intros -> -> Hne. induction es as [|[k v] es IH]; intros acc X Hol Hfl Hall.
  - simpl. now rewrite list_insert_id.
  - apply Forall_cons in Hall as [Hk Hall].
    destruct (plain_id_spec k Hk) as (n & Hparse & Hkey).
    rewrite iterM_cons. cbv beta zeta. cbn [fst]. rewrite Hparse.
    mstep. mstep. mstep.
    erewrite IH; [| hlookup | hlookup | exact Hall].
    now rewrite list_insert_insert_eq.
Qed.

Lemma pset_all_own_values (ops : props) :
  NoDup ops.*1 ->
  map (fun kv : string * val => (kv.1, pget_or_undef kv.1 ops)) (own_entries ops)
  = own_entries ops.
Proof.
  intros Hnd. rewrite <- (map_id (own_entries ops)) at 2.
  apply map_ext_in. intros [k v] Hin. simpl.
  unfold pget_or_undef. rewrite (elem_pget_Some k v ops Hnd); [reflexivity|].
  rewrite <- own_entries_perm. now apply list_elem_of_In.
Qed.

Lemma preselect_text_override (d param : val) (h : heap) :
  getParam "preselect_filters" h = (Ret param, h) -> truthy param = true ->
  preselect_text d h = (Ret param, h).
Proof.
  intros Hp Ht. unfold preselect_text.
  now rewrite (bind_ret_run _ _ _ _ _ Hp), Ht.
Qed.

Lemma preselect_text_default (d param : val) (h : heap) :
  getParam "preselect_filters" h = (Ret param, h) -> truthy param = false ->
  preselect_text d h = get_path d ["metadata"; "default_filters"] h.
Proof.
  intros Hp Ht. unfold preselect_text.
  now rewrite (bind_ret_run _ _ _ _ _ Hp), Ht.
Qed.

Lemma filters_unparsed (d : val) (fl : loc) (chosen : val) (text : string) (e : exn)
  (h h1 : heap) :
  preselect_text d h = (Ret chosen, h) -> to_key chosen = Some text ->
  JSON_parse text h = (Throw e, h1) ->
  getInitialState_filters d (VRef fl) h = (Ret tt, h1).
Proof.
  intros Ht Hk Hp. unfold getInitialState_filters.
  erewrite try_catch_throw_run; [reflexivity|].
  rewrite (bind_ret_run _ _ _ _ _ Ht), Hk. mstep.
  eapply bind_throw_run. exact Hp.
Qed.

Lemma filters_parsed (d : val) (fl ol : loc) (chosen : val) (text : string) (ops : props)
  (h h1 : heap) :
  preselect_text d h = (Ret chosen, h) -> to_key chosen = Some text ->
  JSON_parse text h = (Ret (VRef ol), h1) ->
  h1 !! ol = Some (OObj ops) -> NoDup ops.*1 ->
  Forall (fun kv : string * val => plain_id kv.1 = true) ops ->
  h1 !! fl = Some (OObj []) -> fl <> ol ->
  getInitialState_filters d (VRef fl) h =
    (Ret tt, <[fl := OObj (pset_all (own_entries ops) [])]> h1).
Proof.
  intros Ht Hk Hp Hol Hnd Hids Hfl Hne. unfold getInitialState_filters.
  apply try_catch_ret_run.
  rewrite (bind_ret_run _ _ _ _ _ Ht), Hk. mstep.
  rewrite (bind_ret_run _ _ _ _ _ Hp). mstep.
  erewrite filters_loop; [| reflexivity | reflexivity | exact Hne | exact Hol | exact Hfl |].
  - now rewrite (pset_all_own_values _ Hnd).
  - apply Forall_forall. intros kv Hin.
    rewrite Forall_forall in Hids. apply Hids.
    now rewrite <- (own_entries_perm ops).
Qed.

Lemma filters_never_raise (d f : val) (h h1 : heap) (e : exn) :
  getInitialState_filters d f h <> (Throw e, h1).
Proof.
  unfold getInitialState_filters, try_catch.
  match goal with |- context [match ?body h with _ => _ end] =>
    destruct (body h) as [[[]|e'|] h2] end; discriminate.
Qed.

(** C2, as the code has it.  The text handed to [JSON.parse] is the request
    parameter when that is non-empty and the metadata default otherwise.
    With no request parameter and a default that parses to an object keyed
    by slice ids, the filters get the entries of the parsed default; when
    the chosen text does not parse, or the metadata cannot be read, the
    filters stay as they were (empty); and the block never raises. *)
Theorem initial_filters_default_or_empty (d : val) (fl : loc) (param : val) (h : heap) :
  getParam "preselect_filters" h = (Ret param, h) ->
  (* an override that does not parse: the default is not consulted *)
  (forall (text : string) (e : exn) (h1 : heap),
     truthy param = true -> to_key param = Some text ->
     JSON_parse text h = (Throw e, h1) ->
     getInitialState_filters d (VRef fl) h = (Ret tt, h1)) /\
  (* no override, a default that parses to an object keyed by slice ids *)
  (forall (dflt : val) (text : string) (ol : loc) (ops : props) (h1 : heap),
     truthy param = false ->
     get_path d ["metadata"; "default_filters"] h = (Ret dflt, h) ->
     to_key dflt = Some text ->
     JSON_parse text h = (Ret (VRef ol), h1) ->
     h1 !! ol = Some (OObj ops) -> NoDup ops.*1 ->
     Forall (fun kv : string * val => plain_id kv.1 = true) ops ->
     h1 !! fl = Some (OObj []) -> fl <> ol ->
     exists fps : props,
       getInitialState_filters d (VRef fl) h = (Ret tt, <[fl := OObj fps]> h1) /\
       forall k : string, pget k fps = pget k ops) /\
  (* no override, and no default that parses *)
  (forall (dflt : val) (text : string) (e : exn) (h1 : heap),
     truthy param = false ->
     get_path d ["metadata"; "default_filters"] h = (Ret dflt, h) ->
     to_key dflt = Some text ->
     JSON_parse text h = (Throw e, h1) ->
     getInitialState_filters d (VRef fl) h = (Ret tt, h1)) /\
  (forall (e : exn) (h1 : heap),
     truthy param = false ->
     get_path d ["metadata"; "default_filters"] h = (Throw e, h1) ->
     getInitialState_filters d (VRef fl) h = (Ret tt, h1)) /\
  (* and in no case does the block raise *)
  (forall (e : exn) (h1 : heap),
     getInitialState_filters d (VRef fl) h <> (Throw e, h1)).
Proof.
  intros Hparam. split; [|split; [|split; [|split]]]; [| | | | intros e h1; apply filters_never_raise].
  - intros text e h1 Htruthy Hkey Hparse.
    eapply filters_unparsed; [| exact Hkey | exact Hparse].
    now apply preselect_text_override.
  - intros dflt text ol ops h1 Hfalsy Hd Hkey Hparse Hol Hnd Hids Hfl Hne.
    exists (pset_all (own_entries ops) []). split.
    + eapply filters_parsed; try eassumption.
      now rewrite (preselect_text_default _ _ _ Hparam Hfalsy).
    + intros k. rewrite (pget_copy _ _ _ Hnd). simpl. now destruct (pget k ops).
  - intros dflt text e h1 Hfalsy Hd Hkey Hparse.
    eapply filters_unparsed; [| exact Hkey | exact Hparse].
    now rewrite (preselect_text_default _ _ _ Hparam Hfalsy).
  - intros e h1 Hfalsy Hd. unfold getInitialState_filters.
    erewrite try_catch_throw_run; [reflexivity|].
    eapply bind_throw_run.
    rewrite (preselect_text_default _ _ _ Hparam Hfalsy). exact Hd.
Qed.

End initial_filters.

Section initial_filters_runs.
Import Env Dashboard.

(** With [preselect_filters={bad] in the query string the dashboard starts
    without filters, although its metadata holds default filters that parse
    (the counterexample to C2 as stated); without the parameter it starts
    with those. *)
Lemma unparsable_override_counterexample :
  observe (getInitialState (H0 := imports (VStr "{bad")) bootstrapData)
    ["dashboard"; "filters"] bootstrap = Ret (OObj []) /\
  observe (getInitialState (H0 := imports (VStr "")) bootstrapData)
    ["dashboard"; "filters"; "11"; "a"] bootstrap = Ret (OArr [VStr "x"]).
Proof. split; vm_compute; reflexivity. Qed.

Lemma initial_filters_default_or_empty_witness :
  getParam "preselect_filters" at_filters = (Ret (VStr ""), at_filters) /\
  exists fps : props,
    getInitialState_filters (VRef 13) (VRef 14) at_filters =
      (Ret tt,
       <[14%nat := OObj fps]>
         (at_filters ++ [OArr [VStr "x"]; OObj [("a", VRef 15)]; OObj [("11", VRef 16)]])) /\
    forall k : string, pget k fps = pget k [("11", VRef 16)].
Proof.
  split; [reflexivity|].
  destruct (initial_filters_default_or_empty (H0 := no_param)
              (VRef 13) 14 (VStr "") at_filters eq_refl)
    as (_ & Hdefault & _).
  refine (Hdefault (VStr default_filters_text) default_filters_text 17%nat
            [("11", VRef 16)] _ eq_refl eq_refl eq_refl eq_refl eq_refl _ _ eq_refl
            ltac:(discriminate)).
  - apply (bool_decide_unpack _); vm_compute; exact I.
  - repeat constructor.
Defined.

End initial_filters_runs.

(** ** The composite store *)

Section composite.
Import Dashboard.

Lemma extends_refl (X : heap) : extends X X.
Proof. intros l o E. exact E. Qed.

Lemma extends_trans (X Y Z : heap) : extends X Y -> extends Y Z -> extends X Z.
Proof. intros HXY HYZ l o E. apply HYZ, HXY, E. Qed.

Lemma extends_snoc (X : heap) (o : obj) : extends X (X ++ [o]).
Proof. intros l o' E. now apply lookup_snoc_old. Qed.

Lemma extends_insert_new (h X : heap) (n : loc) (o : obj) :
  extends h X -> length h <= n -> extends h (<[n := o]> X).
Proof.
  intros HX Hn l o' E. apply lookup_insert_other; [|apply HX, E].
  apply lookup_lt_Some in E. lia.
Qed.

Lemma reduce_slices_cons (key : string) (r : reducer) (rs : list (string * reducer))
  (state action nextState : val) (hasChanged : bool) :
  reduce_slices ((key, r) :: rs) state action nextState hasChanged =
    (let* previousStateForKey := get_prop state key in
     let* nextStateForKey := r previousStateForKey action in
     let* _ := set_prop nextState key nextStateForKey in
     reduce_slices rs state action nextState
       (hasChanged || negb (strict_eq nextStateForKey previousStateForKey))).
Proof. reflexivity. Qed.

Lemma reduce_slices_unchanged (sl n : loc) (sps : props) (action : val) (h : heap)
  (rs : list (string * reducer)) :
  h !! sl = Some (OObj sps) -> length h <= n ->
  Forall (fun kr : string * reducer =>
            returns_input kr.2 (pget_or_undef kr.1 sps) action h) rs ->
  forall (X : heap) (nps : props),
  extends h X -> X !! n = Some (OObj nps) ->
  exists X' : heap,
    reduce_slices rs (VRef sl) action (VRef n) false X = (Ret false, X') /\
    extends h X'.
Proof.
  intros Hs Hn. induction rs as [|[key r] rs IH]; intros Hall X nps HX Hnext.
  - exists X. split; [reflexivity | exact HX].
  - apply Forall_cons in Hall as [Hr Hall].
    destruct (Hr X HX) as (v & X1 & Erun & Heq & HX1). simpl in Erun, Heq.
    pose proof (HX _ _ Hs) as Hs'.
    pose proof (HX1 _ _ Hnext) as Hnext1.
    destruct (IH Hall (<[n := OObj (pset key v nps)]> X1) (pset key v nps))
      as (X' & E & HX').
    { apply extends_insert_new; [|exact Hn]. eapply extends_trans; eassumption. }
    { eapply lookup_insert_same; eassumption. }
    exists X'. split; [|exact HX'].
    rewrite reduce_slices_cons.
    mstep. rewrite (bind_ret_run _ _ _ _ _ Erun).
    mstep. rewrite Heq. exact E.
Qed.

Lemma combineReducers_unchanged (sl : loc) (sps : props) (action : val) (h : heap)
  (rs : list (string * reducer)) :
  h !! sl = Some (OObj sps) ->
  Forall (fun kr : string * reducer =>
            returns_input kr.2 (pget_or_undef kr.1 sps) action h) rs ->
  exists h' : heap,
    combineReducers rs (VRef sl) action h = (Ret (VRef sl), h') /\ extends h h'.
Proof.
  intros Hs Hall.
  destruct (reduce_slices_unchanged sl (length h) sps action h rs Hs (le_n _) Hall
              (h ++ [OObj []]) [] (extends_snoc h _) (lookup_snoc h _))
    as (h' & E & Hext).
  exists h'. split; [|exact Hext]. unfold combineReducers.
  mstep. now rewrite (bind_ret_run _ _ _ _ _ E).
Qed.

Context `{ActionTypes} `{Imports}.

(** C8: when the chart reducer and the dashboard reducer both answer the
    action with the slice they were given, the combined reducer answers with
    the root state it was given. *)
Theorem rootReducer_returns_input (sl : loc) (sps : props) (action : val) (h : heap) :
  h !! sl = Some (OObj sps) ->
  returns_input charts (pget_or_undef "charts" sps) action h ->
  returns_input dashboard (pget_or_undef "dashboard" sps) action h ->
  exists h' : heap,
    rootReducer (VRef sl) action h = (Ret (VRef sl), h') /\ extends h h'.
Proof.
  intros Hs Hc Hd. apply (combineReducers_unchanged sl sps); [exact Hs|].
  repeat constructor; assumption.
Qed.

End composite.

Section composite_runs.
Import Env Dashboard.

Lemma rootReducer_returns_input_witness :
  exists h' : heap,
    rootReducer the_root init one_slice = (Ret the_root, h') /\ extends one_slice h'.
Proof.
  refine (rootReducer_returns_input 13 _ init one_slice eq_refl _ _).
  - intros X HX. exists (VRef 1), X. repeat split. apply extends_refl.
  - intros X HX. exists (VRef 8), X. split; [|split; [reflexivity | apply extends_refl]].
    apply (dashboard_unknown_type_run (VRef 8) init (VStr "@@redux/INIT") "@@redux/INIT").
    + discriminate.
    + exact (get_prop_obj_run X 12 [("type", VStr "@@redux/INIT")] "type"
               (HX 12%nat _ eq_refl)).
    + reflexivity.
    + apply (bool_decide_unpack _); vm_compute; exact I.
Defined.

End composite_runs.

(** ** The handlers that copy the state *)

Ltac hextends :=
  let l := fresh "l" in
  let o := fresh "o" in
  let E := fresh "E" in
  intros l o E; hlookup.

Ltac in_table := unfold Dashboard.actionHandlers; repeat constructor.

Ltac copied_fields :=
  let k := fresh "k" in
  intros k; simpl; try reflexivity;
  repeat match goal with
         | |- context [String.eqb k ?f] =>
             destruct (String.eqb_spec k f); [subst k; simpl|]
         end;
  reflexivity.

Section dashboard_handlers.
Context `{Dashboard.ActionTypes} `{Dashboard.Imports}.
Import Dashboard.

Lemma handler_of_in (k : string) (f : reducer) (table : list (string * reducer)) :
  NoDup table.*1 -> (k, f) ∈ table -> handler_of k table = Some f.
Proof.
  intros Hnd (before & after & ->)%list_elem_of_split. now apply handler_of_NoDup.
Qed.

Lemma dashboard_dispatch_run (f : reducer) (sl al : loc) (aps : props) (k : string)
  (h : heap) :
  NoDup action_types -> (k, f) ∈ actionHandlers ->
  h !! al = Some (OObj aps) -> to_key (pget_or_undef "type" aps) = Some k ->
  dashboard (VRef sl) (VRef al) h = f (VRef sl) (VRef al) h.
Proof.
  intros Hnd Hin Ha Hk. unfold dashboard.
  mstep. mstep. rewrite Hk. mstep.
  now rewrite (handler_of_in k f actionHandlers Hnd Hin).
Qed.

Lemma copied_over_intro (h : heap) (l : loc) (flds fields ps : props) :
  NoDup ps.*1 ->
  h !! l = Some (OObj (pset_all flds (pset_all (own_entries ps) []))) ->
  (forall k : string, pget k (rev flds) = pget k fields) ->
  copied_over h l ps fields.
Proof.
  intros Hnd Hl Hf. eexists. split; [exact Hl|].
  intros k. now rewrite (pget_copy_with _ _ _ Hnd), Hf.
Qed.

Lemma copied_over_copy (h : heap) (l : loc) (ps : props) :
  NoDup ps.*1 ->
  h !! l = Some (OObj (pset_all (own_entries ps) [])) ->
  copied_over h l ps [].
Proof.
  intros Hnd Hl. eexists. split; [exact Hl|].
  intros k. rewrite (pget_copy _ _ _ Hnd). simpl. now destruct (pget k ps).
Qed.

Lemma copied_over_set (h : heap) (l : loc) (ps : props) (k : string) (v : val) :
  NoDup ps.*1 ->
  h !! l = Some (OObj (pset k v (pset_all (own_entries ps) []))) ->
  copied_over h l ps [(k, v)].
Proof.
  intros Hnd Hl. eexists. split; [exact Hl|].
  intros k'. rewrite pget_pset, (pget_copy _ _ _ Hnd). simpl.
  destruct (String.eqb k' k); [reflexivity|]. now destruct (pget k' ps).
Qed.

Lemma copied_without_intro (h : heap) (l : loc) (ps : props) (k : string) :
  NoDup ps.*1 ->
  h !! l = Some (OObj (pdel k (pset_all (own_entries ps) []))) ->
  copied_without h l ps k.
Proof.
  intros Hnd Hl. eexists. split; [exact Hl|].
  intros k'. destruct (String.eqb k' k) eqn:E.
  - apply String.eqb_eq in E as ->. apply pget_pdel_eq.
  - apply String.eqb_neq in E. rewrite (pget_pdel_ne _ _ _ E), (pget_copy _ _ _ Hnd).
    simpl. now destruct (pget k' ps).
Qed.

(** X8: [TOGGLE_FAVE_STAR] returns a new object that has the properties of
    the state, but [isStarred], which is the action's; the state it was
    given and every other object stay as they were. *)
Theorem dashboard_fave_star_copies (sl al : loc) (sps aps : props) (h : heap) :
  NoDup action_types ->
  h !! sl = Some (OObj sps) -> NoDup sps.*1 ->
  h !! al = Some (OObj aps) ->
  to_key (pget_or_undef "type" aps) = Some TOGGLE_FAVE_STAR ->
  exists (r : loc) (h' : heap),
    dashboard (VRef sl) (VRef al) h = (Ret (VRef r), h') /\
    length h <= r /\ extends h h' /\
    copied_over h' r sps [("isStarred", pget_or_undef "isStarred" aps)].
Proof.
  intros Hty Hs Hnd Ha Hk.
  rewrite (dashboard_dispatch_run on_TOGGLE_FAVE_STAR sl al aps _ h Hty
             ltac:(in_table) Ha Hk).
  unfold on_TOGGLE_FAVE_STAR, copy_with.
  mstep. mstep. mstep. mstep.
  eexists _, _. split; [run_prim|].
  split; [heap_lengths|]. split; [hextends|].
  eapply copied_over_intro; [exact Hnd | hlookup | copied_fields].
Qed.

(** X9: [UPDATE_DASHBOARD_TITLE] and [UPDATE_DASHBOARD_LAYOUT] return a new
    state whose [dashboard] is a new object: the dashboard of the state with
    the title, or the layout, of the action.  Everything else is shared with
    the state, and no object that was there is changed. *)
Theorem dashboard_update_title_or_layout (sl al dl : loc) (sps aps dps : props)
  (k field from : string) (h : heap) :
  NoDup action_types ->
  h !! sl = Some (OObj sps) -> NoDup sps.*1 ->
  h !! al = Some (OObj aps) ->
  pget "dashboard" sps = Some (VRef dl) ->
  h !! dl = Some (OObj dps) -> NoDup dps.*1 ->
  to_key (pget_or_undef "type" aps) = Some k ->
  (k = UPDATE_DASHBOARD_TITLE /\ field = "dashboard_title" /\ from = "title") \/
  (k = UPDATE_DASHBOARD_LAYOUT /\ field = "layout" /\ from = "layout") ->
  exists (r nd : loc) (h' : heap),
    dashboard (VRef sl) (VRef al) h = (Ret (VRef r), h') /\
    length h <= r /\ length h <= nd /\ extends h h' /\
    copied_over h' r sps [("dashboard", VRef nd)] /\
    copied_over h' nd dps [(field, pget_or_undef from aps)].
Proof.
  intros Hty Hs Hnd Ha Hd Hdl Hdnd Hk [(-> & -> & ->) | (-> & -> & ->)].
  - rewrite (dashboard_dispatch_run on_UPDATE_DASHBOARD_TITLE sl al aps _ h Hty
               ltac:(in_table) Ha Hk).
    unfold on_UPDATE_DASHBOARD_TITLE, copy_with.
    mstep. mstep. rewrite (pget_or_undef_Some _ _ _ Hd).
    mstep. mstep. mstep. mstep. mstep. mstep. mstep.
    eexists _, (length h), _. split; [run_prim|].
    split; [heap_lengths|]. split; [lia|]. split; [hextends|]. split.
    + eapply copied_over_intro; [exact Hnd | hlookup | copied_fields].
    + eapply copied_over_intro; [exact Hdnd | hlookup | copied_fields].
  - rewrite (dashboard_dispatch_run on_UPDATE_DASHBOARD_LAYOUT sl al aps _ h Hty
               ltac:(in_table) Ha Hk).
    unfold on_UPDATE_DASHBOARD_LAYOUT, copy_with.
    mstep. mstep. rewrite (pget_or_undef_Some _ _ _ Hd).
    mstep. mstep. mstep. mstep. mstep. mstep. mstep.
    eexists _, (length h), _. split; [run_prim|].
    split; [heap_lengths|]. split; [lia|]. split; [hextends|]. split.
    + eapply copied_over_intro; [exact Hnd | hlookup | copied_fields].
    + eapply copied_over_intro; [exact Hdnd | hlookup | copied_fields].
Qed.

(** X10: [TOGGLE_EXPAND_SLICE] returns a new state with new objects along
    [dashboard.metadata.expanded_slices]; the last is the mapping of the
    state with the slice set to [true] when the action expands it, and
    without the slice when it collapses it.  No object that was there is
    changed. *)
Theorem dashboard_toggle_expand_slice (sl al dl ml el cl : loc)
  (sps aps dps mps eps cps : props) (sk : string) (h : heap) :
  NoDup action_types ->
  h !! sl = Some (OObj sps) -> NoDup sps.*1 ->
  pget "dashboard" sps = Some (VRef dl) ->
  h !! dl = Some (OObj dps) -> NoDup dps.*1 ->
  pget "metadata" dps = Some (VRef ml) ->
  h !! ml = Some (OObj mps) -> NoDup mps.*1 ->
  pget "expanded_slices" mps = Some (VRef el) ->
  h !! el = Some (OObj eps) -> NoDup eps.*1 ->
  h !! al = Some (OObj aps) ->
  to_key (pget_or_undef "type" aps) = Some TOGGLE_EXPAND_SLICE ->
  pget "slice" aps = Some (VRef cl) -> h !! cl = Some (OObj cps) ->
  to_key (pget_or_undef "slice_id" cps) = Some sk ->
  exists (r nd nm ne : loc) (h' : heap),
    dashboard (VRef sl) (VRef al) h = (Ret (VRef r), h') /\
    extends h h' /\
    copied_over h' r sps [("dashboard", VRef nd)] /\
    copied_over h' nd dps [("metadata", VRef nm)] /\
    copied_over h' nm mps [("expanded_slices", VRef ne)] /\
    (if truthy (pget_or_undef "isExpanded" aps)
     then copied_over h' ne eps [(sk, VBool true)]
     else copied_without h' ne eps sk) /\
    length h <= r /\ length h <= nd /\ length h <= nm /\ length h <= ne.
Proof.
  intros Hty Hs Hnd Hd Hdl Hdnd Hm Hml Hmnd He Hel Hend Ha Hk Hc Hcl Hsk.
  rewrite (dashboard_dispatch_run on_TOGGLE_EXPAND_SLICE sl al aps _ h Hty
             ltac:(in_table) Ha Hk).
  unfold on_TOGGLE_EXPAND_SLICE, copy_with.
  mstep. mstep. rewrite (pget_or_undef_Some _ _ _ Hd).
  mstep. rewrite (pget_or_undef_Some _ _ _ Hm).
  mstep. rewrite (pget_or_undef_Some _ _ _ He).
  mstep. mstep. rewrite (pget_or_undef_Some _ _ _ Hc).
  mstep. mstep.
  destruct (truthy (pget_or_undef "isExpanded" aps)).
  - mstep. mstep. mstep. rewrite (pget_or_undef_Some _ _ _ Hd).
    mstep. rewrite (pget_or_undef_Some _ _ _ Hm).
    mstep. mstep. mstep. mstep.
    mstep. mstep. mstep. rewrite (pget_or_undef_Some _ _ _ Hd).
    mstep. mstep. mstep. mstep.
    eexists _, _, _, _, _. split; [run_prim|]. split; [hextends|].
    split; [eapply copied_over_intro; [exact Hnd | hlookup | copied_fields]|].
    split; [eapply copied_over_intro; [exact Hdnd | hlookup | copied_fields]|].
    split; [eapply copied_over_intro; [exact Hmnd | hlookup | copied_fields]|].
    split; [eapply copied_over_set; [exact Hend | hlookup]|].
    repeat split; heap_lengths.
  - mstep. mstep. mstep. rewrite (pget_or_undef_Some _ _ _ Hd).
    mstep. rewrite (pget_or_undef_Some _ _ _ Hm).
    mstep. mstep. mstep. mstep.
    mstep. mstep. mstep. rewrite (pget_or_undef_Some _ _ _ Hd).
    mstep. mstep. mstep. mstep.
    eexists _, _, _, _, _. split; [run_prim|]. split; [hextends|].
    split; [eapply copied_over_intro; [exact Hnd | hlookup | copied_fields]|].
    split; [eapply copied_over_intro; [exact Hdnd | hlookup | copied_fields]|].
    split; [eapply copied_over_intro; [exact Hmnd | hlookup | copied_fields]|].
    split; [eapply copied_without_intro; [exact Hend | hlookup]|].
    repeat split; heap_lengths.
Qed.

End dashboard_handlers.

(** ** Property lists and heaps, continued *)

Lemma pset_keys (x k : string) (v : val) (ps : props) :
  x ∈ (pset k v ps).*1 -> x = k \/ x ∈ ps.*1.
Proof.
  induction ps as [|[k' v'] ps IH]; simpl.
  - intros ->%list_elem_of_singleton. now left.
  - destruct (String.eqb k k') eqn:E; simpl.
    + apply String.eqb_eq in E as ->. intros [->|Hin]%elem_of_cons; [now left|].
      right. now right.
    + intros [->|Hin]%elem_of_cons; [right; left|].
      destruct (IH Hin) as [->|Hin']; [now left | right; now right].
Qed.

Lemma pset_NoDup (k : string) (v : val) (ps : props) :
  NoDup ps.*1 -> NoDup (pset k v ps).*1.
Proof.
  induction ps as [|[k' v'] ps IH]; simpl.
  - intros _. apply NoDup_singleton.
  - intros [Hk' Hnd]%NoDup_cons. destruct (String.eqb k k') eqn:E; simpl.
    + apply String.eqb_eq in E as ->. now apply NoDup_cons.
    + apply String.eqb_neq in E. apply NoDup_cons. split; [|auto].
      intros [->|Hin]%pset_keys; [congruence | auto].
Qed.

Lemma pset_all_NoDup (es ps : props) :
  NoDup ps.*1 -> NoDup (pset_all es ps).*1.
Proof.
  revert ps. induction es as [|[k v] es IH]; intros ps Hnd; [exact Hnd|].
  simpl. apply IH. now apply pset_NoDup.
Qed.

Lemma copy_NoDup (es : props) : NoDup (pset_all es []).*1.
Proof. apply pset_all_NoDup. apply NoDup_nil_2. Qed.

Lemma pget_rev_own (k : string) (ps : props) :
  NoDup ps.*1 -> pget k (rev (own_entries ps)) = pget k ps.
Proof.
  intros Hnd. symmetry. apply pget_perm; [exact Hnd|].
  now rewrite <- Permutation_rev, own_entries_perm.
Qed.

Lemma pget_pdel (k k' : string) (ps : props) :
  pget k (pdel k' ps) = if String.eqb k k' then None else pget k ps.
Proof.
  destruct (String.eqb k k') eqn:E.
  - apply String.eqb_eq in E as ->. apply pget_pdel_eq.
  - apply String.eqb_neq in E. now apply pget_pdel_ne.
Qed.

(** *** Heaps in the form [h ++ cells] *)

Lemma lookup_app_plus (h cells : heap) (i : nat) (o : obj) :
  cells !! i = Some o -> (h ++ cells) !! (length h + i) = Some o.
Proof. intros E. rewrite lookup_app_r by lia. now replace (length h + i - length h) with i by lia. Qed.

Lemma lookup_app_first (h cells : heap) (o : obj) :
  cells !! 0 = Some o -> (h ++ cells) !! length h = Some o.
Proof. intros E. rewrite <- (Nat.add_0_r (length h)). now apply lookup_app_plus. Qed.

Lemma insert_app_plus (h cells : heap) (i : nat) (o : obj) :
  <[length h + i := o]> (h ++ cells) = h ++ <[i := o]> cells.
Proof. apply insert_app_r. Qed.

Lemma insert_app_first (h cells : heap) (o : obj) :
  <[length h := o]> (h ++ cells) = h ++ <[0 := o]> cells.
Proof. rewrite <- (Nat.add_0_r (length h)) at 1. apply insert_app_r. Qed.

Lemma length_app_cells (h cells : heap) : length (h ++ cells) = length h + length cells.
Proof. apply length_app. Qed.

Lemma app_cells (h cells : heap) (o : obj) : (h ++ cells) ++ [o] = h ++ (cells ++ [o]).
Proof. symmetry. apply app_assoc. Qed.

Lemma extends_app (h cells : heap) : extends h (h ++ cells).
Proof. intros l o E. now apply lookup_app_l_Some. Qed.

Lemma pset_all_nil (ps : props) : pset_all [] ps = ps.
Proof. reflexivity. Qed.

Lemma pset_all_singleton (k : string) (v : val) (ps : props) :
  pset_all [(k, v)] ps = pset k v ps.
Proof. reflexivity. Qed.

Lemma pset_nil (k : string) (v : val) : pset k v [] = [(k, v)].
Proof. reflexivity. Qed.

Lemma own_entries_nil : own_entries [] = [].
Proof. reflexivity. Qed.

Lemma own_entries_singleton (k : string) (v : val) : own_entries [(k, v)] = [(k, v)].
Proof.
  unfold own_entries, index_entries, name_entries. simpl.
  destruct (array_index k) as [n|] eqn:E; simpl.
  - rewrite filter_cons_False by (simpl; congruence). reflexivity.
  - rewrite filter_cons_True by (simpl; congruence). reflexivity.
Qed.

Lemma pget_or_undef_pset_eq (k : string) (v : val) (ps : props) :
  pget_or_undef k (pset k v ps) = v.
Proof. unfold pget_or_undef. now rewrite pget_pset_eq. Qed.

Ltac hnorm :=
  repeat first
    [ rewrite app_cells
    | rewrite length_app_cells
    | rewrite insert_app_plus
    | rewrite insert_app_first ];
  cbn [app length Nat.add insert list_insert];
  rewrite ?pset_all_nil, ?pset_all_singleton, ?pset_nil, ?own_entries_nil,
    ?own_entries_singleton, ?pset_all_singleton, ?pget_or_undef_pset_eq.

Ltac nlookup :=
  first [ eassumption
        | apply lookup_app_plus; reflexivity
        | apply lookup_app_first; reflexivity
        | apply lookup_app_l_Some; eassumption ].

Ltac nrun_prim :=
  idtac;
  lazymatch goal with
  | |- ret _ _ = _ => reflexivity
  | |- of_option (Some _) _ = _ => reflexivity
  | |- new_object [] _ = _ => exact eq_refl
  | |- new_object _ _ = _ => reflexivity
  | |- new_array _ _ = _ => reflexivity
  | |- get_prop (VRef _) _ _ = _ => eapply get_prop_obj_run; nlookup
  | |- get_index (VRef _) _ _ = _ => eapply get_index_obj_run; [nlookup | eassumption]
  | |- has_prop _ (VRef _) _ = _ => eapply has_prop_obj_run; [nlookup | eassumption]
  | |- set_prop (VRef _) _ _ _ = _ => eapply set_prop_obj_run; nlookup
  | |- set_index (VRef _) _ _ _ = _ => eapply set_index_obj_run; [nlookup | eassumption]
  | |- delete_index (VRef _) _ _ = _ => eapply delete_index_obj_run; [nlookup | eassumption]
  | |- own_enumerable (VRef _) _ = _ => eapply own_enumerable_obj_run; nlookup
  | |- String_ _ _ = _ => eapply String_run; eassumption
  | |- Array_push (VRef _) _ _ = _ => eapply Array_push_run; nlookup
  | |- indexOf (VRef _) _ _ = _ => eapply indexOf_array_run; nlookup
  | |- Object_assign (VRef _) [_] _ = _ =>
      eapply Object_assign_one_run; [nrun_prim | nlookup]
  | |- Object_assign (VRef _) [_; _] _ = _ =>
      eapply Object_assign_two_run; [nlookup | nrun_prim | cbv zeta; hnorm; nrun_prim]
  end.

Ltac nstep := mstep_by nrun_prim; hnorm.

Lemma pget_copy_nil (k : string) (ps : props) :
  NoDup ps.*1 -> pget k (pset_all (own_entries ps) []) = pget k ps.
Proof. intros Hnd. rewrite (pget_copy _ _ _ Hnd). simpl. now destruct (pget k ps). Qed.

Ltac nodup :=
  repeat first [ assumption | apply copy_NoDup | apply pset_NoDup | apply NoDup_nil_2 ].

(** [copied_over], [copied_without]: find the cell, then compare name by
    name. *)
Ltac copied :=
  eexists; split; [nlookup|];
  let k := fresh "k" in
  intros k;
  repeat first [ rewrite pget_pset
               | rewrite pget_pdel
               | rewrite pget_copy_nil by nodup
               | rewrite pget_copy_with by nodup ];
  simpl;
  repeat match goal with
         | |- context [String.eqb k ?f] =>
             destruct (String.eqb_spec k f); [subst k; rewrite ?String.eqb_refl; simpl|]
         end;
  try reflexivity;
  repeat match goal with
         | |- context [pget ?x ?ps] => destruct (pget x ps)
         end;
  reflexivity.

(** ** ADD_FILTER *)

Section add_filter.
Context `{Dashboard.ActionTypes} `{Dashboard.Imports}.
Import Dashboard.

Lemma find_slice_none (al : loc) (aps : props) (h : heap) (es : list val) :
  h !! al = Some (OObj aps) ->
  Forall (other_slice h (pget_or_undef "sliceId" aps)) es ->
  find_first (fun slice => let* slice_id := get_prop slice "slice_id" in
                           let* sliceId := get_prop (VRef al) "sliceId" in
                           ret (strict_eq slice_id sliceId)) es h
  = (Ret VUndef, h).
Proof.
  intros Ha. induction 1 as [|s es (l & ps & -> & Hl & Hne) _ IH]; [reflexivity|].
  cbn [find_first]. mstep. mstep. mstep. rewrite Hne. exact IH.
Qed.

Lemma find_slice_found (al : loc) (aps : props) (h : heap) (es : list val)
  (l : loc) (ps : props) :
  h !! al = Some (OObj aps) ->
  selects h (pget_or_undef "sliceId" aps) es l ps ->
  find_first (fun slice => let* slice_id := get_prop slice "slice_id" in
                           let* sliceId := get_prop (VRef al) "sliceId" in
                           ret (strict_eq slice_id sliceId)) es h
  = (Ret (VRef l), h).
Proof.
  intros Ha (before & after & -> & Hbefore & Hl & Heq).
  induction Hbefore as [|s es (l' & ps' & -> & Hl' & Hne) _ IH]; cbn [find_first app].
  - mstep. mstep. mstep. now rewrite Heq.
  - mstep. mstep. mstep. rewrite Hne. exact IH.
Qed.

Lemma Array_find_run (p : val -> M bool) (l : loc) (es : list val) (v : val) (h : heap) :
  h !! l = Some (OArr es) -> find_first p es h = (Ret v, h) ->
  Array_find (VRef l) p h = (Ret v, h).
Proof.
  intros Hl E. unfold Array_find.
  now rewrite (bind_ret_run _ _ _ _ _ (array_elems_run _ _ _ Hl)).
Qed.

(** X11: [ADD_FILTER] for a slice the dashboard does not have (no slice
    whose [slice_id] is [===] the action's [sliceId]) returns the state it
    was given, the same reference, and allocates nothing. *)
Theorem add_filter_unknown_slice (sl al dl ssl : loc) (sps aps dps : props)
  (slices : list val) (h : heap) :
  NoDup action_types ->
  h !! sl = Some (OObj sps) ->
  pget "dashboard" sps = Some (VRef dl) -> h !! dl = Some (OObj dps) ->
  pget "slices" dps = Some (VRef ssl) -> h !! ssl = Some (OArr slices) ->
  h !! al = Some (OObj aps) ->
  to_key (pget_or_undef "type" aps) = Some ADD_FILTER ->
  Forall (other_slice h (pget_or_undef "sliceId" aps)) slices ->
  dashboard (VRef sl) (VRef al) h = (Ret (VRef sl), h).
Proof.
  intros Hty Hs Hd Hdl Hss Hssl Ha Hk Hall.
  rewrite (dashboard_dispatch_run on_ADD_FILTER sl al aps _ h Hty ltac:(in_table) Ha Hk).
  unfold on_ADD_FILTER.
  mstep. rewrite (pget_or_undef_Some _ _ _ Hd).
  mstep. rewrite (pget_or_undef_Some _ _ _ Hss).
  mstep_by ltac:(eapply Array_find_run; [hlookup | eapply find_slice_none; eassumption]).
  reflexivity.
Qed.

(** X12: [ADD_FILTER] on a column that is neither a time key nor among the
    [groupby] of the selected slice adds no filter, and yet returns a new
    state: [filters] is a new object with what [state.filters] has, and
    [refresh] is the action's.  No object that was there is changed. *)
Theorem add_filter_other_column (sl al dl ssl fl l : loc) (sps aps dps fps ps : props)
  (slices : list val) (h : heap) :
  NoDup action_types ->
  h !! sl = Some (OObj sps) -> NoDup sps.*1 ->
  pget "dashboard" sps = Some (VRef dl) -> h !! dl = Some (OObj dps) ->
  pget "slices" dps = Some (VRef ssl) -> h !! ssl = Some (OArr slices) ->
  pget "filters" sps = Some (VRef fl) -> h !! fl = Some (OObj fps) -> NoDup fps.*1 ->
  h !! al = Some (OObj aps) ->
  to_key (pget_or_undef "type" aps) = Some ADD_FILTER ->
  selects h (pget_or_undef "sliceId" aps) slices l ps ->
  not_filterable h ps (pget_or_undef "col" aps) ->
  exists (r nf : loc) (h' : heap),
    dashboard (VRef sl) (VRef al) h = (Ret (VRef r), h') /\
    extends h h' /\
    copied_over h' r sps [("filters", VRef nf);
                          ("refresh", pget_or_undef "refresh" aps)] /\
    copied_over h' nf fps [] /\
    length h <= r /\ length h <= nf.
Proof.
  intros Hty Hs Hnd Hd Hdl Hss Hssl Hf Hfl Hfnd Ha Hk Hsel
    (Hfixed & fd & g & fdps & gs & Hfd & Hfdl & Hg & Hgl & Hgs).
  pose proof Hsel as (before & after & _ & _ & Hl & _).
  rewrite (dashboard_dispatch_run on_ADD_FILTER sl al aps _ h Hty ltac:(in_table) Ha Hk).
  unfold on_ADD_FILTER.
  mstep. rewrite (pget_or_undef_Some _ _ _ Hd).
  mstep. rewrite (pget_or_undef_Some _ _ _ Hss).
  mstep_by ltac:(eapply Array_find_run; [hlookup | eapply find_slice_found; eassumption]).
  cbn [truthy negb].
  mstep. mstep. rewrite (pget_or_undef_Some _ _ _ Hf).
  mstep. mstep. mstep. mstep. mstep. mstep. mstep. mstep.
  rewrite (proj2 (Z.leb_gt _ _) Hfixed).
  mstep. rewrite (pget_or_undef_Some _ _ _ Hfd).
  mstep. rewrite (pget_or_undef_Some _ _ _ Hg).
  mstep. rewrite Hgs. cbn [Z.eqb Pos.eqb negb].
  mstep. mstep. mstep. mstep.
  eexists _, (length h), _. split; [run_prim|]. split; [hextends|].
  split; [eapply copied_over_intro; [exact Hnd | hlookup | copied_fields]|].
  split; [eapply copied_over_copy; [exact Hfnd | hlookup]|].
  split; heap_lengths.
Qed.


End add_filter.

(** ** REMOVE_SLICE *)

Section remove_slice.
Context `{Dashboard.ActionTypes} `{Dashboard.Imports}.
Import Dashboard.

Lemma layout_filter_run (al cl : loc) (aps cps : props) (sk : string) (h : heap)
  (items : list val) :
  h !! al = Some (OObj aps) ->
  pget "slice" aps = Some (VRef cl) -> h !! cl = Some (OObj cps) ->
  to_key (pget_or_undef "slice_id" cps) = Some sk ->
  Forall (fun item => is_Some (item_key h item)) items ->
  filter_keep (fun reactPos =>
                 let* i := get_prop reactPos "i" in
                 let* slice := get_prop (VRef al) "slice" in
                 let* slice_id := get_prop slice "slice_id" in
                 let* s := String_ slice_id in
                 ret (negb (strict_eq i s))) items h
  = (Ret (layout_without h sk items), h).
Proof.
  intros Ha Hc Hcl Hsk. induction 1 as [|item items [i Hi] _ IH]; [reflexivity|].
  unfold item_key in Hi. destruct item as [| | | | | |l]; try discriminate.
  destruct (h !! l) as [[ps| |]|] eqn:Hl; try discriminate. injection Hi as <-.
  cbn [filter_keep]. mstep. mstep. rewrite (pget_or_undef_Some _ _ _ Hc).
  mstep. mstep. mstep. rewrite (bind_ret_run _ _ _ _ _ IH).
  unfold layout_without. cbn [List.filter].
  assert (item_key h (VRef l) = Some (pget_or_undef "i" ps)) as ->
    by (unfold item_key; now rewrite Hl).
  now destruct (negb (strict_eq (pget_or_undef "i" ps) (VStr sk))).
Qed.

(** X14: [REMOVE_SLICE] gives the new dashboard a new layout array: the
    items of [state.dashboard.layout] whose [i] is not the slice's id as a
    string, in their order.  The dashboard is what [removeFromArr] returns,
    copied with that layout, provided [removeFromArr] returns an object and
    leaves what is there as it is; the state is copied with that dashboard,
    and no object that was there is changed. *)
Theorem remove_slice_filters_layout (sl al dl ll cl nd0 : loc)
  (sps aps dps cps nps : props) (items : list val) (sk : string) (h H1 : heap) :
  NoDup action_types ->
  h !! sl = Some (OObj sps) -> NoDup sps.*1 ->
  pget "dashboard" sps = Some (VRef dl) -> h !! dl = Some (OObj dps) ->
  pget "layout" dps = Some (VRef ll) -> h !! ll = Some (OArr items) ->
  Forall (fun item => is_Some (item_key h item)) items ->
  h !! al = Some (OObj aps) ->
  to_key (pget_or_undef "type" aps) = Some REMOVE_SLICE ->
  pget "slice" aps = Some (VRef cl) -> h !! cl = Some (OObj cps) ->
  to_key (pget_or_undef "slice_id" cps) = Some sk ->
  removeFromArr (VRef dl) "slices" (VRef cl) "slice_id"
    (h ++ [OArr (layout_without h sk items)]) = (Ret (VRef nd0), H1) ->
  extends (h ++ [OArr (layout_without h sk items)]) H1 ->
  H1 !! nd0 = Some (OObj nps) -> NoDup nps.*1 ->
  exists (r nd : loc) (h' : heap),
    dashboard (VRef sl) (VRef al) h = (Ret (VRef r), h') /\
    extends H1 h' /\
    h' !! length h = Some (OArr (layout_without h sk items)) /\
    copied_over h' r sps [("dashboard", VRef nd)] /\
    copied_over h' nd nps [("layout", VRef (length h))] /\
    length H1 <= r /\ length H1 <= nd.
Proof.
  intros Hty Hs Hnd Hd Hdl Hl Hll Hitems Ha Hk Hc Hcl Hsk Himport Hext Hnd0 Hnnd.
  assert (H1 !! sl = Some (OObj sps)) as Hs1 by (apply Hext; now apply lookup_app_l_Some).
  assert (H1 !! length h = Some (OArr (layout_without h sk items))) as Hnew
    by (apply Hext; apply lookup_app_first; reflexivity).
  rewrite (dashboard_dispatch_run on_REMOVE_SLICE sl al aps _ h Hty ltac:(in_table) Ha Hk).
  unfold on_REMOVE_SLICE, copy_with.
  nstep. rewrite (pget_or_undef_Some _ _ _ Hd).
  nstep. rewrite (pget_or_undef_Some _ _ _ Hl).
  mstep_by ltac:(unfold Array_filter;
                 erewrite bind_ret_run by (apply array_elems_run; eassumption);
                 erewrite bind_ret_run by (eapply layout_filter_run; eassumption);
                 reflexivity).
  nstep. rewrite (pget_or_undef_Some _ _ _ Hd).
  nstep. rewrite (pget_or_undef_Some _ _ _ Hc).
  mstep_by ltac:(exact Himport).
  nstep. nstep. nstep. nstep. nstep. nstep. nstep. nstep. nstep.
  eexists _, _, _. split; [nrun_prim|]. hnorm.
  split; [apply extends_app|].
  split; [now apply lookup_app_l_Some|].
  split; [copied|]. split; [copied|]. split; lia.
Qed.

End remove_slice.

(** ** REMOVE_FILTER and the state it is given *)

Section remove_filter_mutates.
Context `{Dashboard.ActionTypes} `{Dashboard.Imports}.
Import Dashboard.

(** X15: [REMOVE_FILTER] changes the state it is given.  Where the slice is
    filtered on the column, the new array of the values that are not among
    the action's [vals] is written into the slice's own filter object, the
    one [state.filters] holds: the copy the handler works on shares it.  No
    other object that was there is changed. *)
Theorem remove_filter_changes_state (sl al fl cl el vl : loc)
  (sps aps fps cps : props) (es vs : list val) (sk c : string) (h : heap) :
  NoDup action_types ->
  h !! sl = Some (OObj sps) -> NoDup sps.*1 ->
  h !! al = Some (OObj aps) ->
  to_key (pget_or_undef "type" aps) = Some REMOVE_FILTER ->
  to_key (pget_or_undef "sliceId" aps) = Some sk ->
  to_key (pget_or_undef "col" aps) = Some c ->
  pget "filters" sps = Some (VRef fl) -> h !! fl = Some (OObj fps) -> NoDup fps.*1 ->
  pget sk fps = Some (VRef cl) -> h !! cl = Some (OObj cps) ->
  cl <> sl -> cl <> fl ->
  pget c cps = Some (VRef el) -> h !! el = Some (OArr es) ->
  pget "vals" aps = Some (VRef vl) -> h !! vl = Some (OArr vs) ->
  exists (r a : loc) (h' : heap),
    dashboard (VRef sl) (VRef al) h = (Ret (VRef r), h') /\
    h' !! sl = Some (OObj sps) /\
    h' !! fl = Some (OObj fps) /\
    h' !! cl = Some (OObj (pset c (VRef a) cps)) /\
    h' !! a = Some (OArr (kept vs es)) /\
    length h <= a /\
    keeps cl h h'.
Proof.
  intros Hty Hs Hnd Ha Hk Hsk Hc Hf Hfl Hfnd Hcur Hcl Hne1 Hne2 Hex Hel Hvals Hvl.
  rewrite (dashboard_dispatch_run on_REMOVE_FILTER sl al aps _ h Hty
             ltac:(in_table) Ha Hk).
  unfold on_REMOVE_FILTER.
  mstep. mstep. rewrite (pget_or_undef_Some _ _ _ Hf).
  mstep. mstep. mstep. mstep. mstep. rewrite (pget_or_undef_Some _ _ _ Hf).
  mstep. rewrite bool_decide_eq_true_2 by eauto.
  mstep. rewrite (pget_or_undef_Some _ _ _ Hf).
  mstep. rewrite (pget_or_undef_Some _ _ _ Hcur).
  mstep. rewrite bool_decide_eq_true_2 by eauto.
  mstep. mstep.
  rewrite (pget_or_undef_copy _ _ Hfnd), (pget_or_undef_Some _ _ _ Hcur).
  mstep. rewrite (pget_or_undef_Some _ _ _ Hex).
  rewrite (pget_or_undef_Some _ _ _ Hvals).
  mstep_by ltac:(erewrite Array_forEach_run by hlookup;
                 apply remove_loop;
                 [heap_lengths | heap_lengths | hlookup | hlookup | hlookup | lia]).
  mstep.
  rewrite (pget_or_undef_copy _ _ Hfnd), (pget_or_undef_Some _ _ _ Hcur).
  mstep. mstep. mstep.
  eexists _, _, _. split; [run_prim|].
  split; [hlookup|]. split; [hlookup|]. split; [hlookup|].
  split; [hlookup|]. split; [heap_lengths|].
  intros l o Hne E. hlookup.
Qed.

End remove_filter_mutates.

(** ** The state the reducer starts from *)

Section dashboard_default.
Context `{Dashboard.ActionTypes} `{Dashboard.Imports}.
Import Dashboard.


End dashboard_default.

(** ** getInitialState and its payload *)

Section initial_state.
Context `{Dashboard.ActionTypes} `{Dashboard.Imports}.
Import Dashboard.

(** X17: [getInitialState] throws a [TypeError] when it is given no payload,
    or a payload whose [common] is missing or [null]: the [delete] on it
    fails before anything is allocated or changed. *)
Theorem getInitialState_needs_common (payload : val) (h : heap) :
  payload = VUndef \/ payload = VNull \/
  (exists (b : loc) (bps : props),
     payload = VRef b /\ h !! b = Some (OObj bps) /\
     (pget_or_undef "common" bps = VUndef \/ pget_or_undef "common" bps = VNull)) ->
  getInitialState payload h = (Throw TypeError, h).
Proof.
  intros [-> | [-> | (b & bps & -> & Hb & Hc)]]; [reflexivity | reflexivity |].
  unfold getInitialState. mstep. mstep. mstep.
  destruct Hc as [-> | ->]; reflexivity.
Qed.

End initial_state.

(** ** getInitialState: the names of the initial filters *)

Section initial_filter_keys.
Context `{Dashboard.ActionTypes} `{Dashboard.Imports}.
Import Dashboard.

Lemma by_slice_key_cons (k : string) (v : val) (es : props) :
  by_slice_key ((k, v) :: es) =
    match slice_key k with
    | Some k' => (k', v) :: by_slice_key es
    | None => by_slice_key es
    end.
Proof. unfold by_slice_key. simpl. now destruct (slice_key k). Qed.

Lemma filters_loop_keys (fl ol : loc) (ops : props) :
  fl <> ol ->
  forall (es acc : props) (X : heap),
  X !! ol = Some (OObj ops) -> X !! fl = Some (OObj acc) ->
  Forall (fun kv : string * val => is_Some (slice_key kv.1)) es ->
  iterM (fun kv : string * val =>
           let key := kv.1 in
           let* sliceId := of_option (parseInt10 key) in
           let* x := get_prop (VRef ol) key in
           set_index (VRef fl) sliceId x) es X
  = (Ret tt,
     <[fl := OObj (pset_all
                     (by_slice_key (map (fun kv => (kv.1, pget_or_undef kv.1 ops)) es))
                     acc)]> X).
Proof.
  intros Hne. induction es as [|[k v] es IH]; intros acc X Hol Hfl Hall.
  - simpl. now rewrite list_insert_id.
  - apply Forall_cons in Hall as [[k' Hsk] Hall]. cbn [fst] in Hsk.
    pose proof Hsk as Hk. unfold slice_key in Hk.
    destruct (parseInt10 k) as [n|] eqn:Hparse; [|discriminate].
    rewrite iterM_cons. cbv beta zeta. cbn [fst]. rewrite Hparse.
    mstep. mstep. mstep.
    erewrite IH; [| hlookup | hlookup | exact Hall].
    rewrite list_insert_insert_eq.
    cbn [map fst]. now rewrite by_slice_key_cons, Hsk.
Qed.

(** X18: the filters [getInitialState] starts with are the entries of the
    parsed text, each filed under [parseInt(key, 10)] as a property name:
    keys that read as the same integer, and all keys that read as no number
    ([NaN]), share one name, and of those the entry visited last stays. *)
Theorem initial_filters_keys_through_parseInt (d : val) (fl ol : loc) (chosen : val)
  (text : string) (ops : props) (h h1 : heap) :
  preselect_text d h = (Ret chosen, h) -> to_key chosen = Some text ->
  JSON_parse text h = (Ret (VRef ol), h1) ->
  h1 !! ol = Some (OObj ops) -> NoDup ops.*1 ->
  Forall (fun kv : string * val => is_Some (slice_key kv.1)) ops ->
  h1 !! fl = Some (OObj []) -> fl <> ol ->
  exists fps : props,
    getInitialState_filters d (VRef fl) h = (Ret tt, <[fl := OObj fps]> h1) /\
    forall k : string, pget k fps = pget k (rev (by_slice_key (own_entries ops))).
Proof.
  intros Ht Hk Hp Hol Hnd Hids Hfl Hne.
  exists (pset_all (by_slice_key (own_entries ops)) []). split.
  - unfold getInitialState_filters. apply try_catch_ret_run.
    rewrite (bind_ret_run _ _ _ _ _ Ht), Hk. mstep.
    rewrite (bind_ret_run _ _ _ _ _ Hp). mstep.
    erewrite filters_loop_keys; [| exact Hne | exact Hol | exact Hfl |].
    + now rewrite (pset_all_own_values _ Hnd).
    + apply Forall_forall. intros kv Hin.
      rewrite Forall_forall in Hids. apply Hids.
      now rewrite <- (own_entries_perm ops).
  - intros k. rewrite pget_pset_all. simpl. now destruct (pget k _).
Qed.

End initial_filter_keys.

(** ** getInitialState: the layout, from position_json *)

Section layout_positions.
Context `{Dashboard.ActionTypes} `{Dashboard.Imports}.
Import Dashboard.

Lemma position_entries_cons (h : heap) (p : loc) (qs : props) (key : string)
  (positions : list val) :
  h !! p = Some (OObj qs) -> to_key (pget_or_undef "slice_id" qs) = Some key ->
  position_entries h (VRef p :: positions) = (key, VRef p) :: position_entries h positions.
Proof. intros Hp Hk. unfold position_entries. simpl. now rewrite Hp, Hk. Qed.

(** The first loop: only [posDict] changes. *)
Lemma position_loop (h : heap) (dl pl pjl : loc) (dps : props) (positions : list val)
  (X0 : heap) :
  keeps dl h X0 -> length h <= pl ->
  pget "posDict" dps = Some (VRef pl) ->
  X0 !! dl = Some (OObj dps) -> X0 !! pjl = Some (OArr positions) ->
  pl <> dl -> pl <> pjl -> is_Some (X0 !! pl) ->
  Forall (position_ok h dl) positions ->
  forall (todo i : nat) (acc : props),
  i + todo = length positions ->
  forEach_from (fun position _ =>
                  let* posDict := get_prop (VRef dl) "posDict" in
                  let* slice_id := get_prop position "slice_id" in
                  set_index posDict slice_id position)
    pjl todo i (<[pl := OObj acc]> X0)
  = (Ret tt, <[pl := OObj (pset_all (position_entries h (drop i positions)) acc)]> X0).
Proof.
  intros Hkeep Hpl Hpd Hd Hpj Hne1 Hne2 [o0 Hpl0] Hok.
  induction todo as [|todo IH]; intros i acc Hlen.
  - simpl. now rewrite drop_ge by lia.
  - destruct (lookup_lt_is_Some_2 positions i) as [position Ep]; [lia|].
    rewrite Forall_forall in Hok.
    destruct (Hok position) as (p & qs & key & x & -> & Hpne & Hp & Hkey & _).
    { eapply list_elem_of_lookup_2. exact Ep. }
    assert (X0 !! p = Some (OObj qs)) as Hp0 by (apply Hkeep; assumption).
    assert (p <> pl) as Hppl by (apply lookup_lt_Some in Hp; lia).
    rewrite (drop_S _ _ _ Ep), (position_entries_cons _ _ _ _ _ Hp Hkey).
    erewrite forEach_from_step; [| hlookup | exact Ep |].
    2:{ mstep. rewrite (pget_or_undef_Some _ _ _ Hpd). mstep. run_prim. }
    rewrite list_insert_insert_eq. rewrite IH by lia. reflexivity.
Qed.


Lemma position_entries_ok (h : heap) (dl : loc) (positions : list val) (key : string)
  (stored : val) :
  Forall (position_ok h dl) positions ->
  pget key (rev (position_entries h positions)) = Some stored ->
  exists (p : loc) (qs : props) (x : val),
    stored = VRef p /\ p <> dl /\ h !! p = Some (OObj qs) /\
    minus (pget_or_undef "col" qs) (VNum 1) = Some x.
Proof.
  intros Hok Hg. apply pget_Some_elem in Hg.
  apply list_elem_of_In, in_rev, list_elem_of_In in Hg.
  unfold position_entries in Hg.
  apply list_elem_of_omap in Hg as (position & Hin & Hf).
  rewrite Forall_forall in Hok.
  destruct (Hok position Hin) as (p & qs & key' & x & -> & Hne & Hp & Hkey & Hx).
  rewrite Hp, Hkey in Hf. injection Hf as <- <-.
  exists p, qs, x. auto.
Qed.

(** The item of a slice, from the positions of the payload. *)
Lemma expected_item_from_positions (h X : heap) (dl si : loc) (sps pps : props)
  (positions : list val) (key : string) (i : nat) :
  keeps dl h X ->
  si <> dl -> h !! si = Some (OObj sps) ->
  to_key (pget_or_undef "slice_id" sps) = Some key ->
  Forall (position_ok h dl) positions ->
  (forall k : string, pget k pps = pget k (rev (position_entries h positions))) ->
  exists ps : props,
    expected_item X pps (VRef si) i = Some ps /\
    match pget key (rev (position_entries h positions)) with
    | None =>
        ps = layout_item key (VNum ((Z.of_nat i * 4 + 1) mod 12 - 1))
               (VNum (Z.of_nat i / 3 * 4)) (VNum 4) (VNum 4)
    | Some stored =>
        exists (p : loc) (qs : props) (x : val),
          stored = VRef p /\ h !! p = Some (OObj qs) /\
          minus (pget_or_undef "col" qs) (VNum 1) = Some x /\
          ps = layout_item key x (pget_or_undef "row" qs)
                 (pget_or_undef "size_x" qs) (pget_or_undef "size_y" qs)
    end.
Proof.
  intros Hkeep Hne Hsi Hkey Hok Hpps.
  assert (pget_or_undef key pps =
            default VUndef (pget key (rev (position_entries h positions)))) as Hstored
    by (unfold pget_or_undef; now rewrite Hpps).
  unfold expected_item. rewrite (Hkeep si _ Hne Hsi), Hkey, Hstored.
  destruct (pget key (rev (position_entries h positions))) as [stored|] eqn:E.
  - destruct (position_entries_ok _ _ _ _ _ Hok E) as (p & qs & x & -> & Hpne & Hp & Hx).
    unfold default, from_option, id. cbn [truthy]. rewrite (Hkeep p _ Hpne Hp), Hx.
    eexists. split; [reflexivity|]. exists p, qs, x. auto.
  - unfold default, from_option, id. cbn [truthy]. eexists. split; reflexivity.
Qed.


Lemma pget_or_undef_pset_ne (k k' : string) (v : val) (ps : props) :
  k <> k' -> pget_or_undef k (pset k' v ps) = pget_or_undef k ps.
Proof. intros Hne. unfold pget_or_undef. now rewrite pget_pset_ne. Qed.

Lemma layout_block_run (dl sl : loc) (dps : props)
  (slices positions : list val) (h : heap) :
  h !! dl = Some (OObj dps) ->
  pget "slices" dps = Some (VRef sl) -> h !! sl = Some (OArr slices) ->
  Forall (slice_ok h dl) slices ->
  (truthy (pget_or_undef "position_json" dps) = false /\ positions = []) \/
  (exists pjl : loc,
     pget "position_json" dps = Some (VRef pjl) /\
     h !! pjl = Some (OArr positions) /\
     Forall (position_ok h dl) positions) ->
  exists (h' : heap) (pl ll : loc) (dps' : props) (its : list val),
    getInitialState_layout (VRef dl) h = (Ret tt, h') /\
    keeps dl h h' /\
    h' !! dl = Some (OObj dps') /\
    pget "posDict" dps' = Some (VRef pl) /\
    pget "layout" dps' = Some (VRef ll) /\
    (forall k : string, k <> "posDict" -> k <> "layout" -> pget k dps' = pget k dps) /\
    h' !! ll = Some (OArr its) /\
    length its = length slices /\
    forall (i si : nat) (sps : props) (key : string),
      slices !! i = Some (VRef si) ->
      h !! si = Some (OObj sps) ->
      to_key (pget_or_undef "slice_id" sps) = Some key ->
      exists (l : loc) (ps : props),
        its !! i = Some (VRef l) /\ h' !! l = Some (OObj ps) /\
        match pget key (rev (position_entries h positions)) with
        | None =>
            ps = layout_item key (VNum ((Z.of_nat i * 4 + 1) mod 12 - 1))
                   (VNum (Z.of_nat i / 3 * 4)) (VNum 4) (VNum 4)
        | Some stored =>
            exists (p : loc) (qs : props) (x : val),
              stored = VRef p /\ h !! p = Some (OObj qs) /\
              minus (pget_or_undef "col" qs) (VNum 1) = Some x /\
              ps = layout_item key x (pget_or_undef "row" qs)
                     (pget_or_undef "size_x" qs) (pget_or_undef "size_y" qs)
        end.
Proof.
  intros Hd Hsl Hs Hslices Hcase.
  set (pl := length h). set (ll := S (length h)).
  set (dps' := pset "layout" (VRef ll) (pset "posDict" (VRef pl) dps)).
  set (X0 := <[dl := OObj dps']> h ++ [OObj []; OArr []]).
  set (pps := pset_all (position_entries h positions) []).
  set (X1 := <[pl := OObj pps]> X0).
  assert (dl < length h) as Hdl by (now apply lookup_lt_Some in Hd).
  assert (sl < length h) as Hsll by (now apply lookup_lt_Some in Hs).
  assert (sl <> dl) as Hsd by (intros ->; rewrite Hd in Hs; discriminate).
  assert (forall (l : loc) (o : obj), l <> dl -> h !! l = Some o -> X0 !! l = Some o) as HX0.
  { intros l o Hne E. unfold X0. apply lookup_app_l_Some.
    now rewrite list_lookup_insert_ne by congruence. }
  assert (X0 !! dl = Some (OObj dps')) as HX0d.
  { unfold X0. apply lookup_app_l_Some. now apply list_lookup_insert_eq. }
  assert (length (<[dl := OObj dps']> h) = length h) as Hlen by apply length_insert.
  assert (X0 !! pl = Some (OObj [])) as HX0p.
  { unfold X0, pl. rewrite <- Hlen. apply lookup_app_first. reflexivity. }
  assert (X0 !! ll = Some (OArr [])) as HX0l.
  { unfold X0, ll. rewrite <- Hlen.
    replace (S (length (<[dl := OObj dps']> h)))
      with (length (<[dl := OObj dps']> h) + 1) by lia.
    apply lookup_app_plus. reflexivity. }
  assert (keeps dl h X1) as Hkeep1.
  { intros l o Hne E. unfold X1. rewrite list_lookup_insert_ne; [now apply HX0|].
    apply lookup_lt_Some in E. unfold pl. lia. }
  assert (X1 !! dl = Some (OObj dps')) as HX1d
    by (unfold X1; rewrite list_lookup_insert_ne by (unfold pl; lia); exact HX0d).
  assert (X1 !! pl = Some (OObj pps)) as HX1p
    by (unfold X1; eapply lookup_insert_same; exact HX0p).
  assert (X1 !! ll = Some (OArr [])) as HX1l
    by (unfold X1; rewrite list_lookup_insert_ne by (unfold pl, ll; lia); exact HX0l).
  assert (pget "posDict" dps' = Some (VRef pl)) as Hpd
    by (unfold dps'; rewrite pget_pset_ne by discriminate; apply pget_pset_eq).
  assert (pget "layout" dps' = Some (VRef ll)) as Hla
    by (unfold dps'; apply pget_pset_eq).
  assert (forall k : string, k <> "posDict" -> k <> "layout" -> pget k dps' = pget k dps)
    as Hrest by (intros k H1 H2; unfold dps'; now rewrite !pget_pset_ne).
  assert (Forall (position_ok h dl) positions) as Hok.
  { destruct Hcase as [[_ ->] | (pjl & _ & _ & Hok)]; [constructor | exact Hok]. }
  assert (forall k : string, pget k pps = pget k (rev (position_entries h positions)))
    as Hpps.
  { intros k. unfold pps. rewrite pget_pset_all. simpl. now destruct (pget k _). }
  (* the run up to the layout of the slices *)
  assert (getInitialState_layout (VRef dl) h = layout_slices (VRef dl) X1) as ->.
  { unfold getInitialState_layout.
    mstep. mstep. mstep. mstep. mstep.
    rewrite !pget_or_undef_pset_ne by discriminate.
    match goal with |- context [bind _ _ ?X] => replace X with X0 end.
    2:{ unfold X0, dps', pl, ll.
        rewrite (insert_app_l h) by lia. rewrite <- app_assoc.
        rewrite insert_app_l by (rewrite length_insert; lia).
        rewrite list_insert_insert_eq, length_app, length_insert. simpl.
        now replace (length h + 1) with (S (length h)) by lia. }
    destruct Hcase as [[Hfalsy Hnil] | (pjl & Hpj & Hpjl & _)].
    - rewrite Hfalsy. erewrite bind_ret_run by reflexivity.
      f_equal. unfold X1, pps. rewrite Hnil. simpl.
      symmetry. now apply list_insert_id.
    - assert (pjl <> dl) as Hpjd by (intros ->; rewrite Hd in Hpjl; discriminate).
      assert (X0 !! pjl = Some (OArr positions)) as HX0pj by (now apply HX0).
      rewrite (pget_or_undef_Some _ _ _ Hpj). cbn [truthy].
      mstep_by ltac:(eapply get_prop_obj_run; exact HX0d).
      unfold dps' at 1. rewrite !pget_or_undef_pset_ne by discriminate.
      rewrite (pget_or_undef_Some _ _ _ Hpj).
      erewrite bind_ret_run; [reflexivity|].
      rewrite (Array_forEach_run _ _ _ _ HX0pj).
      rewrite <- (list_insert_id X0 pl (OObj [])) at 1 by exact HX0p.
      rewrite (position_loop h dl pl pjl dps' positions X0 HX0 (Nat.le_refl _) Hpd HX0d
                 HX0pj); [reflexivity | unfold pl; lia | | eauto | exact Hok | lia].
      apply lookup_lt_Some in Hpjl. unfold pl. lia. }
  (* the layout of the slices *)
  assert (X1 !! sl = Some (OArr slices)) as HX1s by (now apply Hkeep1).
  assert (forall (i : nat) (s : val),
            slices !! i = Some s -> is_Some (expected_item X1 pps s i)) as Hall.
  { intros i s Ei. rewrite Forall_forall in Hslices.
    destruct (Hslices s) as (si & sps & key & -> & Hne & Hsi & Hkey).
    { eapply list_elem_of_lookup_2. exact Ei. }
    destruct (expected_item_from_positions h X1 dl si sps pps positions key i
                Hkeep1 Hne Hsi Hkey Hok Hpps) as (ps & E & _).
    now exists ps. }
  destruct (layout_loop dl pl ll sl dps' pps [] slices X1 Hpd Hla HX1d HX1p HX1l HX1s
              ltac:(unfold ll; lia) Hall (length slices) 0 X1 [] eq_refl
              (keeps_refl ll X1) HX1l)
    as (h' & its & Eloop & Hk' & Hl' & Hlen' & Hits).
  exists h', pl, ll, dps', its. split.
  { unfold layout_slices. mstep_by ltac:(eapply get_prop_obj_run; exact HX1d).
    unfold dps' at 1. rewrite !pget_or_undef_pset_ne by discriminate.
    rewrite (pget_or_undef_Some _ _ _ Hsl).
    now rewrite (Array_forEach_run _ _ _ _ HX1s). }
  split.
  { intros l o Hne E. apply Hk'; [|now apply Hkeep1].
    apply lookup_lt_Some in E. unfold ll. lia. }
  split; [apply Hk'; [unfold ll; lia | exact HX1d]|].
  split; [exact Hpd|]. split; [exact Hla|]. split; [exact Hrest|].
  split; [exact Hl'|]. split; [exact Hlen'|].
  intros i si sps key Ei Hsi Hkey.
  destruct (Hits i (VRef si) Ei) as (l & ps & E1 & E2 & E3).
  { apply lookup_lt_Some in Ei. lia. }
  exists l, ps. split; [exact E1|]. split; [exact E3|].
  rewrite Forall_forall in Hslices.
  destruct (Hslices (VRef si)) as (si' & sps' & key' & [= <-] & Hne & Hsi' & _).
  { eapply list_elem_of_lookup_2. exact Ei. }
  destruct (expected_item_from_positions h X1 dl si sps pps positions key i
              Hkeep1 Hne Hsi Hkey Hok Hpps) as (ps' & E & Hps).
  change (0 + i) with i in E2. rewrite E in E2. injection E2 as <-. exact Hps.
Qed.


End layout_positions.

(** ** getInitialState: the charts *)

Section initial_charts.
Context `{Dashboard.ActionTypes} `{Dashboard.Imports}.
Import Dashboard.

Lemma extends_app_r (h X ext : heap) : extends h X -> extends h (X ++ ext).
Proof. intros HX l o E. apply lookup_app_l_Some. now apply HX. Qed.

Lemma chart_record_run (h X : heap) (ic si cl : loc) (sps cps acc : props)
  (key : string) (index : nat) :
  only_allocates applyDefaultFormData ->
  chart = VRef cl -> h !! cl = Some (OObj cps) -> NoDup cps.*1 ->
  h !! si = Some (OObj sps) ->
  to_key (pget_or_undef "slice_id" sps) = Some key ->
  extends h X -> length h <= ic -> X !! ic = Some (OObj acc) ->
  exists (Y : heap) (rec : loc) (fd : val),
    (fun slice (_ : nat) =>
       let* slice_id := get_prop slice "slice_id" in
       let* chartKey := string_plus "slice_" slice_id in
       let* target := new_object [] in
       let* slice_id := get_prop slice "slice_id" in
       let* form_data := get_prop slice "form_data" in
       let* raw := get_prop slice "form_data" in
       let* formData := applyDefaultFormData raw in
       let* fields := new_object [ ("chartKey", chartKey); ("slice_id", slice_id);
                                   ("form_data", form_data); ("formData", formData) ] in
       let* record := Object_assign target [chart; fields] in
       set_index (VRef ic) chartKey record) (VRef si) index X = (Ret tt, Y) /\
    extends h Y /\ keeps ic X Y /\
    Y !! ic = Some (OObj (pset ("slice_" ++ key) (VRef rec) acc)) /\
    length X <= rec /\ rec <> ic /\
    copied_over Y rec cps (chart_fields key sps fd).
Proof.
  intros Happly Hchart Hcl Hcnd Hsi Hkey HX Hic Hacc.
  pose proof (HX _ _ Hsi) as HXsi. pose proof (HX _ _ Hcl) as HXcl.
  cbv beta. mstep. unfold string_plus. rewrite Hkey. mstep. mstep. mstep.
  mstep. mstep. mstep.
  destruct (Happly (pget_or_undef "form_data" sps) (X ++ [OObj (pset_all [] [])]))
    as (fd & ext & Eapply).
  rewrite (bind_ret_run _ _ _ _ _ Eapply).
  set (X2 := (X ++ [OObj (pset_all [] [])]) ++ ext) in *.
  assert (X2 !! length X = Some (OObj [])) as Ht
    by (unfold X2; apply lookup_app_l_Some; apply lookup_snoc).
  assert (X2 !! ic = Some (OObj acc)) as Hic2
    by (unfold X2; apply lookup_app_l_Some; now apply lookup_snoc_old).
  assert (X2 !! cl = Some (OObj cps)) as Hcl2
    by (unfold X2; apply lookup_app_l_Some; now apply lookup_snoc_old).
  assert (extends X X2) as HXX2
    by (intros l o E; unfold X2; apply lookup_app_l_Some; now apply lookup_snoc_old).
  assert (length X < length X2) as Hlen
    by (unfold X2; rewrite !length_app; simpl; lia).
  assert (ic <> length X) as Hne by (apply lookup_lt_Some in Hacc; lia).
  clearbody X2.
  mstep. rewrite Hchart.
  mstep.
  eexists _, (length X), fd.
  split; [eapply set_index_obj_run; [hlookup | reflexivity]|].
  split.
  { intros l o E. pose proof (lookup_lt_Some _ _ _ E) as Hlt.
    apply HX, HXX2 in E. hlookup. }
  split.
  { intros l o Hne' E. pose proof (lookup_lt_Some _ _ _ E) as Hlt.
    apply HXX2 in E. hlookup. }
  split; [hlookup|]. split; [lia|]. split; [congruence|].
  eapply copied_over_intro; [exact Hcnd | hlookup | unfold chart_fields; copied_fields].
Qed.
Lemma copied_over_keeps (X Y : heap) (ll l : loc) (ps fields : props) :
  keeps ll X Y -> l <> ll -> copied_over X l ps fields -> copied_over Y l ps fields.
Proof.
  intros Hk Hne (rps & Hl & Hps). exists rps. split; [|exact Hps]. now apply Hk.
Qed.

Lemma copied_over_extends (X Y : heap) (l : loc) (ps fields : props) :
  extends X Y -> copied_over X l ps fields -> copied_over Y l ps fields.
Proof. intros HX (rps & Hl & Hps). exists rps. split; [|exact Hps]. now apply HX. Qed.

Lemma charts_loop (h : heap) (dl ic sl cl : loc) (cps : props) (slices : list val) :
  only_allocates applyDefaultFormData ->
  chart = VRef cl -> h !! cl = Some (OObj cps) -> NoDup cps.*1 ->
  h !! sl = Some (OArr slices) -> length h <= ic ->
  Forall (slice_ok h dl) slices ->
  forall (todo i : nat) (X : heap) (acc : props),
  i + todo = length slices -> extends h X -> X !! ic = Some (OObj acc) ->
  exists (Y : heap) (recs : props),
    forEach_from
      (fun slice (_ : nat) =>
         let* slice_id := get_prop slice "slice_id" in
         let* chartKey := string_plus "slice_" slice_id in
         let* target := new_object [] in
         let* slice_id := get_prop slice "slice_id" in
         let* form_data := get_prop slice "form_data" in
         let* raw := get_prop slice "form_data" in
         let* formData := applyDefaultFormData raw in
         let* fields := new_object [ ("chartKey", chartKey); ("slice_id", slice_id);
                                     ("form_data", form_data); ("formData", formData) ] in
         let* record := Object_assign target [chart; fields] in
         set_index (VRef ic) chartKey record) sl todo i X = (Ret tt, Y) /\
    extends h Y /\ keeps ic X Y /\
    Y !! ic = Some (OObj (pset_all recs acc)) /\
    length recs = todo /\
    forall (j si : nat) (sps : props) (key : string),
      slices !! (i + j) = Some (VRef si) -> h !! si = Some (OObj sps) ->
      to_key (pget_or_undef "slice_id" sps) = Some key -> j < todo ->
      exists (rec : loc) (fd : val),
        recs !! j = Some (("slice_" ++ key)%string, VRef rec) /\
        rec <> ic /\ length h <= rec /\
        copied_over Y rec cps (chart_fields key sps fd).
Proof.
  intros Happly Hchart Hcl Hcnd Hsl Hic Hslices.
  induction todo as [|todo IH]; intros i X acc Hlen HX Hacc.
  - exists X, []. repeat split; auto.
    + intros l o _ E. exact E.
    + intros j si sps key _ _ _ Hj. lia.
  - destruct (lookup_lt_is_Some_2 slices i) as [s Es]; [lia|].
    rewrite Forall_forall in Hslices.
    destruct (Hslices s) as (si & sps & key & -> & _ & Hsi & Hkey).
    { eapply list_elem_of_lookup_2. exact Es. }
    destruct (chart_record_run h X ic si cl sps cps acc key i Happly Hchart Hcl Hcnd
                Hsi Hkey HX Hic Hacc)
      as (Y1 & rec & fd & Erun & HY1 & Hk1 & Hic1 & Hrec & Hrne & Hcopy).
    rewrite <- Forall_forall in Hslices.
    destruct (IH (S i) Y1 (pset ("slice_" ++ key) (VRef rec) acc))
      as (Y & recs & Eloop & HY & Hk & HicY & Hrecs & Hall); [lia | exact HY1 | exact Hic1 |].
    exists Y, ((("slice_" ++ key)%string, VRef rec) :: recs).
    split.
    { erewrite forEach_from_step; [exact Eloop | apply HX; exact Hsl | exact Es | exact Erun]. }
    split; [exact HY|].
    split; [eapply keeps_trans; eassumption|].
    split; [exact HicY|]. split; [simpl; now rewrite Hrecs|].
    intros [|j] si' sps' key' Es' Hsi' Hkey' Hj.
    + rewrite Nat.add_0_r in Es'. rewrite Es in Es'. injection Es' as <-.
      rewrite Hsi in Hsi'. injection Hsi' as <-.
      rewrite Hkey in Hkey'. injection Hkey' as <-.
      exists rec, fd. split; [reflexivity|]. split; [exact Hrne|].
      split; [|eapply copied_over_keeps; eassumption].
      assert (length h <= length X); [|lia].
      apply lookup_lt_Some in Hacc. lia.
    + replace (i + S j) with (S i + j) in Es' by lia.
      destruct (Hall j si' sps' key' Es' Hsi' Hkey') as (rec' & fd' & E1 & E2 & E3 & E4); [lia|].
      exists rec', fd'. auto.
Qed.

Lemma slice_copy_run (h X : heap) (si : loc) (sps : props) :
  only_allocates applyDefaultFormData ->
  h !! si = Some (OObj sps) -> NoDup sps.*1 -> extends h X ->
  exists (Y : heap) (cp : loc) (fd : val),
    (fun slice =>
       let* target := new_object [] in
       let* raw := get_prop slice "form_data" in
       let* formData := applyDefaultFormData raw in
       let* fields := new_object [ ("formData", formData) ] in
       Object_assign target [slice; fields]) (VRef si) X = (Ret (VRef cp), Y) /\
    extends X Y /\ length X <= cp /\
    copied_over Y cp sps [("formData", fd)].
Proof.
  intros Happly Hsi Hnd HX. pose proof (HX _ _ Hsi) as HXsi.
  cbv beta. mstep. mstep.
  destruct (Happly (pget_or_undef "form_data" sps) (X ++ [OObj (pset_all [] [])]))
    as (fd & ext & Eapply).
  rewrite (bind_ret_run _ _ _ _ _ Eapply).
  set (X2 := (X ++ [OObj (pset_all [] [])]) ++ ext) in *.
  assert (X2 !! length X = Some (OObj [])) as Ht
    by (unfold X2; apply lookup_app_l_Some; apply lookup_snoc).
  assert (X2 !! si = Some (OObj sps)) as Hsi2
    by (unfold X2; apply lookup_app_l_Some; now apply lookup_snoc_old).
  assert (extends X X2) as HXX2
    by (intros l o E; unfold X2; apply lookup_app_l_Some; now apply lookup_snoc_old).
  clearbody X2.
  mstep.
  eexists _, (length X), fd. split; [run_prim|].
  split.
  { intros l o E. pose proof (lookup_lt_Some _ _ _ E) as Hlt.
    apply HXX2 in E. hlookup. }
  split; [lia|].
  eapply copied_over_intro; [exact Hnd | hlookup | copied_fields].
Qed.

Lemma slices_copy_loop (h : heap) (dl sl : loc) (slices : list val) :
  only_allocates applyDefaultFormData ->
  (forall (si : loc) (sps : props),
     VRef si ∈ slices -> h !! si = Some (OObj sps) -> NoDup sps.*1) ->
  h !! sl = Some (OArr slices) ->
  Forall (slice_ok h dl) slices ->
  forall (todo i : nat) (X : heap) (out : list val),
  i + todo = length slices -> extends h X ->
  exists (Y : heap) (copies : list loc),
    map_from
      (fun slice =>
         let* target := new_object [] in
         let* raw := get_prop slice "form_data" in
         let* formData := applyDefaultFormData raw in
         let* fields := new_object [ ("formData", formData) ] in
         Object_assign target [slice; fields]) sl todo i out X
    = (Ret (out ++ (VRef <$> copies)), Y) /\
    extends X Y /\
    length copies = todo /\
    forall (j si : nat) (sps : props),
      slices !! (i + j) = Some (VRef si) -> h !! si = Some (OObj sps) -> j < todo ->
      exists (cp : loc) (fd : val),
        copies !! j = Some cp /\ length h <= cp /\
        copied_over Y cp sps [("formData", fd)].
Proof.
  intros Happly Hwf Hsl Hslices.
  induction todo as [|todo IH]; intros i X out Hlen HX.
  - exists X, []. simpl. rewrite app_nil_r. repeat split; auto.
    + apply extends_refl.
    + intros j si sps _ _ Hj. lia.
  - destruct (lookup_lt_is_Some_2 slices i) as [s Es]; [lia|].
    rewrite Forall_forall in Hslices.
    destruct (Hslices s) as (si & sps & key & -> & _ & Hsi & _).
    { eapply list_elem_of_lookup_2. exact Es. }
    rewrite <- Forall_forall in Hslices.
    destruct (slice_copy_run h X si sps Happly Hsi
                (Hwf _ _ (list_elem_of_lookup_2 _ _ _ Es) Hsi) HX)
      as (Y1 & cp & fd & Erun & HXY1 & Hcp & Hcopy).
    destruct (IH (S i) Y1 (out ++ [VRef cp]))
      as (Y & copies & Eloop & HY1Y & Hcopies & Hall);
      [lia | eapply extends_trans; eassumption |].
    exists Y, (cp :: copies). split.
    { cbn [map_from]. unfold bind at 1, deref. rewrite (HX _ _ Hsl), Es.
      rewrite (bind_ret_run _ _ _ _ _ Erun), Eloop.
      now rewrite <- app_assoc. }
    split; [eapply extends_trans; eassumption|].
    split; [simpl; now rewrite Hcopies|].
    intros [|j] si' sps' Es' Hsi' Hj.
    + rewrite Nat.add_0_r in Es'. rewrite Es in Es'. injection Es' as <-.
      rewrite Hsi in Hsi'. injection Hsi' as <-.
      exists cp, fd. split; [reflexivity|]. split.
      * assert (length h <= length X); [|lia].
        destruct (Nat.le_gt_cases (length h) (length X)) as [Hle|Hgt]; [exact Hle|].
        apply lookup_lt_Some in Hsi.
        destruct (lookup_lt_is_Some_2 h (length X)) as [o Ho]; [lia|].
        apply HX in Ho. apply lookup_lt_Some in Ho. lia.
      * eapply copied_over_extends; eassumption.
    + replace (i + S j) with (S i + j) in Es' by lia.
      destruct (Hall j si' sps' Es' Hsi') as (cp' & fd' & E1 & E2 & E3); [lia|].
      exists cp', fd'. auto.
Qed.

Lemma charts_block_run (h : heap) (dl sl cl : loc) (dps cps : props)
  (slices : list val) :
  only_allocates applyDefaultFormData ->
  (forall (si : loc) (sps : props),
     VRef si ∈ slices -> h !! si = Some (OObj sps) -> NoDup sps.*1) ->
  chart = VRef cl -> h !! cl = Some (OObj cps) -> NoDup cps.*1 ->
  h !! dl = Some (OObj dps) ->
  pget "slices" dps = Some (VRef sl) -> h !! sl = Some (OArr slices) ->
  Forall (slice_ok h dl) slices ->
  exists (h' : heap) (ic na : loc) (recs : props) (copies : list loc),
    getInitialState_charts (VRef dl) h = (Ret (VRef ic), h') /\
    keeps dl h h' /\ length h <= ic /\ length h <= na /\
    h' !! dl = Some (OObj (pset "slices" (VRef na) dps)) /\
    h' !! na = Some (OArr (VRef <$> copies)) /\
    h' !! ic = Some (OObj (pset_all recs [])) /\
    length recs = length slices /\ length copies = length slices /\
    forall (i si : nat) (sps : props) (key : string),
      slices !! i = Some (VRef si) -> h !! si = Some (OObj sps) ->
      to_key (pget_or_undef "slice_id" sps) = Some key ->
      exists (rec cp : loc) (fd1 fd2 : val),
        recs !! i = Some (("slice_" ++ key)%string, VRef rec) /\
        copies !! i = Some cp /\
        length h <= rec /\ length h <= cp /\
        copied_over h' rec cps (chart_fields key sps fd1) /\
        copied_over h' cp sps [("formData", fd2)].
Proof.
  intros Happly Hwf Hchart Hcl Hcnd Hd Hss Hsl Hslices.
  assert (dl < length h) as Hdlt by (now apply lookup_lt_Some in Hd).
  assert (extends h (h ++ [OObj []])) as HX0 by apply extends_snoc.
  destruct (charts_loop h dl (length h) sl cl cps slices Happly Hchart Hcl Hcnd
              Hsl (Nat.le_refl _) Hslices (length slices) 0 (h ++ [OObj []]) []
              eq_refl HX0 (lookup_snoc h _))
    as (Y & recs & Eloop & HY & HkY & HicY & Hrecs & Hrec).
  destruct (slices_copy_loop h dl sl slices Happly Hwf Hsl Hslices (length slices) 0 Y []
              eq_refl HY)
    as (Y2 & copies & Emap & HYY2 & Hcopies & Hcopy).
  pose proof (extends_trans _ _ _ HY HYY2) as HY2.
  exists (<[dl := OObj (pset "slices" (VRef (length Y2)) dps)]> (Y2 ++ [OArr (VRef <$> copies)])),
    (length h), (length Y2), recs, copies.
  assert (length h < length Y2) as Hlen.
  { apply HYY2 in HicY. now apply lookup_lt_Some in HicY. }
  split.
  { unfold getInitialState_charts.
    mstep. mstep. rewrite (pget_or_undef_Some _ _ _ Hss).
    erewrite bind_ret_run;
      [| rewrite (Array_forEach_run _ _ _ _ (HX0 _ _ Hsl)); exact Eloop].
    erewrite bind_ret_run; [| eapply get_prop_obj_run; apply HY; exact Hd].
    rewrite (pget_or_undef_Some _ _ _ Hss).
    erewrite bind_ret_run.
    2:{ unfold Array_map_any.
        rewrite (bind_ret_run _ _ _ _ _ (array_elems_run _ _ _ (HY _ _ Hsl))).
        rewrite (bind_ret_run _ _ _ _ _ Emap). reflexivity. }
    erewrite bind_ret_run;
      [| eapply set_prop_obj_run; apply lookup_snoc_old; apply HY2; exact Hd].
    reflexivity. }
  split.
  { intros l o Hne E. apply lookup_insert_other; [exact Hne|].
    apply lookup_snoc_old. now apply HY2. }
  split; [lia|]. split; [lia|].
  split; [eapply lookup_insert_same; apply lookup_snoc_old; apply HY2; exact Hd|].
  split; [apply lookup_insert_other; [lia | apply lookup_snoc]|].
  split.
  { apply lookup_insert_other; [lia|]. apply lookup_snoc_old. now apply HYY2. }
  split; [exact Hrecs|]. split; [exact Hcopies|].
  intros i si sps key Ei Hsi Hkey.
  assert (i < length slices) as Hi by (now apply lookup_lt_Some in Ei).
  destruct (Hrec i si sps key Ei Hsi Hkey Hi) as (rec & fd1 & E1 & Hrne & Hrlen & Hrcopy).
  destruct (Hcopy i si sps Ei Hsi Hi) as (cp & fd2 & E2 & Hclen & Hccopy).
  exists rec, cp, fd1, fd2. split; [exact E1|]. split; [exact E2|].
  split; [exact Hrlen|]. split; [exact Hclen|].
  assert (forall (l : loc) (ps fields : props),
            length h <= l -> copied_over Y2 l ps fields ->
            copied_over
              (<[dl := OObj (pset "slices" (VRef (length Y2)) dps)]>
                 (Y2 ++ [OArr (VRef <$> copies)])) l ps fields) as Hlift.
  { intros l ps fields Hl (rps & El & Hps). exists rps. split; [|exact Hps].
    apply lookup_insert_other; [lia|]. now apply lookup_snoc_old. }
  split; apply Hlift; try assumption.
  exact (copied_over_extends _ _ _ _ _ HYY2 Hrcopy).
Qed.

(** X20: the charts block of [getInitialState] returns a new object that
    holds, under [slice_<id>] for each slice, a new record: [chart] with
    [chartKey], [slice_id], [form_data] and [formData] written over it.  It
    replaces [dashboard.slices] by a new array of copies of the slices, each
    with a [formData].  The slices themselves and every other object but the
    dashboard stay as they were. *)
Theorem initial_charts_per_slice (h : heap) (dl sl cl : loc) (dps cps : props)
  (slices : list val) :
  only_allocates applyDefaultFormData -> distinct_names h ->
  chart = VRef cl -> h !! cl = Some (OObj cps) ->
  h !! dl = Some (OObj dps) ->
  pget "slices" dps = Some (VRef sl) -> h !! sl = Some (OArr slices) ->
  Forall (slice_ok h dl) slices ->
  exists (h' : heap) (ic na : loc) (recs : props) (copies : list loc),
    getInitialState_charts (VRef dl) h = (Ret (VRef ic), h') /\
    keeps dl h h' /\ length h <= ic /\ length h <= na /\
    h' !! dl = Some (OObj (pset "slices" (VRef na) dps)) /\
    h' !! na = Some (OArr (VRef <$> copies)) /\
    h' !! ic = Some (OObj (pset_all recs [])) /\
    length recs = length slices /\ length copies = length slices /\
    forall (i si : nat) (sps : props) (key : string),
      slices !! i = Some (VRef si) -> h !! si = Some (OObj sps) ->
      to_key (pget_or_undef "slice_id" sps) = Some key ->
      exists (rec cp : loc) (fd1 fd2 : val),
        recs !! i = Some (("slice_" ++ key)%string, VRef rec) /\
        copies !! i = Some cp /\
        length h <= rec /\ length h <= cp /\
        copied_over h' rec cps (chart_fields key sps fd1) /\
        copied_over h' cp sps [("formData", fd2)].
Proof.
  intros Happly Hwf Hchart Hcl.
  apply (charts_block_run h dl sl cl dps cps slices Happly); auto.
  - intros si sps _ Hsi. exact (Hwf _ _ Hsi).
  - exact (Hwf _ _ Hcl).
Qed.


End initial_charts.

(** ** getInitialState, from the payload to the state *)

Section initial_state_whole.
Context `{Dashboard.ActionTypes} `{Dashboard.Imports}.
Import Dashboard.

Lemma delete_prop_obj_run (X : heap) (l : loc) (ps : props) (k : string) :
  X !! l = Some (OObj ps) ->
  delete_prop (VRef l) k X = (Ret tt, <[l := OObj (pdel k ps)]> X).
Proof. intros E. unfold delete_prop, bind, deref. now rewrite E. Qed.

Lemma slice_ok_keeps (h X : heap) (cl dl : loc) (slice : val) :
  keeps cl h X -> length h <= dl -> slice_ok h cl slice -> slice_ok X dl slice.
Proof.
  intros Hk Hdl (si & sps & key & -> & Hne & Hsi & Hkey).
  exists si, sps, key. repeat split; [|now apply Hk|exact Hkey].
  apply lookup_lt_Some in Hsi. lia.
Qed.

Lemma position_ok_keeps (h X : heap) (cl dl : loc) (position : val) :
  keeps cl h X -> length h <= dl -> position_ok h cl position -> position_ok X dl position.
Proof.
  intros Hk Hdl (p & qs & key & x & -> & Hne & Hp & Hkey & Hx).
  exists p, qs, key, x. repeat split; [|now apply Hk|exact Hkey|exact Hx].
  apply lookup_lt_Some in Hp. lia.
Qed.

Lemma slice_ok_same (X Y : heap) (dl : loc) (slice : val) :
  keeps dl X Y -> slice_ok X dl slice -> slice_ok Y dl slice.
Proof.
  intros Hk (si & sps & key & -> & Hne & Hsi & Hkey).
  exists si, sps, key. repeat split; [exact Hne|now apply Hk|exact Hkey].
Qed.

(** Without a request parameter and without metadata the try block fails on
    [dashboard.metadata.default_filters], and nothing is done. *)
Lemma filters_block_no_metadata (dl : loc) (dps : props) (f param : val) (X : heap) :
  (forall Y : heap, getParam "preselect_filters" Y = (Ret param, Y)) ->
  truthy param = false ->
  X !! dl = Some (OObj dps) -> pget "metadata" dps = None ->
  getInitialState_filters (VRef dl) f X = (Ret tt, X).
Proof.
  intros Hparam Hfalsy Hd Hm. unfold getInitialState_filters.
  erewrite try_catch_throw_run; [reflexivity|].
  eapply bind_throw_run.
  rewrite (preselect_text_default _ _ _ (Hparam X) Hfalsy).
  cbn [get_path]. mstep_by ltac:(eapply get_prop_obj_run; exact Hd).
  unfold pget_or_undef. rewrite Hm. reflexivity.
Qed.

(** X21: on a payload whose dashboard has no metadata, and with no filters
    in the request, [getInitialState] returns a new
    [{ charts, dashboard: { filters, dashboard, userId, datasources, common } }]
    with no filters.  It works on a copy of [dashboard_data]: that object,
    and every other object that was there, stays as it was, but for
    [common]: [locale] and [language_pack] are deleted from the caller's
    object, which the result shares. *)
Theorem getInitialState_assembles (b cl ddl sl chl : loc)
  (bps cps ddps chps : props) (slices positions : list val) (param : val) (h : heap) :
  only_allocates applyDefaultFormData ->
  distinct_names h ->
  (forall Y : heap, getParam "preselect_filters" Y = (Ret param, Y)) ->
  truthy param = false ->
  h !! b = Some (OObj bps) ->
  pget "common" bps = Some (VRef cl) -> h !! cl = Some (OObj cps) -> b <> cl ->
  pget "dashboard_data" bps = Some (VRef ddl) -> h !! ddl = Some (OObj ddps) ->
  ddl <> cl ->
  pget "metadata" ddps = None ->
  pget "slices" ddps = Some (VRef sl) -> h !! sl = Some (OArr slices) ->
  Forall (slice_ok h cl) slices ->
  (truthy (pget_or_undef "position_json" ddps) = false /\ positions = []) \/
  (exists pjl : loc,
     pget "position_json" ddps = Some (VRef pjl) /\
     h !! pjl = Some (OArr positions) /\
     Forall (position_ok h cl) positions) ->
  chart = VRef chl -> h !! chl = Some (OObj chps) -> chl <> cl ->
  exists (r ic ds : loc) (dps' : props) (h' : heap),
    getInitialState (VRef b) h = (Ret (VRef r), h') /\
    keeps cl h h' /\
    h' !! cl = Some (OObj (pdel "language_pack" (pdel "locale" cps))) /\
    h' !! r = Some (OObj [("charts", VRef ic); ("dashboard", VRef ds)]) /\
    h' !! ds = Some (OObj [ ("filters", VRef (S (length h)));
                            ("dashboard", VRef (length h));
                            ("userId", pget_or_undef "user_id" bps);
                            ("datasources", pget_or_undef "datasources" bps);
                            ("common", VRef cl) ]) /\
    h' !! S (length h) = Some (OObj []) /\
    h' !! length h = Some (OObj dps') /\
    (forall k : string,
       k <> "posDict" -> k <> "layout" -> k <> "slices" -> pget k dps' = pget k ddps) /\
    length h <= ic /\ length h <= ds /\ length h <= r.
Proof.
  intros Happly Hwf Hparam Hfalsy Hb Hc Hcl Hbc Hdd Hddl Hdc Hm Hss Hsl Hslices Hcase
    Hchart Hchl Hchc.
  set (cps' := pdel "language_pack" (pdel "locale" cps)).
  set (dcopy := pset_all (own_entries ddps) []).
  set (h1 := <[cl := OObj cps']> h).
  set (X := h1 ++ [OObj dcopy; OObj []]).
  assert (length h1 = length h) as Hlen1 by apply length_insert.
  assert (cl < length h) as Hcllt by (now apply lookup_lt_Some in Hcl).
  assert (keeps cl h X) as HkX.
  { intros l o Hne E. unfold X, h1. apply lookup_app_l_Some.
    now rewrite list_lookup_insert_ne by congruence. }
  assert (X !! cl = Some (OObj cps')) as HXcl.
  { unfold X, h1. apply lookup_app_l_Some. now apply list_lookup_insert_eq. }
  assert (X !! length h = Some (OObj dcopy)) as HXD.
  { unfold X. rewrite <- Hlen1. apply lookup_app_first. reflexivity. }
  assert (X !! S (length h) = Some (OObj [])) as HXF.
  { unfold X. rewrite <- Hlen1.
    replace (S (length h1)) with (length h1 + 1) by lia.
    apply lookup_app_plus. reflexivity. }
  assert (NoDup ddps.*1) as Hddnd by exact (Hwf _ _ Hddl).
  assert (forall k : string, pget k dcopy = pget k ddps) as Hdcopy
    by (intros k; unfold dcopy; now apply pget_copy_nil).
  (* lines 11 to 16 *)
  assert (getInitialState (VRef b) h =
            (let* _ := getInitialState_filters (VRef (length h)) (VRef (S (length h))) in
             let* _ := getInitialState_layout (VRef (length h)) in
             let* initCharts := getInitialState_charts (VRef (length h)) in
             let* target := new_object [] in
             let* fields :=
               new_object [ ("filters", VRef (S (length h)));
                            ("dashboard", VRef (length h));
                            ("userId", pget_or_undef "user_id" bps);
                            ("datasources", pget_or_undef "datasources" bps);
                            ("common", VRef cl) ] in
             let* dashboardState := Object_assign target [fields] in
             new_object [ ("charts", initCharts); ("dashboard", dashboardState) ]) X)
    as ->.
  { unfold getInitialState.
    mstep. mstep. mstep. rewrite (pget_or_undef_Some _ _ _ Hc).
    mstep_by ltac:(eapply delete_prop_obj_run; hlookup).
    mstep_by ltac:(eapply delete_prop_obj_run; hlookup).
    rewrite list_insert_insert_eq. fold cps'. fold h1.
    assert (h1 !! b = Some (OObj bps)) as Hb1
      by (unfold h1; now rewrite list_lookup_insert_ne by congruence).
    assert (h1 !! ddl = Some (OObj ddps)) as Hdd1
      by (unfold h1; now rewrite list_lookup_insert_ne by congruence).
    mstep. mstep. rewrite (pget_or_undef_Some _ _ _ Hdd).
    mstep. mstep.
    rewrite !length_insert, !length_app, !Hlen1. simpl length.
    replace (length h + 1) with (S (length h)) by lia.
    match goal with |- bind _ _ ?Y = _ => replace Y with X; [reflexivity|] end.
    unfold X. rewrite <- Hlen1.
    rewrite <- (Nat.add_0_r (length h1)) at 1. rewrite insert_app_r.
    now rewrite <- app_assoc. }
  (* the filters: nothing is done *)
  assert (pget "metadata" dcopy = None) as Hm' by (rewrite Hdcopy; exact Hm).
  rewrite (bind_ret_run _ _ _ _ _
             (filters_block_no_metadata (length h) dcopy (VRef (S (length h))) param X
                Hparam Hfalsy HXD Hm')).
  (* the layout *)
  assert (sl <> cl) as Hslc by (intros ->; rewrite Hcl in Hsl; discriminate).
  assert (Forall (slice_ok X (length h)) slices) as HslicesX.
  { eapply Forall_impl; [exact Hslices|]. intros s. now apply slice_ok_keeps. }
  assert ((truthy (pget_or_undef "position_json" dcopy) = false /\ positions = []) \/
          (exists pjl : loc,
             pget "position_json" dcopy = Some (VRef pjl) /\
             X !! pjl = Some (OArr positions) /\
             Forall (position_ok X (length h)) positions)) as HcaseX.
  { unfold pget_or_undef. rewrite Hdcopy.
    destruct Hcase as [Hleft | (pjl & Hpj & Hpjl & Hok)]; [left; exact Hleft|].
    right. exists pjl. rewrite ?Hdcopy. split; [exact Hpj|]. split.
    - apply HkX; [|exact Hpjl]. intros ->. rewrite Hcl in Hpjl. discriminate.
    - eapply Forall_impl; [exact Hok|]. intros p. now apply position_ok_keeps. }
  destruct (layout_block_run (length h) sl dcopy slices positions X HXD
              ltac:(rewrite Hdcopy; exact Hss) (HkX _ _ Hslc Hsl) HslicesX HcaseX)
    as (h2 & pl & ll & dps2 & its & Elay & Hk2 & HD2 & _ & _ & Hrest2 & _).
  rewrite (bind_ret_run _ _ _ _ _ Elay).
  (* the charts *)
  assert (forall (l : loc) (o : obj), l <> cl -> h !! l = Some o -> h2 !! l = Some o)
    as Hkh2.
  { intros l o Hne E. apply Hk2; [|now apply HkX].
    apply lookup_lt_Some in E. lia. }
  assert (Forall (slice_ok h2 (length h)) slices) as Hslices2.
  { eapply Forall_impl; [exact HslicesX|]. intros s. now apply slice_ok_same. }
  assert (forall (si : loc) (sps : props),
            VRef si ∈ slices -> h2 !! si = Some (OObj sps) -> NoDup sps.*1) as Hnames2.
  { intros si sps Hin Hsi2. rewrite Forall_forall in Hslices.
    destruct (Hslices _ Hin) as (si' & sps' & key & [= <-] & Hne & Hsi & _).
    rewrite (Hkh2 _ _ Hne Hsi) in Hsi2. injection Hsi2 as <-.
    exact (Hwf _ _ Hsi). }
  assert (pget "slices" dps2 = Some (VRef sl)) as Hss2
    by (rewrite Hrest2 by discriminate; rewrite Hdcopy; exact Hss).
  destruct (charts_block_run h2 (length h) sl chl dps2 chps slices Happly Hnames2 Hchart
              (Hkh2 _ _ Hchc Hchl) (Hwf _ _ Hchl) HD2 Hss2 (Hkh2 _ _ Hslc Hsl) Hslices2)
    as (h3 & ic & na & recs & copies & Ech & Hk3 & Hic & _ & HD3 & _ & Hic3 & _).
  rewrite (bind_ret_run _ _ _ _ _ Ech).
  (* lines 75 to 78 *)
  assert (forall (l : loc) (o : obj), l <> length h -> X !! l = Some o -> h3 !! l = Some o)
    as HkX3 by (intros l o Hne E; apply Hk3; [exact Hne|]; now apply Hk2).
  assert (length h < length h2) as Hlen2.
  { assert (h2 !! S (length h) = Some (OObj [])) as E by (apply Hk2; [lia | exact HXF]).
    apply lookup_lt_Some in E. lia. }
  assert (length h2 <= length h3) as Hlen3
    by (apply lookup_lt_Some in Hic3; lia).
  nstep. nstep. nstep.
  eexists _, ic, _, _, _. split; [nrun_prim|]. hnorm.
  split.
  { intros l o Hne E. apply lookup_app_l_Some. apply HkX3; [|now apply HkX].
    apply lookup_lt_Some in E. lia. }
  split; [apply lookup_app_l_Some; apply HkX3; [lia | exact HXcl]|].
  split; [apply lookup_app_plus; reflexivity|].
  split; [apply lookup_app_first; reflexivity|].
  split; [apply lookup_app_l_Some; apply HkX3; [lia | exact HXF]|].
  split; [apply lookup_app_l_Some; exact HD3|].
  split.
  { intros k H1 H2 H3. rewrite pget_pset_ne by exact H3.
    rewrite Hrest2 by assumption. apply Hdcopy. }
  repeat split; lia.
Qed.
End initial_state_whole.

(** ** The handlers on a concrete dashboard *)

Section handler_runs.
Import Env Dashboard.

Lemma env_action_types_NoDup : NoDup action_types.
Proof. apply (bool_decide_unpack _); vm_compute; exact I. Qed.

Ltac keys_NoDup := apply (bool_decide_unpack _); vm_compute; exact I.

Lemma dashboard_fave_star_copies_witness :
  exists (r : loc) (h' : heap),
    dashboard (VRef board_state) (VRef star) board = (Ret (VRef r), h') /\
    length board <= r /\ extends board h' /\
    copied_over h' r [("dashboard", VRef 8); ("filters", VRef 11)]
      [("isStarred", VBool true)].
Proof.
  refine (dashboard_fave_star_copies board_state star _ _ board
            env_action_types_NoDup eq_refl _ eq_refl eq_refl).
  keys_NoDup.
Defined.

Lemma dashboard_update_title_or_layout_witness :
  exists (r nd : loc) (h' : heap),
    dashboard (VRef board_state) (VRef retitle) board = (Ret (VRef r), h') /\
    length board <= r /\ length board <= nd /\ extends board h' /\
    copied_over h' r [("dashboard", VRef 8); ("filters", VRef 11)]
      [("dashboard", VRef nd)] /\
    copied_over h' nd
      [("dashboard_title", VStr "Births"); ("slices", VRef 3);
       ("metadata", VRef 5); ("layout", VRef 7)]
      [("dashboard_title", VStr "Deaths")].
Proof.
  refine (dashboard_update_title_or_layout board_state retitle 8 _ _ _
            "UPDATE_DASHBOARD_TITLE" "dashboard_title" "title" board
            env_action_types_NoDup eq_refl _ eq_refl eq_refl eq_refl _ eq_refl
            (or_introl (conj eq_refl (conj eq_refl eq_refl)))); keys_NoDup.
Defined.

Lemma dashboard_toggle_expand_slice_witness :
  exists (r nd nm ne : loc) (h' : heap),
    dashboard (VRef board_state) (VRef expand) board = (Ret (VRef r), h') /\
    extends board h' /\
    copied_over h' r [("dashboard", VRef 8); ("filters", VRef 11)]
      [("dashboard", VRef nd)] /\
    copied_over h' nd
      [("dashboard_title", VStr "Births"); ("slices", VRef 3);
       ("metadata", VRef 5); ("layout", VRef 7)]
      [("metadata", VRef nm)] /\
    copied_over h' nm [("expanded_slices", VRef 4)] [("expanded_slices", VRef ne)] /\
    copied_over h' ne [("2", VBool true)] [("1", VBool true)] /\
    length board <= r /\ length board <= nd /\ length board <= nm /\ length board <= ne.
Proof.
  refine (dashboard_toggle_expand_slice board_state expand 8 5 4 2 _ _ _ _ _ _ "1" board
            env_action_types_NoDup eq_refl _ eq_refl eq_refl _ eq_refl eq_refl _
            eq_refl eq_refl _ eq_refl eq_refl eq_refl eq_refl eq_refl); keys_NoDup.
Defined.

Lemma board_other_slice : Forall (other_slice board (VNum 7)) [VRef 2].
Proof.
  repeat constructor. exists 2, [("slice_id", VNum 1); ("formData", VRef 1)].
  repeat split.
Qed.

Lemma add_filter_unknown_slice_witness :
  dashboard (VRef board_state) (VRef add_to_unknown) board
  = (Ret (VRef board_state), board).
Proof.
  exact (add_filter_unknown_slice board_state add_to_unknown 8 3 _ _ _ [VRef 2] board
           env_action_types_NoDup eq_refl eq_refl eq_refl eq_refl eq_refl eq_refl eq_refl
           board_other_slice).
Defined.

Lemma board_selects :
  selects board (VNum 1) [VRef 2] 2 [("slice_id", VNum 1); ("formData", VRef 1)].
Proof. exists [], []. repeat split. constructor. Qed.

Lemma board_not_filterable :
  not_filterable board [("slice_id", VNum 1); ("formData", VRef 1)] (VStr "b").
Proof.
  split; [reflexivity|].
  exists 1, 0, [("groupby", VRef 0)], [VStr "a"]. repeat split.
Qed.

Lemma add_filter_other_column_witness :
  exists (r nf : loc) (h' : heap),
    dashboard (VRef board_state) (VRef add_ungrouped) board = (Ret (VRef r), h') /\
    extends board h' /\
    copied_over h' r [("dashboard", VRef 8); ("filters", VRef 11)]
      [("filters", VRef nf); ("refresh", VBool false)] /\
    copied_over h' nf [("1", VRef 10)] [] /\
    length board <= r /\ length board <= nf.
Proof.
  refine (add_filter_other_column board_state add_ungrouped 8 3 11 2 _ _ _ _ _ [VRef 2]
            board env_action_types_NoDup eq_refl _ eq_refl eq_refl eq_refl eq_refl
            eq_refl eq_refl _ eq_refl eq_refl board_selects board_not_filterable);
    keys_NoDup.
Defined.



Lemma remove_filter_changes_state_witness :
  exists (r a : loc) (h' : heap),
    dashboard (VRef board_state) (VRef remove_a) board = (Ret (VRef r), h') /\
    h' !! board_state = Some (OObj [("dashboard", VRef 8); ("filters", VRef 11)]) /\
    h' !! 11%nat = Some (OObj [("1", VRef 10)]) /\
    h' !! 10%nat = Some (OObj (pset "a" (VRef a) [("a", VRef 9)])) /\
    h' !! a = Some (OArr (kept [VStr "x"] [VStr "x"])) /\
    length board <= a /\
    keeps 10 board h'.
Proof.
  refine (remove_filter_changes_state board_state remove_a 11 10 9 9 _ _ _ _ _ _
            "1" "a" board env_action_types_NoDup eq_refl _ eq_refl eq_refl eq_refl
            eq_refl eq_refl eq_refl _ eq_refl eq_refl _ _ eq_refl eq_refl eq_refl
            eq_refl); [keys_NoDup | keys_NoDup | discriminate | discriminate].
Defined.

Lemma getInitialState_needs_common_witness :
  getInitialState (VRef 0) [OObj [("user_id", VNum 1); ("dashboard_data", VNull)]]
  = (Throw TypeError, [OObj [("user_id", VNum 1); ("dashboard_data", VNull)]]).
Proof.
  refine (getInitialState_needs_common (VRef 0) _ _).
  right. right. eexists _, _. split; [reflexivity|]. split; [reflexivity|].
  left. reflexivity.
Defined.


Lemma board_layout_items : Forall (fun item => is_Some (item_key board item)) [VRef 6].
Proof. repeat constructor. eexists. reflexivity. Qed.

Lemma remove_slice_filters_layout_witness :
  exists (r nd : loc) (h' : heap),
    dashboard (VRef board_state) (VRef remove_slice_1) board = (Ret (VRef r), h') /\
    extends (board ++ [OArr (layout_without board "1" [VRef 6])]) h' /\
    h' !! length board = Some (OArr (layout_without board "1" [VRef 6])) /\
    copied_over h' r [("dashboard", VRef 8); ("filters", VRef 11)]
      [("dashboard", VRef nd)] /\
    copied_over h' nd
      [("dashboard_title", VStr "Births"); ("slices", VRef 3);
       ("metadata", VRef 5); ("layout", VRef 7)]
      [("layout", VRef (length board))] /\
    length (board ++ [OArr (layout_without board "1" [VRef 6])]) <= r /\
    length (board ++ [OArr (layout_without board "1" [VRef 6])]) <= nd.
Proof.
  refine (remove_slice_filters_layout board_state remove_slice_1 8 7 2 8 _ _ _ _ _
            [VRef 6] "1" board _ env_action_types_NoDup eq_refl _ eq_refl eq_refl
            eq_refl eq_refl board_layout_items eq_refl eq_refl eq_refl eq_refl eq_refl
            eq_refl (extends_refl _) eq_refl _); keys_NoDup.
Defined.

Lemma odd_keys_parse (kv : string * val) :
  kv ∈ [("7", VNum 1); ("07", VNum 2); ("x", VNum 3)] -> is_Some (slice_key kv.1).
Proof.
  rewrite !elem_of_cons, elem_of_nil.
  intros [-> | [-> | [-> | []]]]; eexists; reflexivity.
Qed.

Lemma initial_filters_keys_through_parseInt_witness :
  exists fps : props,
    getInitialState_filters (VRef 1) (VRef 2) odd_keys =
      (Ret tt,
       <[2%nat := OObj fps]>
         (odd_keys ++ [OObj [("7", VNum 1); ("07", VNum 2); ("x", VNum 3)]])) /\
    forall k : string,
      pget k fps = pget k [("NaN", VNum 3); ("7", VNum 2); ("7", VNum 1)].
Proof.
  refine (initial_filters_keys_through_parseInt (VRef 1) 2 3 (VStr odd_keys_text)
            odd_keys_text [("7", VNum 1); ("07", VNum 2); ("x", VNum 3)] odd_keys _
            eq_refl eq_refl eq_refl eq_refl _ _ eq_refl _).
  - keys_NoDup.
  - apply Forall_forall. exact odd_keys_parse.
  - discriminate.
Defined.

Ltac slices_ok :=
  repeat (apply Forall_cons; split; [eexists _, _, _; repeat split; discriminate|]);
  apply Forall_nil_2.


Lemma distinct_names_Forall (h : heap) :
  Forall (fun o => match o with OObj ps => NoDup ps.*1 | _ => True end) h ->
  distinct_names h.
Proof.
  intros Hall l ps E. rewrite Forall_forall in Hall.
  apply (Hall (OObj ps)). eapply list_elem_of_lookup_2. exact E.
Qed.

Lemma at_charts_distinct_names : distinct_names at_charts.
Proof.
  apply distinct_names_Forall. unfold at_charts, at_filters, bootstrap. simpl app.
  repeat (apply Forall_cons; split; [first [exact I | keys_NoDup]|]).
  apply Forall_nil_2.
Qed.

Lemma charting_only_allocates (c : loc) :
  only_allocates (Dashboard.applyDefaultFormData (Imports := charting c)).
Proof. intros v X. exists v, []. now rewrite app_nil_r. Qed.

Lemma initial_charts_per_slice_witness :
  exists (h' : heap) (ic na : loc) (recs : props) (copies : list loc),
    getInitialState_charts (H0 := charting 15) (VRef 13) at_charts = (Ret (VRef ic), h') /\
    keeps 13 at_charts h' /\ length at_charts <= ic /\ length at_charts <= na /\
    h' !! 13%nat =
      Some (OObj (pset "slices" (VRef na)
                    [("metadata", VRef 2); ("slices", VRef 8); ("position_json", VRef 10)])) /\
    h' !! na = Some (OArr (VRef <$> copies)) /\
    h' !! ic = Some (OObj (pset_all recs [])) /\
    length recs = length [VRef 3; VRef 4; VRef 5; VRef 6; VRef 7] /\
    length copies = length [VRef 3; VRef 4; VRef 5; VRef 6; VRef 7] /\
    forall (i si : nat) (sps : props) (key : string),
      [VRef 3; VRef 4; VRef 5; VRef 6; VRef 7] !! i = Some (VRef si) ->
      at_charts !! si = Some (OObj sps) ->
      to_key (pget_or_undef "slice_id" sps) = Some key ->
      exists (rec cp : loc) (fd1 fd2 : val),
        recs !! i = Some (("slice_" ++ key)%string, VRef rec) /\
        copies !! i = Some cp /\
        length at_charts <= rec /\ length at_charts <= cp /\
        copied_over h' rec [("chartStatus", VStr "loading")] (chart_fields key sps fd1) /\
        copied_over h' cp sps [("formData", fd2)].
Proof.
  refine (initial_charts_per_slice (H0 := charting 15) at_charts 13 8 15 _ _
            [VRef 3; VRef 4; VRef 5; VRef 6; VRef 7]
            (charting_only_allocates 15) at_charts_distinct_names eq_refl eq_refl eq_refl
            eq_refl eq_refl _).
  slices_ok.
Defined.

Lemma plain_payload_distinct_names : distinct_names plain_payload.
Proof.
  apply distinct_names_Forall. unfold plain_payload.
  repeat (apply Forall_cons; split; [first [exact I | keys_NoDup]|]).
  apply Forall_nil_2.
Qed.

Lemma getInitialState_assembles_witness :
  exists (r ic ds : loc) (dps' : props) (h' : heap),
    getInitialState (H0 := charting 5) (VRef 4) plain_payload = (Ret (VRef r), h') /\
    keeps 0 plain_payload h' /\
    h' !! 0%nat = Some (OObj [("conf", VNull)]) /\
    h' !! r = Some (OObj [("charts", VRef ic); ("dashboard", VRef ds)]) /\
    h' !! ds = Some (OObj [ ("filters", VRef 7); ("dashboard", VRef 6);
                            ("userId", VNum 1); ("datasources", VNull);
                            ("common", VRef 0) ]) /\
    h' !! 7%nat = Some (OObj []) /\
    h' !! 6%nat = Some (OObj dps') /\
    (forall k : string,
       k <> "posDict" -> k <> "layout" -> k <> "slices" ->
       pget k dps' = pget k [("slices", VRef 2)]) /\
    length plain_payload <= ic /\ length plain_payload <= ds /\
    length plain_payload <= r.
Proof.
  refine (getInitialState_assembles (H0 := charting 5) 4 0 3 2 5 _ _ _ _ [VRef 1] []
            (VStr "") plain_payload (charting_only_allocates 5)
            plain_payload_distinct_names (fun Y => eq_refl) eq_refl eq_refl eq_refl eq_refl
            _ eq_refl eq_refl _ eq_refl eq_refl eq_refl _
            (or_introl (conj eq_refl eq_refl)) eq_refl eq_refl _); try discriminate.
  slices_ok.
Defined.

End handler_runs.
